(** * clusterpedia: reflector list phase and internal resource storage

    A shallow embedding of
      - pkg/runtime/informer/reflector.go        (module [Informer])
      - pkg/storage/internalstorage/types.go     (module [InternalStorage])
      - pkg/storage/internalstorage/resource_storage.go
    Go values are modelled by their Rocq counterparts: [string] for Go
    strings and byte slices holding JSON text, [Z] for int64 (wrap-around
    written out where the code does arithmetic), [option] for nilable
    pointers, maps and slices where the code tests them against nil,
    [gmap] for Go maps whose iteration order is not observed. *)

From stdpp Require Import base strings list gmap pretty.
From Stdlib Require Import ZArith Lia Ascii.

Open Scope string_scope.
Open Scope list_scope.
Open Scope Z_scope.

(** ** Go runtime conventions shared by both packages *)

(** A Go [error] value. API status errors keep the fields the code
    inspects (see k8s.io/apimachinery/pkg/api/errors); everything else is
    a plain message (fmt.Errorf, errors.New, driver errors). *)
Inductive StatusReason :=
| StatusReasonUnknown
| StatusReasonExpired
| StatusReasonGone
| StatusReasonTimeout
| StatusReasonTooManyRequests
| StatusReasonInternalError
| StatusReasonNotFound
| StatusReasonAlreadyExists.

Record StatusCause := mkCause { causeType : string; causeMessage : string }.

Record Status := mkStatus {
  statusReason : StatusReason;
  statusDetails : option (list StatusCause);
}.

Inductive error :=
| APIStatusError (s : Status)
| PlainError (msg : string)
| WrappedError (msg : string) (inner : error).

#[global] Instance StatusReason_eq_dec : EqDecision StatusReason.
Proof. solve_decision. Defined.

(** The outcome of a Go call that may return an error or panic. *)
Inductive Res (A : Type) :=
| Ok (a : A)
| Err (e : error)
| Panic (msg : string).
Arguments Ok {A} a.
Arguments Err {A} e.
Arguments Panic {A} msg.

Definition res_bind {A B} (x : Res A) (f : A -> Res B) : Res B :=
  match x with
  | Ok a => f a
  | Err e => Err e
  | Panic m => Panic m
  end.

(** A returned [error]: nil is success. *)
Definition resultOf (err : option error) : Res unit :=
  match err with
  | None => Ok tt
  | Some e => Err e
  end.

Definition res_map {A B} (f : A -> B) (x : Res A) : Res B :=
  res_bind x (fun a => Ok (f a)).

Notation "x <~ y ; z" := (res_bind y (fun x => z))
  (at level 20, y at level 100, z at level 200, only parsing).

(** int64 arithmetic: the mathematical result reduced into
    [-2^63, 2^63). *)
Definition int64_min : Z := - 2 ^ 63.
Definition int64_max : Z := 2 ^ 63 - 1.
Definition wrap64 (z : Z) : Z := (z + 2 ^ 63) mod 2 ^ 64 - 2 ^ 63.
Definition add64 (a b : Z) : Z := wrap64 (a + b).
Definition sub64 (a b : Z) : Z := wrap64 (a - b).
Definition in_int64 (z : Z) : Prop := int64_min <= z <= int64_max.

(** strconv.FormatInt(z, 10). *)
Definition FormatInt10 (z : Z) : string := pretty z.

(** * The reflector (pkg/runtime/informer/reflector.go) *)
Module Informer.

(** apierrors.ReasonForError: the reason of an API status error, unknown
    for nil and for every other error. *)
Definition ReasonForError (err : option error) : StatusReason :=
  match err with
  | Some (APIStatusError s) => statusReason s
  | _ => StatusReasonUnknown
  end.

Definition IsResourceExpired (err : option error) : bool :=
  bool_decide (ReasonForError err = StatusReasonExpired).
Definition IsGone (err : option error) : bool :=
  bool_decide (ReasonForError err = StatusReasonGone).
Definition IsTimeout (err : option error) : bool :=
  bool_decide (ReasonForError err = StatusReasonTimeout).

(** metav1.CauseTypeResourceVersionTooLarge *)
Definition CauseTypeResourceVersionTooLarge : string := "ResourceVersionTooLarge".

(** apierrors.HasStatusCause *)
Definition HasStatusCause (err : option error) (name : string) : bool :=
  match err with
  | Some (APIStatusError s) =>
      match statusDetails s with
      | Some causes => existsb (fun c => bool_decide (causeType c = name)) causes
      | None => false
      end
  | _ => false
  end.

Definition isExpiredError (err : option error) : bool :=
  IsResourceExpired err || IsGone err.

Definition isTooLargeResourceVersionError (err : option error) : bool :=
  if HasStatusCause err CauseTypeResourceVersionTooLarge then true
  else if negb (IsTimeout err) then false
  else match err with
       | Some (APIStatusError s) =>
           match statusDetails s with
           | None => false
           | Some causes =>
               existsb (fun c => bool_decide (causeMessage c = "Too large resource version")) causes
           end
       | _ => false
       end.

(** The fields of [Reflector] the list phase reads or writes. The store
    is threaded separately (see [Store]). *)
Record Reflector := mkReflector {
  paginatedResult : bool;
  lastSyncResourceVersion : string;
  isLastSyncResourceVersionUnavailable : bool;
  WatchListPageSize : Z;
  StreamHandleForPaginatedList : bool;
  ForcePaginatedList : bool;
}.

Definition setLastSyncResourceVersion (v : string) (r : Reflector) : Reflector :=
  {| paginatedResult := paginatedResult r;
     lastSyncResourceVersion := v;
     isLastSyncResourceVersionUnavailable := isLastSyncResourceVersionUnavailable r;
     WatchListPageSize := WatchListPageSize r;
     StreamHandleForPaginatedList := StreamHandleForPaginatedList r;
     ForcePaginatedList := ForcePaginatedList r |}.

Definition setIsLastSyncResourceVersionUnavailable (isUnavailable : bool) (r : Reflector) : Reflector :=
  {| paginatedResult := paginatedResult r;
     lastSyncResourceVersion := lastSyncResourceVersion r;
     isLastSyncResourceVersionUnavailable := isUnavailable;
     WatchListPageSize := WatchListPageSize r;
     StreamHandleForPaginatedList := StreamHandleForPaginatedList r;
     ForcePaginatedList := ForcePaginatedList r |}.

Definition setPaginatedResult (b : bool) (r : Reflector) : Reflector :=
  {| paginatedResult := b;
     lastSyncResourceVersion := lastSyncResourceVersion r;
     isLastSyncResourceVersionUnavailable := isLastSyncResourceVersionUnavailable r;
     WatchListPageSize := WatchListPageSize r;
     StreamHandleForPaginatedList := StreamHandleForPaginatedList r;
     ForcePaginatedList := ForcePaginatedList r |}.

Definition LastSyncResourceVersion (r : Reflector) : string :=
  lastSyncResourceVersion r.

Definition relistResourceVersion (r : Reflector) : string :=
  if isLastSyncResourceVersionUnavailable r then ""
  else if bool_decide (lastSyncResourceVersion r = "") then
         if ForcePaginatedList r then "" else "0"
  else lastSyncResourceVersion r.

(** *** What the list phase talks to *)

(** An API object as the list phase sees it: cache.MetaNamespaceKeyFunc
    needs its namespace and name, and fails on objects without metadata. *)
Record Obj := mkObj {
  objMeta : option (string * string);
  objPayload : string;
}.

Definition MetaNamespaceKeyFunc (o : Obj) : string * option error :=
  match objMeta o with
  | None => ("", Some (PlainError "object has no meta"))
  | Some (ns, name) =>
      if bool_decide (ns = "") then (name, None) else (ns +:+ "/" +:+ name, None)
  end.

(** The argument of store.Replace: full objects, or cache.ExplicitKey
    tokens when the items were already streamed into the store. *)
Inductive StoreItem :=
| ItemObject (o : Obj)
| ItemExplicitKey (key : string).

(** cache.Store, restricted to the two methods the list phase calls. *)
Class Store (S : Type) := {
  storeAdd : S -> Obj -> S * option error;
  storeReplace : S -> list StoreItem -> string -> S * option error;
}.

(** The list object a pager returns. [None] for [listObject] stands for
    a result meta.ListAccessor cannot understand. *)
Record ListObj := mkListObj {
  listResourceVersion : string;
  listItems : list Obj;
}.

(** One call of the pager: the options it is given, the page size the
    reflector configured and whether a result stream was attached. *)
Record PagerCall := mkPagerCall {
  callResourceVersion : string;
  callPageSize : Z;
  callStream : bool;
}.

(** [listWithResultStream] has pager.List run in a goroutine of its
    own, which assigns the named results [list], [paginatedResult] and
    [err] once the pager has returned, with nothing to order these
    assignments before the return of the loop that drains the channel:
    which of the three the caller gets to see is up to the scheduler. *)
Record Seen := mkSeen {
  seenList : bool;
  seenPaginated : bool;
  seenErr : bool;
}.

(** What the pager (pkg/runtime/informer/pager, outside this file) hands
    back: the aggregated list, the objects it pushed into the result
    stream, whether more than one page was fetched, and the error; and,
    for a call made by [listWithResultStream], which of these results
    had reached the named results when the call returned. *)
Record PagerResult := mkPagerResult {
  prList : option ListObj;
  prStreamed : list Obj;
  prPaginated : bool;
  prErr : option error;
  prSeen : Seen;
}.

(** The remote side: the answer to the n-th pager call of a list phase. *)
Definition ListerWatcher := nat -> PagerCall -> PagerResult.

(** clspager.New leaves the default page size in place. *)
Definition defaultPageSize : Z := 500.

(** What one pager invocation leaves in the variables [list],
    [itemKeys], [paginatedResult] and [err] of [Reflector.list]. *)
Record ListAttempt := mkListAttempt {
  laList : option ListObj;
  laItemKeys : list StoreItem;
  laPaginated : bool;
  laErr : option error;
}.

(** The outcome of [Reflector.list]: the reflector and the store as the
    call leaves them, the returned error, and every pager call made,
    each with the reflector state it was made in. *)
Record ListRun (S : Type) := mkListRun {
  runReflector : Reflector;
  runStore : S;
  runErr : option error;
  runCalls : list (Reflector * PagerCall);
}.
Arguments mkListRun {S} _ _ _ _.
Arguments runReflector {S} _.
Arguments runStore {S} _.
Arguments runErr {S} _.
Arguments runCalls {S} _.

Section ListPhase.
Context {S : Type} `{Store S}.
Variable listerWatcher : ListerWatcher.

(** The loop of [listWithResultStream] over the result channel: every
    streamed object is added to the store and remembered by its key; the
    first failure ends the loop with that error. *)
Fixpoint sinkStream (st : S) (objs : list Obj) (itemKeys : list StoreItem)
  : S * list StoreItem * option error :=
  match objs with
  | [] => (st, itemKeys, None)
  | obj :: rest =>
      match MetaNamespaceKeyFunc obj with
      | (_, Some err) => (st, itemKeys, Some err)
      | (key, None) =>
          match storeAdd st obj with
          | (st', Some err) => (st', itemKeys, Some err)
          | (st', None) => sinkStream st' rest (itemKeys ++ [ItemExplicitKey key])
          end
      end
  end.

(** [listWithResultStream]: the store and [itemKeys] are the loop's.
    The named results [list] and [paginatedResult] hold what pager.List
    returned if the goroutine's assignment was seen, and their zero
    value otherwise; [err] holds the pager's error if that assignment
    was seen last, and otherwise what the loop left in it: the error
    that ended it, or nil, which the loop assigns with every object. *)
Definition listWithResultStream (st : S) (res : PagerResult) : S * ListAttempt :=
  let seen := prSeen res in
  let '(st', keys, loopErr) := sinkStream st (prStreamed res) [] in
  (st',
   mkListAttempt (if seenList seen then prList res else None)
                 keys
                 (if seenPaginated seen then prPaginated res else false)
                 (if seenErr seen then prErr res else loopErr)).

(** The switch that configures pager.PageSize. *)
Definition pagerPageSize (r : Reflector) (resourceVersion : string) : Z :=
  if bool_decide (WatchListPageSize r ≠ 0) then WatchListPageSize r
  else if paginatedResult r then defaultPageSize
  else if bool_decide (resourceVersion ≠ "") && bool_decide (resourceVersion ≠ "0") then 0
  else defaultPageSize.

(** One of the two [if r.StreamHandleForPaginatedList {...} else {...}]
    blocks: the n-th pager call of this list phase. *)
Definition runPager (r : Reflector) (st : S) (n : nat) (call : PagerCall) : S * ListAttempt :=
  let res := listerWatcher n call in
  if StreamHandleForPaginatedList r then listWithResultStream st res
  else (st, mkListAttempt (prList res) [] (prPaginated res) (prErr res)).

Definition syncWith (st : S) (items : list Obj) (resourceVersion : string) : S * option error :=
  storeReplace st (ItemObject <$> items) resourceVersion.

Definition syncWithKeys (st : S) (keys : list StoreItem) (resourceVersion : string) : S * option error :=
  storeReplace st keys resourceVersion.

Definition firstCall (r : Reflector) : PagerCall :=
  let options := relistResourceVersion r in
  mkPagerCall options (pagerPageSize r options) (StreamHandleForPaginatedList r).

(** The body of the list goroutine: the first pager call and, after an
    expired or too-large error, the immediate second one. The page size
    is the one configured before the first call; the retry computes its
    own options, the outer [options] keeps the first resource version. *)
Definition listAttempts (r : Reflector) (st : S)
  : Reflector * S * ListAttempt * list (Reflector * PagerCall) :=
  let call0 := firstCall r in
  let '(st1, a1) := runPager r st 0 call0 in
  if isExpiredError (laErr a1) || isTooLargeResourceVersionError (laErr a1) then
    let r' := setIsLastSyncResourceVersionUnavailable true r in
    let call1 := mkPagerCall (relistResourceVersion r') (callPageSize call0)
                             (StreamHandleForPaginatedList r') in
    let '(st2, a2) := runPager r' st1 1 call1 in
    (r', st2, a2, [(r, call0); (r', call1)])
  else (r, st1, a1, [(r, call0)]).

(** What the last pager call of the list goroutine left behind. *)
Definition lastAttempt (r : Reflector) (st : S) : ListAttempt :=
  (listAttempts r st).1.2.

(** [Reflector.list] (named [Reflector_list]: [list] is the type of
    lists here) on the runs where the list goroutine finishes
    before the stop channel fires and without panicking. *)
Definition Reflector_list (r : Reflector) (st : S) : ListRun S :=
  let options := relistResourceVersion r in
  let '(r1, st1, a, calls) := listAttempts r st in
  match laErr a with
  | Some err => mkListRun r1 st1 (Some (WrappedError "failed to list" err)) calls
  | None =>
      let r2 := if bool_decide (options = "0") && laPaginated a
                then setPaginatedResult true r1 else r1 in
      let r3 := setIsLastSyncResourceVersionUnavailable false r2 in
      match laList a with
      | None => mkListRun r3 st1 (Some (PlainError "unable to understand list result")) calls
      | Some l =>
          let resourceVersion := listResourceVersion l in
          let '(st2, e) :=
            if bool_decide (List.length (laItemKeys a) ≠ 0%nat)
            then syncWithKeys st1 (laItemKeys a) resourceVersion
            else syncWith st1 (listItems l) resourceVersion in
          match e with
          | Some err => mkListRun r3 st2 (Some (WrappedError "unable to sync list result" err)) calls
          | None => mkListRun (setLastSyncResourceVersion resourceVersion r3) st2 None calls
          end
      end
  end.

End ListPhase.

End Informer.

(** * The internal storage (pkg/storage/internalstorage) *)
Module InternalStorage.

(** Go [[]byte] / [datatypes.JSON] holding JSON text. *)
Abbreviation bytes := string.
(** [time.Time], as nanoseconds since the epoch. *)
Abbreviation Time := Z.

(** ** API machinery the storage layer works on *)

Record OwnerReference := mkOwnerReference {
  ownerRefUID : string;
  ownerRefController : option bool;
}.

(** metav1.ObjectMeta, the fields the storage layer reads or writes. *)
Record ObjectMeta := mkObjectMeta {
  metaName : string;
  metaNamespace : string;
  metaUID : string;
  metaResourceVersion : string;
  metaCreationTimestamp : Time;
  metaDeletionTimestamp : option Time;
  metaOwnerReferences : list OwnerReference;
  metaAnnotations : option (gmap string string);
}.

Definition zeroObjectMeta : ObjectMeta :=
  mkObjectMeta "" "" "" "" 0 None [] None.

Definition SetAnnotations (annos : option (gmap string string)) (m : ObjectMeta) : ObjectMeta :=
  mkObjectMeta (metaName m) (metaNamespace m) (metaUID m) (metaResourceVersion m)
    (metaCreationTimestamp m) (metaDeletionTimestamp m) (metaOwnerReferences m) annos.

(** metav1.GetControllerOfNoCopy: the first owner reference whose
    Controller pointer is set and true. *)
Fixpoint GetControllerOfNoCopy (refs : list OwnerReference) : option OwnerReference :=
  match refs with
  | [] => None
  | ref :: rest =>
      match ownerRefController ref with
      | Some true => Some ref
      | _ => GetControllerOfNoCopy rest
      end
  end.

Record GroupVersionKind := mkGVK { gvkGroup : string; gvkVersion : string; gvkKind : string }.

(** A pointer to a typed API struct: TypeMeta, ObjectMeta and the rest of
    the struct as its encoding. *)
Record TypedObject := mkTyped {
  typedAPIVersion : string;
  typedKind : string;
  typedObjectMeta : ObjectMeta;
  typedBody : bytes;
}.

(** [*unstructured.Unstructured]: the keys of its Object map that the
    storage layer touches, and the remaining content. *)
Record Unstructured := mkUnstructured {
  unstrAPIVersion : string;
  unstrKind : string;
  unstrMetadata : option ObjectMeta;
  unstrBody : bytes;
}.

Definition zeroTyped : TypedObject := mkTyped "" "" zeroObjectMeta "".
Definition zeroUnstructured : Unstructured := mkUnstructured "" "" None "".

(** A [runtime.Object]. [Untyped] stands for the objects that do not
    implement metav1.Object (meta.Accessor fails on them). *)
Inductive RuntimeObject :=
| Typed (t : TypedObject)
| Unstr (u : Unstructured)
| Untyped (gvk : GroupVersionKind) (body : bytes).

(** meta.Accessor *)
Definition Accessor (obj : RuntimeObject) : Res ObjectMeta :=
  match obj with
  | Typed t => Ok (typedObjectMeta t)
  | Unstr u => Ok (default zeroObjectMeta (unstrMetadata u))
  | Untyped _ _ => Err (PlainError "object does not implement the Object interfaces")
  end.

(** Writing through the accessor returned by meta.Accessor. *)
Definition withObjectMeta (m : ObjectMeta) (obj : RuntimeObject) : RuntimeObject :=
  match obj with
  | Typed t => Typed (mkTyped (typedAPIVersion t) (typedKind t) m (typedBody t))
  | Unstr u => Unstr (mkUnstructured (unstrAPIVersion u) (unstrKind u) (Some m) (unstrBody u))
  | Untyped g b => Untyped g b
  end.

(** schema.ParseGroupVersion and schema.FromAPIVersionAndKind. *)
Fixpoint splitSlash (s : string) (acc : string) : list string :=
  match s with
  | EmptyString => [acc]
  | String c rest =>
      if bool_decide (c = "/"%char) then acc :: splitSlash rest ""
      else splitSlash rest (acc +:+ String c "")
  end.

Definition ParseGroupVersion (gv : string) : option (string * string) :=
  if bool_decide (gv = "") || bool_decide (gv = "/") then Some ("", "")
  else match splitSlash gv "" with
       | [v] => Some ("", v)
       | [g; v] => Some (g, v)
       | _ => None
       end.

Definition FromAPIVersionAndKind (apiVersion kind : string) : GroupVersionKind :=
  match ParseGroupVersion apiVersion with
  | Some (g, v) => mkGVK g v kind
  | None => mkGVK "" "" kind
  end.

Definition GroupVersionKind_Empty (gvk : GroupVersionKind) : bool :=
  bool_decide (gvkGroup gvk = "") && bool_decide (gvkVersion gvk = "")
  && bool_decide (gvkKind gvk = "").

(** The GroupVersionKind method of Unstructured: the empty GroupVersionKind,
    kind included, when the apiVersion does not parse. *)
Definition Unstructured_GroupVersionKind (u : Unstructured) : GroupVersionKind :=
  match ParseGroupVersion (unstrAPIVersion u) with
  | Some (g, v) => mkGVK g v (unstrKind u)
  | None => mkGVK "" "" ""
  end.

(** [obj.GetObjectKind().GroupVersionKind()]: from the TypeMeta of a
    typed object, from the apiVersion and kind members of an
    unstructured one. *)
Definition GetObjectKind (obj : RuntimeObject) : GroupVersionKind :=
  match obj with
  | Typed t => FromAPIVersionAndKind (typedAPIVersion t) (typedKind t)
  | Unstr u => Unstructured_GroupVersionKind u
  | Untyped g _ => g
  end.

(** runtime.Codec: the configured codec of a storage. Decode is given
    the target object and returns the object it decoded into. *)
Record Codec := mkCodec {
  Encode : RuntimeObject -> Res bytes;
  Decode : bytes -> RuntimeObject -> Res RuntimeObject;
}.

(** corev1.Event *)
Record Event := mkEvent {
  eventUID : string;
  eventNamespace : string;
  eventName : string;
  eventResourceVersion : string;
  eventInvolvedObjectUID : string;
  eventMessage : string;
}.

(** internal.ListOptions, the fields read in this package. *)
Record ListOptions := mkListOptions {
  ClusterNames : list string;
  Namespaces : list string;
  OwnerUID : string;
  OwnerName : string;
  OwnerGroupResource : string * string;
  OwnerSeniority : Z;
  Limit : Z;
  Continue : string;
  WithContinue : option bool;
  WithRemainingCount : option bool;
  OnlyMetadata : bool;
  InjectEvents : bool;
}.

(** ** The database handle *)

(** A value in a column of the resources table. *)
Inductive SQLValue :=
| SQLNull
| SQLString (s : string)
| SQLJSON (b : bytes)
| SQLTime (t : Time)
| SQLInt (z : Z).

#[global] Instance SQLValue_eq_dec : EqDecision SQLValue.
Proof. solve_decision. Defined.

(** clause.Expr: an SQL fragment and its bound variables. *)
Record Expr := mkExpr { exprSQL : string; exprVars : list string }.

Definition gorm_Expr (sql : string) (vars : list string) : Expr := mkExpr sql vars.

(** What the engine stores for an expression in a JSON column: the
    literal NULL, or the bound JSON text. *)
Definition evalJSONExpr (e : Expr) : SQLValue :=
  match exprVars e with
  | [] => if bool_decide (exprSQL e = "NULL") then SQLNull else SQLJSON (exprSQL e)
  | v :: _ => SQLJSON v
  end.

(** An argument of a [Where] condition. A sub-select is kept as the
    handle that [buildOwnerQueryBy...] returned, by its SQL text. *)
Inductive OwnerQuery :=
| OwnerQueryString (uid : string)
| OwnerQuerySubquery (sql : string).

Inductive WhereClause :=
| WhereMap (m : gmap string string)
| WhereSQL (sql : string) (arg : OwnerQuery)
| WhereRaw (sql : string) (args : list string).

(** The statement a [*gorm.DB] chain has built so far. *)
Record Query := mkQuery {
  queryWhere : list WhereClause;
  querySelect : list string;
  queryLimit : option Z;
  queryOffset : option Z;
  queryOrder : list string;
}.

Definition emptyQuery : Query := mkQuery [] [] None None [].

Definition Where (c : WhereClause) (q : Query) : Query :=
  mkQuery (queryWhere q ++ [c]) (querySelect q) (queryLimit q) (queryOffset q) (queryOrder q).

Definition Select (cols : list string) (q : Query) : Query :=
  mkQuery (queryWhere q) cols (queryLimit q) (queryOffset q) (queryOrder q).

(** The open handle: the dialect it was opened with and the rows of the
    resources table, each a map from column name to value. *)
Record DB := mkDB {
  dialectorName : string;
  serverIsMariaDB : bool;
  tableRows : list (gmap string SQLValue);
  nextID : Z;
}.

Definition withRows (rows : list (gmap string SQLValue)) (db : DB) : DB :=
  mkDB (dialectorName db) (serverIsMariaDB db) rows (nextID db).

(** ** types.go *)

Record ResourceType := mkResourceType {
  rtGroup : string;
  rtVersion : string;
  rtResource : string;
  rtKind : string;
}.

#[global] Instance ResourceType_eq_dec : EqDecision ResourceType.
Proof. solve_decision. Defined.

Definition ResourceType_Empty (rt : ResourceType) : bool :=
  bool_decide (rt = mkResourceType "" "" "" "").

(** [JSONMap], a Go map from string to JSON values (kept as their JSON
    text); [None] is the nil map. *)
Abbreviation JSONMap := (option (gmap string bytes)).

Definition doubleQuote : string := String (ascii_of_nat 34) EmptyString.

(** gorm.io/datatypes, JSONMap.MarshalJSON: the text null for the nil
    map, otherwise the JSON object of its members. *)
Definition datatypes_JSONMap_MarshalJSON (m : JSONMap) : bytes :=
  match m with
  | None => "null"
  | Some kvs =>
      "{" +:+ String.concat ","
                ((fun kv => doubleQuote +:+ kv.1 +:+ doubleQuote +:+ ":" +:+ kv.2)
                   <$> map_to_list kvs)
          +:+ "}"
  end.

(** gorm.io/datatypes, JSONMap.GormValue: the marshalled map as a bound
    variable, cast to JSON on a MySQL server proper. *)
Definition datatypes_JSONMap_GormValue (db : DB) (m : JSONMap) : Expr :=
  let data := datatypes_JSONMap_MarshalJSON m in
  if bool_decide (dialectorName db = "mysql") && negb (serverIsMariaDB db)
  then gorm_Expr "CAST(? AS JSON)" [data]
  else gorm_Expr "?" [data].

(** gorm.io/datatypes, JSON.GormValue. *)
Definition datatypes_JSON_GormValue (db : DB) (js : bytes) : Expr :=
  if bool_decide (js = "") then gorm_Expr "NULL" []
  else if bool_decide (dialectorName db = "mysql") && negb (serverIsMariaDB db)
  then gorm_Expr "CAST(? AS JSON)" [js]
  else gorm_Expr "?" [js].

Definition JSONMap_GormValue (db : DB) (m : JSONMap) : Expr :=
  match m with
  | None => gorm_Expr "NULL" []
  | Some _ => datatypes_JSONMap_GormValue db m
  end.

(** The [Resource] struct, one row of the resources table on the Go
    side. *)
Record Resource := mkResource {
  resID : Z;
  resGroup : string;
  resVersion : string;
  resResource : string;
  resKind : string;
  resCluster : string;
  resNamespace : string;
  resName : string;
  resOwnerUID : string;
  resUID : string;
  resResourceVersion : string;
  resObject : bytes;
  resEvents : JSONMap;
  resEventResourceVersions : JSONMap;
  resCreatedAt : Time;
  resSyncedAt : Time;
  resDeletedAt : option Time;
}.

Record ResourceMetadata := mkResourceMetadata {
  rmResourceType : ResourceType;
  rmMetadata : bytes;
}.

Record ResourceMetadataWithEvents := mkResourceMetadataWithEvents {
  rmeResourceMetadata : ResourceMetadata;
  rmeEvents : bytes;
}.

Record BytesWithEvents := mkBytesWithEvents {
  bweObject : bytes;
  bweEvents : bytes;
}.

(** The implementations of the [Object] interface that a list result
    can hold. *)
Inductive Object :=
| ObjResourceMetadata (data : ResourceMetadata)
| ObjBytes (b : bytes)
| ObjResourceMetadataWithEvents (data : ResourceMetadataWithEvents)
| ObjBytesWithEvents (data : BytesWithEvents).

(** The implementations of the [ObjectList] interface chosen by
    [genListObjectsQuery]. *)
Inductive ObjectListKind :=
| ResourceMetadataWithEventsList
| ResourceMetadataList
| BytesWithEventsList
| BytesList.

(** A value placed in the map handed to [Updates]. *)
Inductive GoValue :=
| GoString (s : string)
| GoJSON (b : bytes)
| GoTime (t : Time)
| GoNullTime (t : Time) (valid : bool).

(** A [context.Context], as far as a statement depends on it: what
    [ctx.Err()] answers when the statement is run. *)
Record Context := mkContext {
  ctxErr : option error;
}.

(** context.Background() *)
Definition Background : Context := mkContext None.

(** The statements that write to the resources table: [Create] of a
    resource, and [Updates] and [Delete] on the rows that satisfy a
    condition. *)
Inductive Statement :=
| CreateStatement (r : Resource)
| UpdatesStatement (key : gmap string string) (values : gmap string GoValue)
| DeleteStatement (key : gmap string string).

(** What this package calls but does not define in these files: the
    JSON library, the package-level event codec, the SQL engine behind
    the handle, and the helpers of the package kept in other files. *)
Class Env := {
  (** internal.ShadowAnnotationEvents, the shared annotation key *)
  ShadowAnnotationEvents : string;
  (** json.Unmarshal into a metav1.ObjectMeta *)
  unmarshalObjectMeta : bytes -> Res ObjectMeta;
  (** json.Unmarshal into a map[string]interface{} that becomes the
      metadata of an unstructured object *)
  unmarshalMetadataMap : bytes -> Res ObjectMeta;
  (** json.Unmarshal into a map[string]json.RawMessage, listed in the
      order the range loop visits it *)
  unmarshalRawMessages : bytes -> Res (list (string * bytes));
  (** json.Marshal of a []*corev1.Event; [None] when it returns an error *)
  marshalEvents : list Event -> option bytes;
  (** the package-level codec decoding one event *)
  decodeEvent : bytes -> Res Event;
  (** applyListOptionsToQuery: offset, amount and the query with the
      list options applied; the handle is the one the query was started
      on *)
  applyListOptionsToQuery :
    DB -> Query -> ListOptions -> (Query -> ListOptions -> Res Query)
    -> Res (Z * option Z * Query);
  buildOwnerQueryByUID : DB -> string -> string -> Z -> OwnerQuery;
  buildOwnerQueryByName :
    DB -> string -> option (list string) -> string * string -> string -> Z -> OwnerQuery;
  (** InterpretDBError and InterpretResourceDBError on a non-nil error *)
  interpretDBError : string -> error -> error;
  interpretResourceDBError : string -> string -> error -> error;
  (** db.Find: the rows the statement selects, each with the columns of
      its select list *)
  execFind : DB -> Query -> Res (list (gmap string SQLValue));
  (** result.Error of a write for a reason that is not in the rows of
      the table: the context the statement ran under is done ([None]
      is a statement run under the context of the handle itself), a
      column does not admit a value, the connection is lost *)
  engineError : option Context -> Statement -> option error;
  (** result.Error of an insert that the unique index refuses although
      no row has the six key columns of the new one: MySQL keeps the
      index on a prefix of cluster, namespace and name and compares
      strings by its collation *)
  indexError : DB -> Resource -> option error;
  (** the driver's error for a row whose key is taken *)
  duplicateKeyError : DB -> Resource -> error;
  (** the next id after an insert that was refused: some engines use up
      the id they had drawn for the row *)
  nextIDAfterRefusal : DB -> Z;
}.

Section Types.
Context `{Env}.

(** Scanning a JSON column into [datatypes.JSON]: NULL leaves the empty
    slice. *)
Definition scanJSON (v : option SQLValue) : bytes :=
  match v with
  | Some (SQLJSON b) => b
  | Some (SQLString s) => s
  | _ => ""
  end.

Definition scanString (v : option SQLValue) : string :=
  match v with
  | Some (SQLString s) => s
  | _ => ""
  end.

(** [EventsBytes.Decode] *)
Fixpoint decodeEvents (objects : list (string * bytes)) : Res (list Event) :=
  match objects with
  | [] => Ok []
  | (_, obj) :: rest =>
      event <~ decodeEvent obj;
      events <~ decodeEvents rest;
      Ok (event :: events)
  end.

Definition EventsBytes_Decode (b : bytes) : Res (list Event) :=
  objects <~ unmarshalRawMessages b;
  decodeEvents objects.

(** [ConvertTo] of [ResourceMetadata]. *)
Definition ResourceMetadata_ConvertTo (data : ResourceMetadata) (codec : Codec)
    (object : RuntimeObject) : Res RuntimeObject :=
  match object with
  | Unstr uObj =>
      metadata <~ unmarshalMetadataMap (rmMetadata data);
      Ok (Unstr (mkUnstructured (unstrAPIVersion uObj) (unstrKind uObj) (Some metadata)
                                (unstrBody uObj)))
  | Typed t =>
      metadata <~ unmarshalObjectMeta (rmMetadata data);
      Ok (Typed (mkTyped (typedAPIVersion t) (typedKind t) metadata (typedBody t)))
  | Untyped g b =>
      metadata <~ unmarshalObjectMeta (rmMetadata data);
      Panic "reflect: call of reflect.Value.Set on zero Value"
  end.

Definition ConvertTo (object : Object) (codec : Codec) (into : RuntimeObject) : Res RuntimeObject :=
  match object with
  | ObjResourceMetadata data => ResourceMetadata_ConvertTo data codec into
  | ObjBytes b => Decode codec b into
  | ObjResourceMetadataWithEvents data =>
      ResourceMetadata_ConvertTo (rmeResourceMetadata data) codec into
  | ObjBytesWithEvents data => Decode codec (bweObject data) into
  end.

Definition GetResourceType (object : Object) : ResourceType :=
  match object with
  | ObjResourceMetadata data => rmResourceType data
  | ObjBytes _ => mkResourceType "" "" "" ""
  | ObjResourceMetadataWithEvents data => rmResourceType (rmeResourceMetadata data)
  | ObjBytesWithEvents _ => mkResourceType "" "" "" ""
  end.

(** [GetEvents]: [None] is the nil slice. The error of Decode is
    dropped together with its (nil) result. *)
Definition eventsOrNil (r : Res (list Event)) : Res (option (list Event)) :=
  match r with
  | Ok events => Ok (Some events)
  | Err _ => Ok None
  | Panic m => Panic m
  end.

Definition GetEvents (object : Object) : Res (option (list Event)) :=
  match object with
  | ObjResourceMetadata _ => Ok None
  | ObjBytes _ => Ok None
  | ObjResourceMetadataWithEvents data => eventsOrNil (EventsBytes_Decode (rmeEvents data))
  | ObjBytesWithEvents data => eventsOrNil (EventsBytes_Decode (bweEvents data))
  end.

(** The select lists of the two metadata projections. *)
Definition selectMetadataMySQL : string :=
  "`group`, version, resource, kind, object->>'$.metadata' as metadata".
Definition selectMetadataPostgres : string :=
  doubleQuote +:+ "group" +:+ doubleQuote
    +:+ ", version, resource, kind, object->>'metadata' as metadata".

Definition isSQLiteOrMySQL (name : string) : bool :=
  bool_decide (name = "sqlite") || bool_decide (name = "sqlite3") || bool_decide (name = "mysql").

Definition scanResourceMetadata (row : gmap string SQLValue) : ResourceMetadata :=
  mkResourceMetadata
    (mkResourceType (scanString (row !! "group")) (scanString (row !! "version"))
                    (scanString (row !! "resource")) (scanString (row !! "kind")))
    (scanJSON (row !! "metadata")).

Definition scanBytesWithEvents (row : gmap string SQLValue) : BytesWithEvents :=
  mkBytesWithEvents (scanJSON (row !! "object")) (scanJSON (row !! "events")).

(** [From] of [ResourceMetadataList]. *)
Definition ResourceMetadataList_From (db : DB) (query : Query) : Res (list ResourceMetadata) :=
  query <~ (if isSQLiteOrMySQL (dialectorName db) then
              Ok (Select [selectMetadataMySQL] query)
            else if bool_decide (dialectorName db = "postgres") then
              Ok (Select [selectMetadataPostgres] query)
            else Panic "storage: only support sqlite3, mysql or postgres");
  metadatas <~ execFind db query;
  Ok (scanResourceMetadata <$> metadatas).

(** [From] of [ResourceMetadataWithEventsList], whose elements are
    [ResourceMetadata] values. *)
Definition ResourceMetadataWithEventsList_From (db : DB) (query : Query)
  : Res (list ResourceMetadata) :=
  query <~ (if isSQLiteOrMySQL (dialectorName db) then
              Ok (Select [selectMetadataMySQL +:+ ", events"] query)
            else if bool_decide (dialectorName db = "postgres") then
              Ok (Select [selectMetadataPostgres +:+ ", events"] query)
            else Panic "storage: only support sqlite3, mysql or postgres");
  metadatas <~ execFind db query;
  Ok (scanResourceMetadata <$> metadatas).

Definition BytesList_From (db : DB) (query : Query) : Res (list bytes) :=
  rows <~ execFind db (Select ["object"] query);
  Ok ((fun row => scanJSON (row !! "object")) <$> rows).

Definition BytesWithEventsList_From (db : DB) (query : Query) : Res (list BytesWithEvents) :=
  rows <~ execFind db (Select ["object"; "events"] query);
  Ok (scanBytesWithEvents <$> rows).

(** [result.From(query)] followed by [result.Items()]. *)
Definition FromItems (kind : ObjectListKind) (db : DB) (query : Query) : Res (list Object) :=
  match kind with
  | ResourceMetadataWithEventsList =>
      res_map (fmap ObjResourceMetadata) (ResourceMetadataWithEventsList_From db query)
  | ResourceMetadataList => res_map (fmap ObjResourceMetadata) (ResourceMetadataList_From db query)
  | BytesWithEventsList => res_map (fmap ObjBytesWithEvents) (BytesWithEventsList_From db query)
  | BytesList => res_map (fmap ObjBytes) (BytesList_From db query)
  end.

End Types.

(** ** resource_storage.go *)

Record GroupVersionResource := mkGVR {
  gvrGroup : string;
  gvrVersion : string;
  gvrResource : string;
}.

Record ResourceStorage := mkResourceStorage {
  groupResource : string;
  db : DB;
  storageResource : GroupVersionResource;
  codec : Codec;
}.

Definition withDB (d : DB) (s : ResourceStorage) : ResourceStorage :=
  mkResourceStorage (groupResource s) d (storageResource s) (codec s).

(** The list object handed to [List]: an [*unstructured.UnstructuredList],
    a typed list, or an object meta.ListAccessor cannot handle. *)
Record ListMeta := mkListMeta {
  listContinue : string;
  listRemainingItemCount : option Z;
}.

Inductive ListObject :=
| UnstructuredList (apiVersion : string) (lm : ListMeta) (items : list Unstructured)
| TypedList (lm : ListMeta) (items : list TypedObject)
| NotAList.

Definition ListAccessor (l : ListObject) : Res ListMeta :=
  match l with
  | UnstructuredList _ lm _ => Ok lm
  | TypedList lm _ => Ok lm
  | NotAList => Err (PlainError "object does not implement the List interfaces")
  end.

Definition withListMeta (lm : ListMeta) (l : ListObject) : ListObject :=
  match l with
  | UnstructuredList v _ items => UnstructuredList v lm items
  | TypedList _ items => TypedList lm items
  | NotAList => NotAList
  end.

Definition SetContinue (c : string) (l : ListObject) : ListObject :=
  match ListAccessor l with
  | Ok lm => withListMeta (mkListMeta c (listRemainingItemCount lm)) l
  | _ => l
  end.

Definition SetRemainingItemCount (c : option Z) (l : ListObject) : ListObject :=
  match ListAccessor l with
  | Ok lm => withListMeta (mkListMeta (listContinue lm) c) l
  | _ => l
  end.

Section Storage.
Context `{Env}.

Definition InterpretDBError (key : string) (err : error) : error :=
  interpretDBError key err.

(** A nil error stays nil. *)
Definition InterpretResourceDBError (cluster name : string) (err : option error) : option error :=
  interpretResourceDBError cluster name <$> err.

Definition gvrKeyMap (s : ResourceStorage) : gmap string string :=
  {[ "group" := gvrGroup (storageResource s);
     "version" := gvrVersion (storageResource s);
     "resource" := gvrResource (storageResource s) ]}.

Definition resourceKeyMap (s : ResourceStorage) (cluster namespace name : string)
  : gmap string string :=
  {[ "cluster" := cluster;
     "group" := gvrGroup (storageResource s);
     "version" := gvrVersion (storageResource s);
     "resource" := gvrResource (storageResource s);
     "namespace" := namespace;
     "name" := name ]}.

(** A row satisfies [Where(map)] when every listed column holds the
    listed string. *)
Definition rowMatches (key : gmap string string) (row : gmap string SQLValue) : bool :=
  bool_decide (map_Forall (fun k v => row !! k = Some (SQLString v)) key).

(** How gorm binds a Go value to a column. *)
Definition toSQLValue (d : DB) (v : GoValue) : SQLValue :=
  match v with
  | GoString s => SQLString s
  | GoJSON b => evalJSONExpr (datatypes_JSON_GormValue d b)
  | GoTime t => SQLTime t
  | GoNullTime t valid => if valid then SQLTime t else SQLNull
  end.

(** [Model(&Resource{}).Where(key).Updates(values)]: on every row that
    satisfies the key, the listed columns are assigned and the
    autoUpdateTime column synced_at is set to the current time; all
    other columns keep their value. *)
Definition Updates (d : DB) (now : Time) (key : gmap string string)
    (values : gmap string GoValue) : DB :=
  let assignments := <["synced_at" := SQLTime now]> (toSQLValue d <$> values) in
  withRows ((fun row => if rowMatches key row then assignments ∪ row else row) <$> tableRows d) d.

(** [db.WithContext(ctx).Model(&Resource{}).Where(key).Updates(values)]
    and its result.Error: a statement the engine refuses changes no
    row. *)
Definition gormUpdates (ctx : option Context) (d : DB) (now : Time) (key : gmap string string)
    (values : gmap string GoValue) : DB * option error :=
  match engineError ctx (UpdatesStatement key values) with
  | Some e => (d, Some e)
  | None => (Updates d now key values, None)
  end.

(** The columns written by [db.Create(&resource)]. *)
Definition insertedRow (d : DB) (now : Time) (r : Resource) : gmap string SQLValue :=
  list_to_map
    [ ("id", SQLInt (nextID d));
      ("group", SQLString (resGroup r));
      ("version", SQLString (resVersion r));
      ("resource", SQLString (resResource r));
      ("kind", SQLString (resKind r));
      ("cluster", SQLString (resCluster r));
      ("namespace", SQLString (resNamespace r));
      ("name", SQLString (resName r));
      ("owner_uid", SQLString (resOwnerUID r));
      ("uid", SQLString (resUID r));
      ("resource_version", SQLString (resResourceVersion r));
      ("object", evalJSONExpr (datatypes_JSON_GormValue d (resObject r)));
      ("events", evalJSONExpr (JSONMap_GormValue d (resEvents r)));
      ("event_resource_versions", evalJSONExpr (JSONMap_GormValue d (resEventResourceVersions r)));
      ("created_at", SQLTime (resCreatedAt r));
      ("synced_at", SQLTime now);
      ("deleted_at", from_option SQLTime SQLNull (resDeletedAt r)) ].

Definition naturalKeyOf (r : Resource) : gmap string string :=
  {[ "cluster" := resCluster r;
     "group" := resGroup r;
     "version" := resVersion r;
     "resource" := resResource r;
     "namespace" := resNamespace r;
     "name" := resName r ]}.

(** The handle after an insert that was refused: the rows are as
    they were. *)
Definition refusedInsert (d : DB) : DB :=
  mkDB (dialectorName d) (serverIsMariaDB d) (tableRows d) (nextIDAfterRefusal d).

(** [db.WithContext(ctx).Create(&resource)] and its result.Error,
    under the unique index
    uni_group_version_resource_cluster_namespace_name: the engine
    refuses the row for a reason of its own, or because a row of the
    table has its key, or because the index holds it equal to a row
    with another key; otherwise the row is appended. *)
Definition gormCreate (ctx : option Context) (d : DB) (now : Time) (r : Resource)
  : DB * option error :=
  match engineError ctx (CreateStatement r) with
  | Some e => (refusedInsert d, Some e)
  | None =>
      if existsb (rowMatches (naturalKeyOf r)) (tableRows d)
      then (refusedInsert d, Some (duplicateKeyError d r))
      else
        match indexError d r with
        | Some e => (refusedInsert d, Some e)
        | None =>
            (mkDB (dialectorName d) (serverIsMariaDB d)
                  (tableRows d ++ [insertedRow d now r]) (nextID d + 1), None)
        end
  end.

Definition ownerUIDOf (metaobj : ObjectMeta) : string :=
  match GetControllerOfNoCopy (metaOwnerReferences metaobj) with
  | Some owner => ownerRefUID owner
  | None => ""
  end.

Definition Create (s : ResourceStorage) (ctx : Context) (now : Time) (cluster : string)
    (obj : RuntimeObject) : ResourceStorage * Res unit :=
  let gvk := GetObjectKind obj in
  if bool_decide (gvkKind gvk = "") then (s, Err (PlainError "kind is required"))
  else
    match Accessor obj with
    | Err e => (s, Err e)
    | Panic m => (s, Panic m)
    | Ok metaobj =>
        let ownerUID := ownerUIDOf metaobj in
        match Encode (codec s) obj with
        | Err e => (s, Err e)
        | Panic m => (s, Panic m)
        | Ok buffer =>
            let resource :=
              {| resID := 0;
                 resCluster := cluster;
                 resOwnerUID := ownerUID;
                 resUID := metaUID metaobj;
                 resName := metaName metaobj;
                 resNamespace := metaNamespace metaobj;
                 resGroup := gvrGroup (storageResource s);
                 resResource := gvrResource (storageResource s);
                 resVersion := gvrVersion (storageResource s);
                 resKind := gvkKind gvk;
                 resResourceVersion := metaResourceVersion metaobj;
                 resObject := buffer;
                 resEvents := None;
                 resEventResourceVersions := None;
                 resCreatedAt := metaCreationTimestamp metaobj;
                 resSyncedAt := 0;
                 resDeletedAt := metaDeletionTimestamp metaobj |} in
            let '(d, err) := gormCreate (Some ctx) (db s) now resource in
            (withDB d s, resultOf (InterpretResourceDBError cluster (metaName metaobj) err))
        end
    end.

(** The map [updatedResource] built by [Update]. *)
Definition updatedResource (metaobj : ObjectMeta) (buffer : bytes) : gmap string GoValue :=
  let base : gmap string GoValue :=
    {[ "owner_uid" := GoString (ownerUIDOf metaobj);
       "uid" := GoString (metaUID metaobj);
       "resource_version" := GoString (metaResourceVersion metaobj);
       "object" := GoJSON buffer;
       "created_at" := GoTime (metaCreationTimestamp metaobj) ]} in
  match metaDeletionTimestamp metaobj with
  | Some deletedAt => <["deleted_at" := GoNullTime deletedAt true]> base
  | None => base
  end.

Definition Update (s : ResourceStorage) (ctx : Context) (now : Time) (cluster : string)
    (obj : RuntimeObject) : ResourceStorage * Res unit :=
  match Accessor obj with
  | Err e => (s, Err e)
  | Panic m => (s, Panic m)
  | Ok metaobj =>
      match Encode (codec s) obj with
      | Err e => (s, Err e)
      | Panic m => (s, Panic m)
      | Ok buffer =>
          let '(d, err) :=
            gormUpdates (Some ctx) (db s) now
              (resourceKeyMap s cluster (metaNamespace metaobj) (metaName metaobj))
              (updatedResource metaobj buffer) in
          (withDB d s, resultOf (InterpretResourceDBError cluster (metaName metaobj) err))
      end
  end.

Definition applyOwnerQuery (ownerQuery : OwnerQuery) (query : Query) : Query :=
  match ownerQuery with
  | OwnerQueryString _ => Where (WhereSQL "owner_uid = ?" ownerQuery) query
  | OwnerQuerySubquery _ => Where (WhereSQL "owner_uid IN (?)" ownerQuery) query
  end.

Definition applyOwnerToResourceQuery (d : DB) (query : Query) (opts : ListOptions) : Res Query :=
  if bool_decide (List.length (ClusterNames opts) ≠ 1%nat) then Ok query
  else
    let cluster := default "" (head (ClusterNames opts)) in
    if bool_decide (OwnerUID opts ≠ "") then
      Ok (applyOwnerQuery
            (buildOwnerQueryByUID d cluster (OwnerUID opts) (OwnerSeniority opts)) query)
    else if bool_decide (OwnerName opts ≠ "") then
      let ownerNamespaces :=
        if bool_decide (List.length (Namespaces opts) ≠ 0%nat)
        then Some (Namespaces opts ++ [""]) else None in
      Ok (applyOwnerQuery
            (buildOwnerQueryByName d cluster ownerNamespaces (OwnerGroupResource opts)
                                   (OwnerName opts) (OwnerSeniority opts)) query)
    else Ok query.

Definition applyListOptionsToResourceQuery (d : DB) (query : Query) (opts : ListOptions)
  : Res (Z * option Z * Query) :=
  let applyFn := fun query opts => applyOwnerToResourceQuery d query opts in
  applyListOptionsToQuery d query opts applyFn.

Definition genListObjectsQuery (s : ResourceStorage) (opts : ListOptions)
  : Res (Z * option Z * Query * ObjectListKind) :=
  let result :=
    if OnlyMetadata opts && InjectEvents opts then ResourceMetadataWithEventsList
    else if OnlyMetadata opts then ResourceMetadataList
    else if InjectEvents opts then BytesWithEventsList
    else BytesList in
  let query := Where (WhereMap (gvrKeyMap s)) emptyQuery in
  r <~ applyListOptionsToResourceQuery (db s) query opts;
  Ok (r, result).

(** The paging bookkeeping of [List], done before any object is
    converted. *)
Definition setPaging (opts : ListOptions) (offset : Z) (amount : option Z) (n : nat)
    (l : ListObject) : ListObject :=
  let l :=
    if bool_decide (WithContinue opts = Some true) && bool_decide (Z.of_nat n = Limit opts)
    then SetContinue (FormatInt10 (add64 offset (Limit opts))) l
    else l in
  match amount with
  | Some amount =>
      let remain := sub64 (sub64 amount offset) (Z.of_nat n) in
      SetRemainingItemCount (Some remain) l
  | None => l
  end.

(** The loop filling [unstructuredList.Items]; the items appended so
    far stay in the list when a conversion fails. *)
Fixpoint convertUnstructured (c : Codec) (listAPIVersion : string) (objects : list Object)
    (items : list Unstructured) : list Unstructured * Res unit :=
  match objects with
  | [] => (items, Ok tt)
  | object :: rest =>
      match ConvertTo object c (Unstr zeroUnstructured) with
      | Err e => (items, Err e)
      | Panic m => (items, Panic m)
      | Ok (Unstr uObj) =>
          let uObj :=
            if GroupVersionKind_Empty (Unstructured_GroupVersionKind uObj)
            then
              let uObj :=
                if bool_decide (listAPIVersion ≠ "")
                then mkUnstructured listAPIVersion (unstrKind uObj) (unstrMetadata uObj)
                                    (unstrBody uObj)
                else uObj in
              let rt := GetResourceType object in
              if negb (ResourceType_Empty rt)
              then mkUnstructured (unstrAPIVersion uObj) (rtKind rt) (unstrMetadata uObj)
                                  (unstrBody uObj)
              else uObj
            else uObj in
          convertUnstructured c listAPIVersion rest (items ++ [uObj])
      | Ok _ =>
          (items, Err (APIStatusError (mkStatus StatusReasonInternalError None)))
      end
  end.

(** The annotation step of the typed loop. *)
Definition injectEvents (events : option (list Event)) (obj : RuntimeObject) : RuntimeObject :=
  match events with
  | None => obj
  | Some events =>
      match Accessor obj with
      | Ok m =>
          let annos := default ∅ (metaAnnotations m) in
          match marshalEvents events with
          | Some data =>
              withObjectMeta (SetAnnotations (Some (<[ShadowAnnotationEvents := data]> annos)) m) obj
          | None => obj
          end
      | _ => obj
      end
  end.

(** The loop filling the slice of a typed list. *)
Fixpoint convertTyped (c : Codec) (objects : list Object) : Res (list TypedObject) :=
  match objects with
  | [] => Ok []
  | object :: rest =>
      obj <~ ConvertTo object c (Typed zeroTyped);
      events <~ GetEvents object;
      match injectEvents events obj with
      | Typed t =>
          slice <~ convertTyped c rest;
          Ok (t :: slice)
      | _ => Panic "reflect.Set: value is not assignable to the element type"
      end
  end.

(** [List] from [list, err := meta.ListAccessor(listObject)] on: the
    paging bookkeeping and the conversion of the objects read. *)
Definition materialize (s : ResourceStorage) (opts : ListOptions) (offset : Z)
    (amount : option Z) (objects : list Object) (listObject : ListObject)
  : ListObject * Res unit :=
  match ListAccessor listObject with
  | Err e => (listObject, Err e)
  | Panic m => (listObject, Panic m)
  | Ok _ =>
      let listObject := setPaging opts offset amount (List.length objects) listObject in
      if bool_decide (List.length objects = 0%nat) then (listObject, Ok tt)
      else
        match listObject with
        | UnstructuredList apiVersion lm _ =>
            let '(items, r) := convertUnstructured (codec s) apiVersion objects [] in
            (UnstructuredList apiVersion lm items, r)
        | TypedList lm items =>
            match convertTyped (codec s) objects with
            | Ok slice => (TypedList lm slice, Ok tt)
            | Err e => (listObject, Err e)
            | Panic m => (listObject, Panic m)
            end
        | NotAList => (listObject, Err (PlainError "need ptr to slice"))
        end
  end.

Definition List (s : ResourceStorage) (listObject : ListObject) (opts : ListOptions)
  : ListObject * Res unit :=
  match genListObjectsQuery s opts with
  | Err e => (listObject, Err e)
  | Panic m => (listObject, Panic m)
  | Ok (offset, amount, query, result) =>
      match FromItems result (db s) query with
      | Err e => (listObject, Err (InterpretDBError (groupResource s) e))
      | Panic m => (listObject, Panic m)
      | Ok objects => materialize s opts offset amount objects listObject
      end
  end.

(** *** Notions used to state the properties of [List] *)

(** On the unstructured path each item is the object [ConvertTo]
    returned, up to the apiVersion and kind filled in afterwards. *)
Definition converted (c : Codec) (object : Object) (item : Unstructured) : Prop :=
  exists uObj,
    ConvertTo object c (Unstr zeroUnstructured) = Ok (Unstr uObj)
    /\ unstrMetadata item = unstrMetadata uObj
    /\ unstrBody item = unstrBody uObj.

End Storage.

(** An object as it would have been read had its row no events. *)
Definition withoutEvents (object : Object) : Object :=
  match object with
  | ObjResourceMetadataWithEvents data =>
      ObjResourceMetadataWithEvents (mkResourceMetadataWithEvents (rmeResourceMetadata data) "")
  | ObjBytesWithEvents data => ObjBytesWithEvents (mkBytesWithEvents (bweObject data) "")
  | _ => object
  end.

(** The list options with the four owner options taken out. *)
Definition withoutOwner (opts : ListOptions) : ListOptions :=
  mkListOptions (ClusterNames opts) (Namespaces opts) "" "" ("", "") 0
                (Limit opts) (Continue opts) (WithContinue opts) (WithRemainingCount opts)
                (OnlyMetadata opts) (InjectEvents opts).

End InternalStorage.

(** * Example installations *)

(** ** A reflector, its store and three servers *)
Module InformerExamples.
Import Informer.

(** A store that records what it is given: the items of the last
    Replace or the objects added since, and the last resource version. *)
#[global] Instance recordingStore : Store (list StoreItem * string) := {
  storeAdd st obj := ((st.1 ++ [ItemObject obj], st.2), None);
  storeReplace st items resourceVersion := ((items, resourceVersion), None);
}.

Definition expiredError : error :=
  APIStatusError (mkStatus StatusReasonExpired None).

Definition tooLargeError : error :=
  APIStatusError (mkStatus StatusReasonTimeout
                    (Some [mkCause "ResourceVersionTooLarge" "Too large resource version"])).

Definition pod (name : string) : Obj := mkObj (Some ("default", name)) "{}".

(** Every result of the pager reaches the caller; the only case for a
    call without a result stream. *)
Definition allSeen : Seen := mkSeen true true true.

Definition okResult (rv : string) (items : list Obj) (paginated : bool) : PagerResult :=
  mkPagerResult (Some (mkListObj rv items)) [] paginated None allSeen.

Definition failResult (e : error) : PagerResult :=
  mkPagerResult None [] false (Some e) allSeen.

(** A reflector that synced up to version 5 before. *)
Definition syncedReflector : Reflector := mkReflector false "5" false 0 false false.
(** A reflector that never listed. *)
Definition freshReflector : Reflector := mkReflector false "" false 0 false false.

(** The server considers version 5 expired and answers a list from the
    empty version with two pods at version 9, in one page. *)
Definition expiredAt5 : ListerWatcher := fun _ call =>
  if bool_decide (callResourceVersion call = "")
  then okResult "9" [pod "a"; pod "b"] false
  else failResult expiredError.

(** The server rejects the first call as expired and the second with a
    connection error. *)
Definition expiredThenDown : ListerWatcher := fun n _ =>
  match n with
  | O => failResult expiredError
  | _ => failResult (PlainError "connection reset by peer")
  end.

(** The server loses the continuation of the first, chunked list from
    version 0 and then serves the list from the empty version in several
    pages. *)
Definition expiredThenPaginated : ListerWatcher := fun n _ =>
  match n with
  | O => failResult expiredError
  | _ => okResult "9" [pod "a"; pod "b"] true
  end.

Definition emptyStore : list StoreItem * string := ([], "").

End InformerExamples.

(** ** A storage for deployments and one stored object *)
Module StorageExamples.
Import InternalStorage.

Definition jsonString (s : string) : string := doubleQuote +:+ s +:+ doubleQuote.

Definition jsonObject (fields : list (string * string)) : string :=
  "{" +:+ String.concat "," ((fun kv => jsonString kv.1 +:+ ":" +:+ kv.2) <$> fields) +:+ "}".

(** A deployment named web, its metadata and its encoding. *)
Definition webMeta : ObjectMeta :=
  mkObjectMeta "web" "default" "uid-web" "41" 1000 None [] None.

Definition webMetadataJSON : bytes :=
  jsonObject [("name", jsonString "web"); ("namespace", jsonString "default");
              ("uid", jsonString "uid-web"); ("resourceVersion", jsonString "41")].

Definition webJSON : bytes :=
  jsonObject [("apiVersion", jsonString "apps/v1"); ("kind", jsonString "Deployment");
              ("metadata", webMetadataJSON)].

Definition web : TypedObject := mkTyped "apps/v1" "Deployment" webMeta "".

(** An event about it, and the events column holding that event. *)
Definition scaled : Event := mkEvent "uid-ev1" "default" "web.1" "77" "uid-web" "Scaled up".

Definition scaledJSON : bytes :=
  jsonObject [("kind", jsonString "Event"); ("message", jsonString "Scaled up")].

Definition webEventsJSON : bytes := jsonObject [("uid-ev1", scaledJSON)].

(** A codec and a JSON library that know these texts. *)
Definition exampleCodec : Codec := {|
  Encode obj :=
    match obj with
    | Typed t =>
        if bool_decide (metaName (typedObjectMeta t) = "web") then Ok webJSON
        else Err (PlainError "no kind is registered for the type")
    | _ => Err (PlainError "no kind is registered for the type")
    end;
  Decode b into :=
    if bool_decide (b = webJSON) then
      match into with
      | Unstr _ => Ok (Unstr (mkUnstructured "apps/v1" "Deployment" (Some webMeta) ""))
      | _ => Ok (Typed web)
      end
    else Err (PlainError "couldn't get version/kind; json parse error")
|}.

Fixpoint digitsToZ (s : string) (acc : Z) : option Z :=
  match s with
  | EmptyString => Some acc
  | String c rest =>
      let n := Z.of_nat (nat_of_ascii c) in
      if (48 <=? n) && (n <=? 57) then digitsToZ rest (10 * acc + (n - 48)) else None
  end.

(** strconv.Atoi on non-negative decimals. *)
Definition atoi (s : string) : option Z :=
  if bool_decide (s = "") then None else digitsToZ s 0.

Definition clauseHolds (row : gmap string SQLValue) (c : WhereClause) : bool :=
  match c with
  | WhereMap m => rowMatches m row
  | WhereSQL _ (OwnerQueryString uid) => bool_decide (row !! "owner_uid" = Some (SQLString uid))
  | _ => true
  end.

Definition selectedRows (d : DB) (q : Query) : list (gmap string SQLValue) :=
  let rows := filter (fun row => forallb (clauseHolds row) (queryWhere q) = true) (tableRows d) in
  let rows := drop (Z.to_nat (default 0 (queryOffset q))) rows in
  match queryLimit q with
  | Some n => take (Z.to_nat n) rows
  | None => rows
  end.

(** The metadata member of the stored objects this engine knows. *)
Definition withMetadataColumn (row : gmap string SQLValue) : gmap string SQLValue :=
  if bool_decide (row !! "object" = Some (SQLJSON webJSON))
  then <["metadata" := SQLJSON webMetadataJSON]> row
  else row.

#[global] Instance exampleEnv : Env := {|
  ShadowAnnotationEvents := "shadow.clusterpedia.io/events";
  unmarshalObjectMeta b :=
    if bool_decide (b = webMetadataJSON) then Ok webMeta
    else Err (PlainError "unexpected end of JSON input");
  unmarshalMetadataMap b :=
    if bool_decide (b = webMetadataJSON) then Ok webMeta
    else Err (PlainError "unexpected end of JSON input");
  unmarshalRawMessages b :=
    if bool_decide (b = webEventsJSON) then Ok [("uid-ev1", scaledJSON)]
    else Err (PlainError "unexpected end of JSON input");
  marshalEvents events :=
    Some ("[" +:+ String.concat "," ((fun _ => scaledJSON) <$> events) +:+ "]");
  decodeEvent b :=
    if bool_decide (b = scaledJSON) then Ok scaled
    else Err (PlainError "couldn't get version/kind; json parse error");
  applyListOptionsToQuery d query opts applyFn :=
    query <~ applyFn query opts;
    let amount :=
      if bool_decide (WithRemainingCount opts = Some true)
      then Some (Z.of_nat (List.length (selectedRows d query))) else None in
    let offset := default 0 (atoi (Continue opts)) in
    Ok (offset, amount,
        mkQuery (queryWhere query) (querySelect query)
                (if bool_decide (Limit opts = -1) then None else Some (Limit opts))
                (atoi (Continue opts)) (queryOrder query));
  buildOwnerQueryByUID d cluster uid seniority :=
    if bool_decide (seniority = 0) then OwnerQueryString uid
    else OwnerQuerySubquery "SELECT uid FROM resources WHERE owner_uid IN (?)";
  buildOwnerQueryByName d cluster namespaces gr name seniority :=
    OwnerQuerySubquery "SELECT uid FROM resources WHERE name = ?";
  interpretDBError key e := e;
  interpretResourceDBError cluster name e := e;
  execFind d q := Ok (withMetadataColumn <$> selectedRows d q);
  engineError ctx statement := ctx ≫= ctxErr;
  indexError d r := None;
  duplicateKeyError d r :=
    PlainError "UNIQUE constraint failed: resources.group, resources.version, resources.resource, resources.cluster, resources.namespace, resources.name";
  nextIDAfterRefusal d := nextID d;
|}.

Definition deployments : GroupVersionResource := mkGVR "apps" "v1" "deployments".

(** The row of web in cluster c1, with one recorded event and a
    deletion time left from an earlier observation. *)
Definition webRow : gmap string SQLValue :=
  list_to_map
    [ ("id", SQLInt 1); ("group", SQLString "apps"); ("version", SQLString "v1");
      ("resource", SQLString "deployments"); ("kind", SQLString "Deployment");
      ("cluster", SQLString "c1"); ("namespace", SQLString "default");
      ("name", SQLString "web"); ("owner_uid", SQLString ""); ("uid", SQLString "uid-old");
      ("resource_version", SQLString "40"); ("object", SQLJSON webJSON);
      ("events", SQLJSON webEventsJSON); ("event_resource_versions", SQLNull);
      ("created_at", SQLTime 900); ("synced_at", SQLTime 950); ("deleted_at", SQLTime 940) ].

Definition storageOn (dialect : string) (rows : list (gmap string SQLValue)) : ResourceStorage :=
  mkResourceStorage "deployments.apps" (mkDB dialect false rows 2) deployments exampleCodec.

Definition listOptions (onlyMetadata injectEvents : bool) : ListOptions :=
  mkListOptions [] [] "" "" ("", "") 0 (-1) "" None None onlyMetadata injectEvents.

Definition emptyTypedList : ListObject := TypedList (mkListMeta "" None) [].
Definition emptyUnstructuredList : ListObject :=
  UnstructuredList "apps/v1" (mkListMeta "" None) [].

(** Two clusters and every owner option set. *)
Definition ownerOptions : ListOptions :=
  mkListOptions ["c1"; "c2"] ["default"] "uid-web" "web" ("apps", "deployments") 1
                (-1) "" None None false false.

(** A page of one with Limit 1 from offset 0 of a one-row table, and
    the empty page at offset 5 of the same table. *)
Definition pageOptions (continue : string) : ListOptions :=
  mkListOptions [] [] "" "" ("", "") 0 1 continue (Some true) (Some true) false false.

End StorageExamples.

(** * The watch handler (pkg/runtime/informer/reflector.go) *)
Module InformerWatch.
Import Informer.

(** watch.EventType *)
Inductive EventType :=
| Added
| Modified
| Deleted
| Bookmark
| Error
| OtherEventType (name : string).

#[global] Instance EventType_eq_dec : EqDecision EventType.
Proof. solve_decision. Defined.

(** The object of a watch event, by what the handler asks of it: its Go
    type, its GroupVersionKind, its resource version ([None] when
    meta.Accessor fails on it), the status it carries when it is a
    [*metav1.Status], and the object handed to the store. *)
Record WatchObject := mkWatchObject {
  objectType : string;
  objectGVK : string * string * string;
  objectResourceVersion : option string;
  objectStatus : option Status;
  objectValue : Obj;
}.

(** watch.Event *)
Record Event := mkEvent {
  eventType : EventType;
  eventObject : WatchObject;
}.

(** apierrors.FromObject: the status error of a status object, an
    unexpected-object error for anything else. *)
Definition FromObject (o : WatchObject) : error :=
  match objectStatus o with
  | Some s => APIStatusError s
  | None => PlainError "unexpected object"
  end.

(** What one round of the select receives: the stop signal, an error of
    the resync loop, or the next event of the watch. The end of the list
    is the close of the result channel. *)
Inductive Received :=
| ReceivedStop
| ReceivedResyncError (err : error)
| ReceivedEvent (event : Event).

Definition errorStopRequested : error := PlainError "stop requested".

(** cache.Store as the watch handler uses it, with the optional
    [ResourceVersionUpdater] capability. *)
Class WatchStore (S : Type) := {
  watchAdd : S -> Obj -> S * option error;
  watchUpdate : S -> Obj -> S * option error;
  watchDelete : S -> Obj -> S * option error;
  watchUpdateResourceVersion : option (S -> string -> S);
}.

(** How the loop of [watchHandler] was left. *)
Inductive LoopEnd :=
| ChannelClosed
| Returned (err : error).

(** time.Second in nanoseconds *)
Definition Second : Z := 1000000000.

(** [expected != nil && expected != actual] *)
Definition mismatch {A : Type} `{EqDecision A} (expected : option A) (actual : A) : bool :=
  match expected with
  | Some e => bool_decide (e <> actual)
  | None => false
  end.

Section WatchHandler.
Context {S : Type} `{WatchStore S}.
Variable expectedType : option string.
Variable expectedGVK : option (string * string * string).

(** The resource version under which an event is handled: [None] for
    the events the loop skips with [continue] (wrong type, wrong
    GroupVersionKind, no metadata). *)
Definition handledResourceVersion (event : Event) : option string :=
  let o := eventObject event in
  if mismatch expectedType (objectType o) then None
  else if mismatch expectedGVK (objectGVK o) then None
  else objectResourceVersion o.

(** The switch on the event type; errors of the store are logged and
    dropped. *)
Definition applyEvent (st : S) (event : Event) : S :=
  match eventType event with
  | Added => (watchAdd st (objectValue (eventObject event))).1
  | Modified => (watchUpdate st (objectValue (eventObject event))).1
  | Deleted => (watchDelete st (objectValue (eventObject event))).1
  | Bookmark => st
  | _ => st
  end.

Definition notifyResourceVersion (st : S) (resourceVersion : string) : S :=
  match watchUpdateResourceVersion with
  | Some update => update st resourceVersion
  | None => st
  end.

(** The loop of [watchHandler]. [eventCount] counts the events that
    reached the end of the loop body. *)
Fixpoint watchLoop (received : list Received) (st : S) (r : Reflector) (eventCount : nat)
  : S * Reflector * nat * LoopEnd :=
  match received with
  | [] => (st, r, eventCount, ChannelClosed)
  | ReceivedStop :: _ => (st, r, eventCount, Returned errorStopRequested)
  | ReceivedResyncError err :: _ => (st, r, eventCount, Returned err)
  | ReceivedEvent event :: rest =>
      if bool_decide (eventType event = Error)
      then (st, r, eventCount, Returned (FromObject (eventObject event)))
      else
        match handledResourceVersion event with
        | None => watchLoop rest st r eventCount
        | Some resourceVersion =>
            let st := applyEvent st event in
            let r := setLastSyncResourceVersion resourceVersion r in
            let st := notifyResourceVersion st resourceVersion in
            watchLoop rest st r (Datatypes.S eventCount)
        end
  end.

(** [watchHandler]: the loop, then the check for a watch that closed
    within a second without a single handled event. [watchDuration] is
    [clock.Since(start)] at the close of the channel. *)
Definition watchHandler (watchDuration : Z) (received : list Received) (st : S) (r : Reflector)
  : S * Reflector * option error :=
  match watchLoop received st r 0 with
  | (st, r, _, Returned err) => (st, r, Some err)
  | (st, r, eventCount, ChannelClosed) =>
      if bool_decide (watchDuration < 1 * Second) && bool_decide (eventCount = 0%nat)
      then (st, r, Some (PlainError "very short watch: Unexpected watch close - watch lasted less than a second and no items received"))
      else (st, r, None)
  end.

End WatchHandler.

(** The part of the received sequence the loop gets to: everything
    before the first stop signal, resync error or Error event. *)
Definition returns (x : Received) : bool :=
  match x with
  | ReceivedStop => true
  | ReceivedResyncError _ => true
  | ReceivedEvent event => bool_decide (eventType event = Error)
  end.

Fixpoint beforeReturn (received : list Received) : list Received :=
  match received with
  | [] => []
  | x :: rest => if returns x then [] else x :: beforeReturn rest
  end.

(** The error the loop returns with, if it does. *)
Fixpoint firstReturn (received : list Received) : option error :=
  match received with
  | [] => None
  | ReceivedStop :: _ => Some errorStopRequested
  | ReceivedResyncError err :: _ => Some err
  | ReceivedEvent event :: rest =>
      if bool_decide (eventType event = Error) then Some (FromObject (eventObject event))
      else firstReturn rest
  end.

(** The resource versions of the handled events among those received. *)
Definition handledVersions (expectedType : option string)
    (expectedGVK : option (string * string * string)) (received : list Received) : list string :=
  omap (fun x => match x with
                 | ReceivedEvent event => handledResourceVersion expectedType expectedGVK event
                 | _ => None
                 end) received.

End InformerWatch.

(** ** A store that logs the calls made on it, and a few events *)
Module InformerWatchExamples.
Import Informer InformerWatch.

(** The reflector the loop leaves, from the one it started with and the
    versions of the handled events. *)
Definition afterVersions (versions : list string) (r : Reflector) : Reflector :=
  match last versions with
  | Some v => setLastSyncResourceVersion v r
  | None => r
  end.

Inductive StoreCall :=
| CallAdd (o : Obj)
| CallUpdate (o : Obj)
| CallDelete (o : Obj)
| CallUpdateResourceVersion (resourceVersion : string).

(** Every call is logged and fails: the handler goes on all the same. *)
#[global] Instance failingLog : WatchStore (list StoreCall) := {
  watchAdd st o := (st ++ [CallAdd o], Some (PlainError "store is read-only"));
  watchUpdate st o := (st ++ [CallUpdate o], Some (PlainError "store is read-only"));
  watchDelete st o := (st ++ [CallDelete o], Some (PlainError "store is read-only"));
  watchUpdateResourceVersion := Some (fun st rv => st ++ [CallUpdateResourceVersion rv]);
}.

(** The calls a handled event makes on the store. *)
Definition callsOf (event : Event) (resourceVersion : string) : list StoreCall :=
  match eventType event with
  | Added => [CallAdd (objectValue (eventObject event))]
  | Modified => [CallUpdate (objectValue (eventObject event))]
  | Deleted => [CallDelete (objectValue (eventObject event))]
  | _ => []
  end ++ [CallUpdateResourceVersion resourceVersion].

Definition callsOfReceived (expectedType : option string)
    (expectedGVK : option (string * string * string)) (x : Received) : list StoreCall :=
  match x with
  | ReceivedEvent event =>
      match handledResourceVersion expectedType expectedGVK event with
      | Some resourceVersion => callsOf event resourceVersion
      | None => []
      end
  | _ => []
  end.

Definition podEvent (t : EventType) (name resourceVersion : string) : Event :=
  mkEvent t (mkWatchObject "*v1.Pod" ("", "v1", "Pod") (Some resourceVersion) None
               (mkObj (Some ("default", name)) "{}")).

Definition secretEvent (t : EventType) (name resourceVersion : string) : Event :=
  mkEvent t (mkWatchObject "*v1.Secret" ("", "v1", "Secret") (Some resourceVersion) None
               (mkObj (Some ("default", name)) "{}")).

Definition goneEvent : Event :=
  mkEvent Error (mkWatchObject "*v1.Status" ("", "v1", "Status") None
                   (Some (mkStatus StatusReasonGone None)) (mkObj None "{}")).

End InformerWatchExamples.

(** ** One more server *)
Module InformerListExamples.
Import Informer InformerExamples.

(** A pager that streamed a pod and a node and then failed on a later
    page, with a caller that returned before it saw any of the pager's
    results. *)
Definition lostError : PagerResult :=
  mkPagerResult None [pod "a"; mkObj (Some ("", "node-1")) "{}"] true
                (Some (PlainError "connection reset by peer")) (mkSeen false false false).

(** A first list of two pods at version 9. *)
Definition twoPods : ListerWatcher := fun _ _ => okResult "9" [pod "a"; pod "b"] false.

End InformerListExamples.

(** * The other operations of the resource storage
      (pkg/storage/internalstorage/resource_storage.go) *)
Module InternalStorageOps.
Import InternalStorage.

(** What [ConvertDeletedObject] is given: the object itself, or the
    [cache.DeletedFinalStateUnknown] tombstone with the key it was
    stored under. *)
Inductive DeletedObject :=
| LiveObject (obj : RuntimeObject)
| DeletedFinalStateUnknown (key : string) (obj : option RuntimeObject).

Section Ops.
Context `{Env}.

(** [Model(&Resource{}).Where(key).Delete(&Resource{})] and its
    result.Error: the rows that satisfy the key are removed, unless the
    engine refuses the statement. [Resource] has no soft-delete
    field. *)
Definition gormDelete (ctx : option Context) (d : DB) (key : gmap string string)
  : DB * option error :=
  match engineError ctx (DeleteStatement key) with
  | Some e => (d, Some e)
  | None => (withRows (filter (fun row => rowMatches key row = false) (tableRows d)) d, None)
  end.

(** [deleteObject] runs the statement on the handle of the storage as
    it is: no context is attached. *)
Definition deleteObject (s : ResourceStorage) (cluster namespace name : string)
  : DB * option error :=
  gormDelete None (db s) (resourceKeyMap s cluster namespace name).

(** [Delete]; its context is not used. *)
Definition Delete (s : ResourceStorage) (ctx : Context) (cluster : string) (obj : RuntimeObject)
  : ResourceStorage * Res unit :=
  match Accessor obj with
  | Err e => (s, Err e)
  | Panic m => (s, Panic m)
  | Ok metaobj =>
      let '(d, err) := deleteObject s cluster (metaNamespace metaobj) (metaName metaobj) in
      match err with
      | Some e => (withDB d s, Err (interpretResourceDBError cluster (metaName metaobj) e))
      | None => (withDB d s, Ok tt)
      end
  end.

(** cache.MetaNamespaceKeyFunc on an API object. *)
Definition MetaNamespaceKeyFunc (obj : RuntimeObject) : Res string :=
  metaobj <~ Accessor obj;
  if bool_decide (metaNamespace metaobj <> "")
  then Ok (metaNamespace metaobj +:+ "/" +:+ metaName metaobj)
  else Ok (metaName metaobj).

(** cache.DeletionHandlingMetaNamespaceKeyFunc *)
Definition DeletionHandlingMetaNamespaceKeyFunc (obj : DeletedObject) : Res string :=
  match obj with
  | DeletedFinalStateUnknown key _ => Ok key
  | LiveObject o => MetaNamespaceKeyFunc o
  end.

(** cache.SplitMetaNamespaceKey *)
Definition SplitMetaNamespaceKey (key : string) : Res (string * string) :=
  match splitSlash key "" with
  | [name] => Ok ("", name)
  | [namespace; name] => Ok (namespace, name)
  | _ => Err (PlainError ("unexpected key format: " +:+ key))
  end.

(** The [*metav1.PartialObjectMetadata] with a namespace and a name
    only. *)
Definition partialObjectMetadata (namespace name : string) : RuntimeObject :=
  Typed (mkTyped "" "" (mkObjectMeta name namespace "" "" 0 None [] None) "").

Definition ConvertDeletedObject (obj : DeletedObject) : Res RuntimeObject :=
  key <~ DeletionHandlingMetaNamespaceKeyFunc obj;
  nn <~ SplitMetaNamespaceKey key;
  Ok (partialObjectMetadata nn.1 nn.2).

End Ops.

(** *** Notions used to state the properties of the operations *)

(** The columns that make the natural key of a row. *)
Definition keyColumns (row : gmap string SQLValue) : list (option SQLValue) :=
  [row !! "cluster"; row !! "group"; row !! "version"; row !! "resource";
   row !! "namespace"; row !! "name"].

(** No two rows of a table share their natural key. *)
Definition uniqueKeys (rows : list (gmap string SQLValue)) : Prop :=
  NoDup (keyColumns <$> rows).

(** A name or namespace without a slash. *)
Fixpoint noSlash (s : string) : bool :=
  match s with
  | EmptyString => true
  | String c rest => negb (bool_decide (c = "/"%char)) && noSlash rest
  end.

(** A write of the storage, and a run of writes. *)
Inductive Write :=
| WriteCreate (ctx : Context) (now : Time) (cluster : string) (obj : RuntimeObject)
| WriteUpdate (ctx : Context) (now : Time) (cluster : string) (obj : RuntimeObject)
| WriteDelete (ctx : Context) (cluster : string) (obj : RuntimeObject).

Definition applyWrite `{Env} (s : ResourceStorage) (w : Write) : ResourceStorage :=
  match w with
  | WriteCreate ctx now cluster obj => (Create s ctx now cluster obj).1
  | WriteUpdate ctx now cluster obj => (Update s ctx now cluster obj).1
  | WriteDelete ctx cluster obj => (Delete s ctx cluster obj).1
  end.

Definition applyWrites `{Env} (s : ResourceStorage) (ws : list Write) : ResourceStorage :=
  foldl applyWrite s ws.

End InternalStorageOps.

(** ** The object handed to the storage and a cancelled context *)
Module StorageOpsExamples.
Import InternalStorage StorageExamples InternalStorageOps.

(** A context that was cancelled. *)
Definition cancelled : Context := mkContext (Some (PlainError "context canceled")).

(** web as the informer hands it to the storage. *)
Definition webObject : RuntimeObject := Typed web.

End StorageOpsExamples.

(** * Notions and examples for the outcomes of List *)
Module InternalStorageList.
Import InternalStorage StorageExamples.

(** The Items of a list object. *)
Inductive Items :=
| UnstructuredItems (items : list Unstructured)
| TypedItems (items : list TypedObject)
| NoItems.

Definition itemsOf (l : ListObject) : Items :=
  match l with
  | UnstructuredList _ _ items => UnstructuredItems items
  | TypedList _ items => TypedItems items
  | NotAList => NoItems
  end.

(** [ConvertTo] into a fresh unstructured object succeeds. *)
Definition convertsToUnstructured `{Env} (c : Codec) (object : Object) : Prop :=
  exists uObj, ConvertTo object c (Unstr zeroUnstructured) = Ok (Unstr uObj).

(** A row of deployments whose object the example codec cannot
    decode, and the row of web with an events column that is not
    JSON. *)
Definition brokenRow : gmap string SQLValue :=
  <["name" := SQLString "broken"]> (<["object" := SQLJSON "{"]> webRow).

Definition brokenEventsRow : gmap string SQLValue :=
  <["events" := SQLJSON "{"]> webRow.

(** One cluster, with the owner given by UID and by name at once. *)
Definition oneClusterOwnerOptions (ownerName : string) (namespaces : list string) : ListOptions :=
  mkListOptions ["c1"] namespaces "uid-web" ownerName ("apps", "deployments") 0
                (-1) "" None None false false.

End InternalStorageList.

(** * The metrics plugin (pkg/storage/internalstorage, gorm metrics) *)
Module GormMetrics.

(** the prometheus default pull metrics every 15 seconds *)
Definition defaultRefreshInterval : Z := 15.

Definition in_uint32 (z : Z) : Prop := 0 <= z < 2 ^ 32.

(** A Go map is a reference: the label maps live in a store and are
    named by their address; [None] is the nil map. *)
Abbreviation Address := nat.
Abbreviation Maps := (list (gmap string string)).

Record MetricsConfig := mkMetricsConfig {
  cfgDBName : string;
  cfgRefreshInterval : Z;
  cfgLabels : option Address;
}.

Record Prometheus := mkPrometheus {
  refreshInterval : Z;
  Labels : Address;
}.

(** [make(map[string]string)] *)
Definition make (h : Maps) : Maps * Address := (h ++ [∅], List.length h).

(** [m[k] = v] *)
Definition mapassign (m : Address) (k v : string) (h : Maps) : Maps :=
  alter (<[k := v]>) m h.

Definition NewGormMetrics (h : Maps) (config : MetricsConfig) : Maps * Prometheus :=
  let refreshInterval :=
    if bool_decide (cfgRefreshInterval config = 0) then defaultRefreshInterval
    else cfgRefreshInterval config in
  let '(h, labels) := make h in
  let labels :=
    match cfgLabels config with
    | Some given => given
    | None => labels
    end in
  let h :=
    if bool_decide (cfgDBName config <> "") then mapassign labels "db_name" (cfgDBName config) h
    else h in
  (h, mkPrometheus refreshInterval labels).

Definition Name (p : Prometheus) : string := "gorm:prometheus".

(** time.Second, in nanoseconds *)
Definition Second : Z := 1000000000.

(** The period handed to time.Tick by [Initialize]:
    [time.Duration(p.refreshInterval) * time.Second], an int64
    product. *)
Definition tickPeriod (p : Prometheus) : Z := wrap64 (refreshInterval p * Second).

End GormMetrics.

(** * Properties of the reflector's list phase *)
Module InformerSpec.
Import Informer InformerExamples.

Lemma relist_unavailable r :
  relistResourceVersion (setIsLastSyncResourceVersionUnavailable true r) = "".
Proof. reflexivity. Qed.

(** C5. The version a (re)list starts from: empty when the last
    version is marked unavailable; empty when no version was observed
    and pagination is forced; 0 when no version was observed and
    pagination is not forced; the last observed version otherwise. *)
Theorem relistResourceVersion_cases (r : Reflector) :
  (isLastSyncResourceVersionUnavailable r = true -> relistResourceVersion r = "")
  /\ (lastSyncResourceVersion r = "" -> ForcePaginatedList r = true ->
      relistResourceVersion r = "")
  /\ (isLastSyncResourceVersionUnavailable r = false -> lastSyncResourceVersion r = "" ->
      ForcePaginatedList r = false -> relistResourceVersion r = "0")
  /\ (isLastSyncResourceVersionUnavailable r = false -> lastSyncResourceVersion r <> "" ->
      relistResourceVersion r = lastSyncResourceVersion r).
Proof.
  unfold relistResourceVersion.
  repeat split.
  - intros ->. reflexivity.
  - intros -> ->. destruct (isLastSyncResourceVersionUnavailable r); reflexivity.
  - intros -> -> ->. reflexivity.
  - intros -> Hne. rewrite bool_decide_eq_false_2; [reflexivity | exact Hne].
Qed.

Lemma relistResourceVersion_cases_witness :
  relistResourceVersion (mkReflector false "5" true 0 false false) = ""
  /\ relistResourceVersion (mkReflector false "" false 0 false true) = ""
  /\ relistResourceVersion (mkReflector false "" false 0 false false) = "0"
  /\ relistResourceVersion (mkReflector false "5" false 0 false false) = "5".
Proof.
  split; [| split; [| split]].
  - exact (proj1 (relistResourceVersion_cases (mkReflector false "5" true 0 false false))
             eq_refl).
  - exact (proj1 (proj2 (relistResourceVersion_cases (mkReflector false "" false 0 false true)))
             eq_refl eq_refl).
  - exact (proj1 (proj2 (proj2
             (relistResourceVersion_cases (mkReflector false "" false 0 false false))))
             eq_refl eq_refl eq_refl).
  - refine (proj2 (proj2 (proj2
             (relistResourceVersion_cases (mkReflector false "5" false 0 false false))))
             eq_refl _).
    simpl. discriminate.
Defined.

Section ListPhaseFacts.
Context {S : Type} `{Store S}.
Variable lw : ListerWatcher.

Lemma runPager_stream (r : Reflector) b st n call :
  runPager lw (setIsLastSyncResourceVersionUnavailable b r) st n call = runPager lw r st n call.
Proof. reflexivity. Qed.

(** The calls made by [Reflector_list] are those of [listAttempts], and
    the error check is on the last attempt. *)
Lemma list_calls (r : Reflector) (st : S) :
  runCalls (Reflector_list lw r st) = (listAttempts lw r st).2.
Proof.
  unfold Reflector_list.
  destruct (listAttempts lw r st) as [[[r1 st1] a] calls]. simpl.
  destruct (laErr a); [reflexivity |].
  destruct (laList a); [| reflexivity].
  destruct (if bool_decide _ then _ else _) as [st2 [e |]]; reflexivity.
Qed.

Lemma listAttempts_unavailable (r : Reflector) (st : S) :
  isLastSyncResourceVersionUnavailable (listAttempts lw r st).1.1.1
  = (isExpiredError (laErr (runPager lw r st 0 (firstCall r)).2)
     || isTooLargeResourceVersionError (laErr (runPager lw r st 0 (firstCall r)).2)
     || isLastSyncResourceVersionUnavailable r)
  /\ lastSyncResourceVersion (listAttempts lw r st).1.1.1 = lastSyncResourceVersion r
  /\ paginatedResult (listAttempts lw r st).1.1.1 = paginatedResult r.
Proof.
  unfold listAttempts.
  destruct (runPager lw r st 0 (firstCall r)) as [st1 a1]. simpl.
  destruct (isExpiredError (laErr a1) || isTooLargeResourceVersionError (laErr a1)).
  - destruct (runPager lw _ st1 1 _) as [st2 a2]. simpl. auto.
  - simpl. auto.
Qed.

(** How [Reflector_list] leaves the three version fields, in terms of
    the last attempt. *)
Lemma list_final_state (r : Reflector) (st : S) :
  let run := Reflector_list lw r st in
  let a := lastAttempt lw r st in
  match laErr a with
  | Some _ =>
      runErr run <> None
      /\ isLastSyncResourceVersionUnavailable (runReflector run)
         = isLastSyncResourceVersionUnavailable (listAttempts lw r st).1.1.1
      /\ lastSyncResourceVersion (runReflector run) = lastSyncResourceVersion r
      /\ paginatedResult (runReflector run) = paginatedResult r
  | None =>
      isLastSyncResourceVersionUnavailable (runReflector run) = false
      /\ paginatedResult (runReflector run)
         = (bool_decide (relistResourceVersion r = "0") && laPaginated a || paginatedResult r)
  end.
Proof.
  intros run a. subst run a. unfold lastAttempt, Reflector_list.
  pose proof (listAttempts_unavailable r st) as (Hu & Hl & Hp).
  destruct (listAttempts lw r st) as [[[r1 st1] a] calls]. simpl in *.
  destruct (laErr a) as [e |]; simpl.
  - repeat split; auto; discriminate.
  - assert (Hpag : paginatedResult
             (if bool_decide (relistResourceVersion r = "0") && laPaginated a
              then setPaginatedResult true r1 else r1)
             = (bool_decide (relistResourceVersion r = "0") && laPaginated a
                || paginatedResult r)).
    { destruct (bool_decide (relistResourceVersion r = "0") && laPaginated a); simpl; auto. }
    destruct (laList a) as [l |]; simpl; [| auto].
    destruct (if bool_decide _ then _ else _) as [st2 [e |]]; simpl; auto.
Qed.

End ListPhaseFacts.

(** C3, as stated, fails: an expired list does not clear the last
    resource version. At a reflector synced to version 5, the retry is
    made while version 5 is still recorded. *)
Lemma list_expired_keeps_last_version :
  ~ (forall (lw : ListerWatcher) (r : Reflector) (st : list StoreItem * string),
        isExpiredError (laErr (runPager lw r st 0 (firstCall r)).2) = true ->
        forall retry, runCalls (Reflector_list lw r st) !! 1%nat = Some retry ->
                      LastSyncResourceVersion retry.1 = "").
Proof.
  intros Hspec.
  pose proof (Hspec expiredAt5 syncedReflector emptyStore eq_refl
                (setIsLastSyncResourceVersionUnavailable true syncedReflector,
                 mkPagerCall "" 0 false) eq_refl) as Hcleared.
  vm_compute in Hcleared. discriminate Hcleared.
Qed.

(** When the retry fails as well, the call returns an error with the
    mark set and version 5 still in place; the too-large error of the
    examples is recognised by its cause. *)
Example list_expired_then_down :
  let run := Reflector_list expiredThenDown syncedReflector emptyStore in
  (callResourceVersion <$> (snd <$> runCalls run)) = ["5"; ""]
  /\ runErr run <> None
  /\ isLastSyncResourceVersionUnavailable (runReflector run) = true
  /\ LastSyncResourceVersion (runReflector run) = "5"
  /\ isTooLargeResourceVersionError (Some tooLargeError) = true.
Proof. vm_compute. repeat split; try reflexivity. discriminate. Qed.

(** C3, amended. When the first pager call of a list phase ends with an
    expired or too-large-resource-version error, the reflector marks the
    last version unavailable, keeps the last version itself, and makes
    exactly one more call, from the empty resource version; if that call
    fails too, the mark and the last version stay. Without such an error
    there is one call only. Every list that returns no error leaves the
    last version marked available. *)
Theorem list_expired_retries_once {S : Type} `{Store S}
    (lw : ListerWatcher) (r : Reflector) (st : S) :
  let first := (runPager lw r st 0 (firstCall r)).2 in
  let run := Reflector_list lw r st in
  (isExpiredError (laErr first) || isTooLargeResourceVersionError (laErr first) = true ->
     exists retryState retryCall,
       runCalls run = [(r, firstCall r); (retryState, retryCall)]
       /\ callResourceVersion retryCall = ""
       /\ isLastSyncResourceVersionUnavailable retryState = true
       /\ lastSyncResourceVersion retryState = lastSyncResourceVersion r
       /\ (laErr (lastAttempt lw r st) <> None ->
           runErr run <> None
           /\ isLastSyncResourceVersionUnavailable (runReflector run) = true
           /\ lastSyncResourceVersion (runReflector run) = lastSyncResourceVersion r))
  /\ (isExpiredError (laErr first) || isTooLargeResourceVersionError (laErr first) = false ->
      runCalls run = [(r, firstCall r)])
  /\ (laErr (lastAttempt lw r st) = None ->
      isLastSyncResourceVersionUnavailable (runReflector run) = false)
  /\ (runErr run = None ->
      isLastSyncResourceVersionUnavailable (runReflector run) = false).
Proof.
  intros first run. subst first run.
  pose proof (list_final_state lw r st) as Hfin.
  pose proof (listAttempts_unavailable lw r st) as (Hu & Hl & Hp).
  rewrite list_calls. cbv zeta in Hfin.
  split; [| split; [| split]].
  - intros Hexp.
    exists (setIsLastSyncResourceVersionUnavailable true r).
    exists (mkPagerCall "" (callPageSize (firstCall r)) (StreamHandleForPaginatedList r)).
    rewrite Hexp in Hu. simpl in Hu.
    split; [| split; [| split; [| split]]]; try reflexivity.
    + unfold listAttempts.
      destruct (runPager lw r st 0 (firstCall r)) as [st1 a1]. simpl in Hexp.
      rewrite Hexp.
      destruct (runPager lw _ st1 1 _) as [st2 a2]. reflexivity.
    + intros Herr.
      destruct (laErr (lastAttempt lw r st)) as [e |]; [| congruence].
      destruct Hfin as (Hne & Hflag & Hlast & _).
      rewrite Hflag, Hu. auto.
  - intros Hexp. unfold listAttempts.
    destruct (runPager lw r st 0 (firstCall r)) as [st1 a1]. simpl in Hexp.
    rewrite Hexp. reflexivity.
  - intros Hok. rewrite Hok in Hfin. apply Hfin.
  - intros Hok.
    destruct (laErr (lastAttempt lw r st)) as [e |].
    + destruct Hfin as [Hne _]. congruence.
    + apply Hfin.
Qed.

(** At a reflector synced to version 5 whose server reports that
    version expired: the retry starts from the empty version, in a state
    that still records version 5, and its success clears the mark. *)
Lemma list_expired_retries_once_witness :
  (exists retryState retryCall,
      runCalls (Reflector_list expiredAt5 syncedReflector emptyStore)
      = [(syncedReflector, firstCall syncedReflector); (retryState, retryCall)]
      /\ callResourceVersion retryCall = ""
      /\ isLastSyncResourceVersionUnavailable retryState = true
      /\ lastSyncResourceVersion retryState = "5")
  /\ isLastSyncResourceVersionUnavailable
       (runReflector (Reflector_list expiredAt5 syncedReflector emptyStore)) = false.
Proof.
  pose proof (list_expired_retries_once expiredAt5 syncedReflector emptyStore)
    as (Hretry & _ & _ & Hok).
  split.
  - destruct (Hretry eq_refl) as (rs & rc & Hcalls & Hrv & Hflag & Hlast & _).
    exists rs, rc. auto.
  - apply Hok. reflexivity.
Defined.

(** C4, the code at the failing input. A fresh reflector starts its
    list at version 0; that call fails as expired and is retried from
    the empty version; the retried list is paginated and
    [paginatedResult] ends up set, although the only request that
    returned a paginated result started from the empty version. *)
Theorem list_retry_from_empty_sets_paginatedResult :
  let run := Reflector_list expiredThenPaginated freshReflector emptyStore in
  (callResourceVersion <$> (snd <$> runCalls run)) = ["0"; ""]
  /\ prPaginated (expiredThenPaginated 0%nat (firstCall freshReflector)) = false
  /\ prErr (expiredThenPaginated 0%nat (firstCall freshReflector)) = Some expiredError
  /\ runErr run = None
  /\ paginatedResult freshReflector = false
  /\ paginatedResult (runReflector run) = true.
Proof. vm_compute. repeat split; reflexivity. Qed.

End InformerSpec.

(** * Properties of the internal storage *)
Module InternalStorageSpec.
Import InternalStorage StorageExamples.

(** ** Owner options *)

(** C6. With zero, two or more cluster names the owner options do not
    reach the query: [applyOwnerToResourceQuery] hands the query back
    as it got it, exactly as it does when the owner options are absent. *)
Theorem applyOwnerToResourceQuery_ignores_owner `{Env}
    (d : DB) (query : Query) (opts : ListOptions) :
  List.length (ClusterNames opts) <> 1%nat ->
  applyOwnerToResourceQuery d query opts = Ok query
  /\ applyOwnerToResourceQuery d query opts
     = applyOwnerToResourceQuery d query (withoutOwner opts).
Proof.
  intros Hlen. unfold applyOwnerToResourceQuery. simpl.
  rewrite bool_decide_eq_true_2 by exact Hlen. split; reflexivity.
Qed.

Lemma applyOwnerToResourceQuery_ignores_owner_witness :
  applyOwnerToResourceQuery (db (storageOn "sqlite" [webRow])) emptyQuery ownerOptions
  = Ok emptyQuery
  /\ applyOwnerToResourceQuery (db (storageOn "sqlite" [webRow])) emptyQuery ownerOptions
     = applyOwnerToResourceQuery (db (storageOn "sqlite" [webRow])) emptyQuery
         (withoutOwner ownerOptions).
Proof.
  apply (applyOwnerToResourceQuery_ignores_owner
           (db (storageOn "sqlite" [webRow])) emptyQuery ownerOptions).
  simpl. lia.
Defined.

(** ** Paging *)

Lemma wrap64_id z : in_int64 z -> wrap64 z = z.
Proof.
  unfold in_int64, int64_min, int64_max, wrap64. intros Hz.
  rewrite Z.mod_small; lia.
Qed.

Section Paging.
Context `{Env}.

Lemma setPaging_meta opts offset amount n l lm :
  ListAccessor l = Ok lm ->
  ListAccessor (setPaging opts offset amount n l)
  = Ok (mkListMeta
          (if bool_decide (WithContinue opts = Some true) && bool_decide (Z.of_nat n = Limit opts)
           then FormatInt10 (add64 offset (Limit opts)) else listContinue lm)
          (match amount with
           | Some total => Some (sub64 (sub64 total offset) (Z.of_nat n))
           | None => listRemainingItemCount lm
           end)).
Proof.
  intros Hl. unfold setPaging.
  destruct l as [v lm0 items | lm0 items |]; simpl in Hl; [| | discriminate];
    injection Hl as ->;
    destruct (bool_decide (WithContinue opts = Some true) && bool_decide (Z.of_nat n = Limit opts));
    destruct amount, lm; reflexivity.
Qed.

(** Converting the objects leaves the list metadata alone. *)
Lemma List_meta s listObject opts offset amount query kind objects lm :
  genListObjectsQuery s opts = Ok (offset, amount, query, kind) ->
  FromItems kind (db s) query = Ok objects ->
  ListAccessor listObject = Ok lm ->
  ListAccessor (List s listObject opts).1
  = ListAccessor (setPaging opts offset amount (List.length objects) listObject).
Proof.
  intros Hq Hfrom Hl. unfold List, materialize. rewrite Hq, Hfrom, Hl.
  pose proof (setPaging_meta opts offset amount (List.length objects) listObject lm Hl) as Hm.
  destruct (bool_decide (List.length objects = 0%nat)); [reflexivity |].
  destruct (setPaging opts offset amount (List.length objects) listObject)
    as [v lm' items | lm' items |]; simpl in *.
  - destruct (convertUnstructured (codec s) v objects []) as [items' r]. reflexivity.
  - destruct (convertTyped (codec s) objects); reflexivity.
  - reflexivity.
Qed.

End Paging.

(** C7. Once the rows are read, [List] sets the Continue token to the
    decimal of offset+Limit (int64 addition) when WithContinue is set
    and the page holds exactly Limit objects, and, when the translator
    returned an amount, the remaining item count to
    amount - offset - len(page) (int64 subtraction). In range, int64
    addition and subtraction are the mathematical ones, so the count is
    negative when the offset lies past the end. *)
Theorem List_continue_and_remaining `{Env}
    (s : ResourceStorage) (listObject : ListObject) (opts : ListOptions)
    (offset : Z) (amount : option Z) (query : Query) (kind : ObjectListKind)
    (objects : list Object) (lm : ListMeta) :
  genListObjectsQuery s opts = Ok (offset, amount, query, kind) ->
  FromItems kind (db s) query = Ok objects ->
  ListAccessor listObject = Ok lm ->
  exists lm',
    ListAccessor (List s listObject opts).1 = Ok lm'
    /\ (WithContinue opts = Some true -> Z.of_nat (List.length objects) = Limit opts ->
        listContinue lm' = FormatInt10 (add64 offset (Limit opts)))
    /\ (forall total, amount = Some total ->
        listRemainingItemCount lm'
        = Some (sub64 (sub64 total offset) (Z.of_nat (List.length objects))))
    /\ (in_int64 (offset + Limit opts) -> add64 offset (Limit opts) = offset + Limit opts)
    /\ (forall total, in_int64 (total - offset) ->
        in_int64 (total - offset - Z.of_nat (List.length objects)) ->
        sub64 (sub64 total offset) (Z.of_nat (List.length objects))
        = total - offset - Z.of_nat (List.length objects)).
Proof.
  intros Hq Hfrom Hl.
  rewrite (List_meta s listObject opts offset amount query kind objects lm Hq Hfrom Hl).
  rewrite (setPaging_meta opts offset amount (List.length objects) listObject lm Hl).
  eexists. split; [reflexivity |]. simpl.
  split; [| split; [| split]].
  - intros Hc Hfull.
    rewrite (bool_decide_eq_true_2 _ Hc), (bool_decide_eq_true_2 _ Hfull). reflexivity.
  - intros total ->. reflexivity.
  - intros Hr. unfold add64. apply wrap64_id, Hr.
  - intros total H1 H2. unfold sub64. rewrite (wrap64_id _ H1). apply wrap64_id, H2.
Qed.

Lemma List_continue_and_remaining_witness :
  (exists lm',
      ListAccessor (List (storageOn "sqlite" [webRow]) emptyTypedList (pageOptions "")).1
      = Ok lm'
      /\ listContinue lm' = "1" /\ listRemainingItemCount lm' = Some 0)
  /\ (exists lm',
         ListAccessor (List (storageOn "sqlite" [webRow]) emptyTypedList (pageOptions "5")).1
         = Ok lm'
         /\ listContinue lm' = "" /\ listRemainingItemCount lm' = Some (-4)).
Proof.
  split.
  - edestruct (List_continue_and_remaining
                 (storageOn "sqlite" [webRow]) emptyTypedList (pageOptions ""))
      as (lm' & Hacc & Hcont & Hrem & _);
      [vm_compute; reflexivity | vm_compute; reflexivity | reflexivity |].
    exists lm'. split; [exact Hacc |]. split.
    + rewrite Hcont by reflexivity. reflexivity.
    + rewrite (Hrem 1 eq_refl). reflexivity.
  - edestruct (List_continue_and_remaining
                 (storageOn "sqlite" [webRow]) emptyTypedList (pageOptions "5"))
      as (lm' & Hacc & _ & Hrem & _);
      [vm_compute; reflexivity | vm_compute; reflexivity | reflexivity |].
    exists lm'. split; [exact Hacc |]. split.
    + vm_compute in Hacc. injection Hacc as <-. reflexivity.
    + rewrite (Hrem 1 eq_refl). reflexivity.
Defined.

(** ** The metadata projection and the backend *)

Section Projection.
Context `{Env}.

Lemma genListObjectsQuery_kind s opts offset amount query kind :
  genListObjectsQuery s opts = Ok (offset, amount, query, kind) ->
  kind = (if OnlyMetadata opts && InjectEvents opts then ResourceMetadataWithEventsList
          else if OnlyMetadata opts then ResourceMetadataList
          else if InjectEvents opts then BytesWithEventsList
          else BytesList).
Proof.
  unfold genListObjectsQuery.
  destruct (applyListOptionsToResourceQuery _ _ _) as [[[o a] q] | e | m]; simpl;
    intros Hq; [| discriminate | discriminate].
  injection Hq as _ _ _ <-. reflexivity.
Qed.

Lemma isSQLiteOrMySQL_true name :
  name = "sqlite" \/ name = "sqlite3" \/ name = "mysql" -> isSQLiteOrMySQL name = true.
Proof. intros [-> | [-> | ->]]; reflexivity. Qed.

Lemma isSQLiteOrMySQL_false name :
  name <> "sqlite" -> name <> "sqlite3" -> name <> "mysql" -> isSQLiteOrMySQL name = false.
Proof.
  intros H1 H2 H3. unfold isSQLiteOrMySQL.
  rewrite !bool_decide_eq_false_2 by assumption. reflexivity.
Qed.

Lemma metadata_FromItems (d : DB) (query : Query) (opts : ListOptions) (sel : string) :
  res_map (fmap ObjResourceMetadata)
    (metadatas <~ execFind d (Select [sel] query); Ok (scanResourceMetadata <$> metadatas))
  = res_map (fmap (fun row => ObjResourceMetadata (scanResourceMetadata row)))
      (execFind d (Select [sel] query)).
Proof.
  destruct (execFind d (Select [sel] query)) as [rows | e | m]; simpl; [| reflexivity ..].
  unfold res_map. simpl. f_equal. rewrite <- list_fmap_compose. reflexivity.
Qed.

End Projection.

(** C9, as stated, fails: on a backend other than SQLite, MySQL and
    PostgreSQL a metadata-projecting [List] returns no error; it
    panics. *)
Lemma List_unsupported_backend_returns_no_error :
  ~ (forall (s : ResourceStorage) (listObject : ListObject) (opts : ListOptions),
        OnlyMetadata opts = true ->
        isSQLiteOrMySQL (dialectorName (db s)) = false ->
        dialectorName (db s) <> "postgres" ->
        exists e, (List s listObject opts).2 = Err e).
Proof.
  intros Hspec.
  destruct (Hspec (storageOn "oracle" [webRow]) emptyTypedList (listOptions true false))
    as [e He]; [reflexivity | reflexivity | discriminate |].
  vm_compute in He. discriminate He.
Qed.

(** C9, amended. A metadata-projecting [List] reads its rows through
    the select list with [object->>'$.metadata'] when the dialect is
    sqlite, sqlite3 or mysql and with [object->>'metadata'] when it is
    postgres (followed by the events column when events are asked for);
    on every other dialect the call panics with the message
    "storage: only support sqlite3, mysql or postgres" and the list
    object is left as it was. *)
Theorem metadata_projection_by_backend `{Env}
    (s : ResourceStorage) (listObject : ListObject) (opts : ListOptions)
    (offset : Z) (amount : option Z) (query : Query) (kind : ObjectListKind) :
  OnlyMetadata opts = true ->
  genListObjectsQuery s opts = Ok (offset, amount, query, kind) ->
  let name := dialectorName (db s) in
  let events := if InjectEvents opts then ", events" else "" in
  (name = "sqlite" \/ name = "sqlite3" \/ name = "mysql" ->
   FromItems kind (db s) query
   = res_map (fmap (fun row => ObjResourceMetadata (scanResourceMetadata row)))
       (execFind (db s)
          (Select ["`group`, version, resource, kind, object->>'$.metadata' as metadata"
                     +:+ events] query)))
  /\ (name = "postgres" ->
      FromItems kind (db s) query
      = res_map (fmap (fun row => ObjResourceMetadata (scanResourceMetadata row)))
          (execFind (db s)
             (Select [doubleQuote +:+ "group" +:+ doubleQuote
                        +:+ ", version, resource, kind, object->>'metadata' as metadata"
                        +:+ events] query)))
  /\ (name <> "sqlite" -> name <> "sqlite3" -> name <> "mysql" -> name <> "postgres" ->
      List s listObject opts
      = (listObject, Panic "storage: only support sqlite3, mysql or postgres")).
Proof.
  intros Hmeta Hq name events. subst name events.
  pose proof (genListObjectsQuery_kind s opts offset amount query kind Hq) as Hkind.
  rewrite Hmeta in Hkind. simpl in Hkind.
  split; [| split].
  - intros Hname. apply isSQLiteOrMySQL_true in Hname.
    destruct (InjectEvents opts); subst kind; simpl;
      unfold ResourceMetadataWithEventsList_From, ResourceMetadataList_From;
      rewrite Hname; simpl;
      rewrite <- (metadata_FromItems (db s) query opts); reflexivity.
  - intros Hname.
    destruct (InjectEvents opts); subst kind; simpl;
      unfold ResourceMetadataWithEventsList_From, ResourceMetadataList_From;
      rewrite Hname; simpl;
      rewrite <- (metadata_FromItems (db s) query opts); reflexivity.
  - intros H1 H2 H3 H4. unfold List. rewrite Hq.
    assert (Hfrom : FromItems kind (db s) query
                    = Panic "storage: only support sqlite3, mysql or postgres").
    { destruct (InjectEvents opts); subst kind; simpl;
        unfold ResourceMetadataWithEventsList_From, ResourceMetadataList_From;
        rewrite (isSQLiteOrMySQL_false _ H1 H2 H3);
        rewrite (bool_decide_eq_false_2 _ H4); reflexivity. }
    rewrite Hfrom. reflexivity.
Qed.

(** The three kinds of backend: sqlite and postgres read the row of
    web through their select list, oracle panics. *)
Lemma metadata_projection_by_backend_witness :
  FromItems ResourceMetadataWithEventsList (db (storageOn "sqlite" [webRow]))
    (mkQuery [WhereMap (gvrKeyMap (storageOn "sqlite" [webRow]))] [] None None [])
  = res_map (fmap (fun row => ObjResourceMetadata (scanResourceMetadata row)))
      (execFind (db (storageOn "sqlite" [webRow]))
         (Select ["`group`, version, resource, kind, object->>'$.metadata' as metadata, events"]
            (mkQuery [WhereMap (gvrKeyMap (storageOn "sqlite" [webRow]))] [] None None [])))
  /\ FromItems ResourceMetadataList (db (storageOn "postgres" [webRow]))
       (mkQuery [WhereMap (gvrKeyMap (storageOn "postgres" [webRow]))] [] None None [])
     = res_map (fmap (fun row => ObjResourceMetadata (scanResourceMetadata row)))
         (execFind (db (storageOn "postgres" [webRow]))
            (Select [doubleQuote +:+ "group" +:+ doubleQuote
                       +:+ ", version, resource, kind, object->>'metadata' as metadata"]
               (mkQuery [WhereMap (gvrKeyMap (storageOn "postgres" [webRow]))] [] None None [])))
  /\ List (storageOn "oracle" [webRow]) emptyTypedList (listOptions true false)
     = (emptyTypedList, Panic "storage: only support sqlite3, mysql or postgres").
Proof.
  split; [| split].
  - refine (proj1 (metadata_projection_by_backend
                     (storageOn "sqlite" [webRow]) emptyTypedList (listOptions true true)
                     0 None _ ResourceMetadataWithEventsList eq_refl _) _).
    + vm_compute. reflexivity.
    + left. reflexivity.
  - refine (proj1 (proj2 (metadata_projection_by_backend
                     (storageOn "postgres" [webRow]) emptyTypedList (listOptions true false)
                     0 None _ ResourceMetadataList eq_refl _)) _).
    + vm_compute. reflexivity.
    + reflexivity.
  - refine (proj2 (proj2 (metadata_projection_by_backend
                     (storageOn "oracle" [webRow]) emptyTypedList (listOptions true false)
                     0 None _ ResourceMetadataList eq_refl _)) _ _ _ _).
    all: try discriminate.
    vm_compute. reflexivity.
Defined.

(** ** Writing rows *)

Section Writes.
Context `{Env}.

Lemma evalJSONExpr_JSON (d : DB) (b : bytes) :
  evalJSONExpr (datatypes_JSON_GormValue d b)
  = if bool_decide (b = "") then SQLNull else SQLJSON b.
Proof.
  unfold datatypes_JSON_GormValue.
  destruct (bool_decide (b = "")); [reflexivity |].
  destruct (bool_decide (dialectorName d = "mysql") && negb (serverIsMariaDB d)); reflexivity.
Qed.

Lemma evalJSONExpr_JSONMap (d : DB) (m : JSONMap) :
  evalJSONExpr (JSONMap_GormValue d m)
  = match m with
    | None => SQLNull
    | Some _ => SQLJSON (datatypes_JSONMap_MarshalJSON m)
    end.
Proof.
  destruct m as [kvs |]; [| reflexivity].
  unfold JSONMap_GormValue, datatypes_JSONMap_GormValue.
  destruct (bool_decide (dialectorName d = "mysql") && negb (serverIsMariaDB d)); reflexivity.
Qed.

Lemma MarshalJSON_not_null (kvs : gmap string bytes) :
  datatypes_JSONMap_MarshalJSON (Some kvs) <> "null".
Proof. simpl. discriminate. Qed.

(** The columns [Updates] assigns. *)
Lemma updatedResource_lookup (d : DB) (now : Time) (metaobj : ObjectMeta) (buffer : bytes)
    (column : string) :
  (<["synced_at" := SQLTime now]> (toSQLValue d <$> updatedResource metaobj buffer)) !! column
  = if bool_decide (column = "synced_at") then Some (SQLTime now)
    else if bool_decide (column = "owner_uid") then Some (SQLString (ownerUIDOf metaobj))
    else if bool_decide (column = "uid") then Some (SQLString (metaUID metaobj))
    else if bool_decide (column = "resource_version")
         then Some (SQLString (metaResourceVersion metaobj))
    else if bool_decide (column = "object")
         then Some (evalJSONExpr (datatypes_JSON_GormValue d buffer))
    else if bool_decide (column = "created_at")
         then Some (SQLTime (metaCreationTimestamp metaobj))
    else if bool_decide (column = "deleted_at")
         then SQLTime <$> metaDeletionTimestamp metaobj
    else None.
Proof.
  unfold updatedResource.
  repeat case_bool_decide; subst;
    destruct (metaDeletionTimestamp metaobj);
    simplify_map_eq; reflexivity.
Qed.

Lemma Updates_rows (d : DB) (now : Time) (key : gmap string string)
    (values : gmap string GoValue) (i : nat) (row : gmap string SQLValue) :
  tableRows d !! i = Some row ->
  tableRows (Updates d now key values) !! i
  = Some (if rowMatches key row
          then <["synced_at" := SQLTime now]> (toSQLValue d <$> values) ∪ row
          else row).
Proof.
  intros Hrow. unfold Updates. simpl. rewrite list_lookup_fmap, Hrow. reflexivity.
Qed.

(** A call of [Update] that returns nil ran its statement. *)
Lemma Update_ok s ctx now cluster obj metaobj buffer :
  Accessor obj = Ok metaobj ->
  Encode (codec s) obj = Ok buffer ->
  (Update s ctx now cluster obj).2 = Ok tt ->
  Update s ctx now cluster obj
  = (withDB (Updates (db s) now
               (resourceKeyMap s cluster (metaNamespace metaobj) (metaName metaobj))
               (updatedResource metaobj buffer)) s,
     Ok tt).
Proof.
  intros Hacc Henc. unfold Update, gormUpdates. rewrite Hacc, Henc.
  destruct (engineError (Some ctx) _) as [e |]; simpl; [discriminate | reflexivity].
Qed.

(** [Update] returns nil when the engine takes the statement. *)
Lemma Update_accepted s ctx now cluster obj metaobj buffer :
  Accessor obj = Ok metaobj ->
  Encode (codec s) obj = Ok buffer ->
  engineError (Some ctx)
    (UpdatesStatement (resourceKeyMap s cluster (metaNamespace metaobj) (metaName metaobj))
                      (updatedResource metaobj buffer)) = None ->
  (Update s ctx now cluster obj).2 = Ok tt.
Proof.
  intros Hacc Henc Hengine. unfold Update, gormUpdates. rewrite Hacc, Henc, Hengine.
  reflexivity.
Qed.

End Writes.

(** C2, as stated, fails, also on the calls that return nil: [Update]
    with an object that has no deletionTimestamp does not overwrite
    deleted_at. The row of web keeps the deletion time 940 it had, where
    the object calls for NULL. *)
Lemma Update_keeps_deleted_at :
  ~ (forall (s : ResourceStorage) (ctx : Context) (now : Time) (cluster : string)
            (obj : RuntimeObject) (metaobj : ObjectMeta) (i : nat)
            (row row' : gmap string SQLValue),
        Accessor obj = Ok metaobj ->
        (Update s ctx now cluster obj).2 = Ok tt ->
        tableRows (db s) !! i = Some row ->
        rowMatches (resourceKeyMap s cluster (metaNamespace metaobj) (metaName metaobj)) row
        = true ->
        tableRows (db (Update s ctx now cluster obj).1) !! i = Some row' ->
        row' !! "deleted_at"
        = Some (from_option SQLTime SQLNull (metaDeletionTimestamp metaobj))).
Proof.
  intros Hspec.
  pose proof (Update_accepted (storageOn "sqlite" [webRow]) Background 2000 "c1" (Typed web)
                webMeta webJSON eq_refl eq_refl eq_refl) as Hok.
  pose proof (Update_ok (storageOn "sqlite" [webRow]) Background 2000 "c1" (Typed web)
                webMeta webJSON eq_refl eq_refl Hok) as Hupdate.
  assert (Hm : rowMatches (resourceKeyMap (storageOn "sqlite" [webRow]) "c1"
                             (metaNamespace webMeta) (metaName webMeta)) webRow = true)
    by (vm_compute; reflexivity).
  pose proof (Updates_rows (db (storageOn "sqlite" [webRow])) 2000
                (resourceKeyMap (storageOn "sqlite" [webRow]) "c1"
                   (metaNamespace webMeta) (metaName webMeta))
                (updatedResource webMeta webJSON) 0%nat webRow eq_refl) as Hlookup.
  rewrite Hm in Hlookup.
  pose proof (fun row' => Hspec (storageOn "sqlite" [webRow]) Background 2000 "c1" (Typed web)
                             webMeta 0%nat webRow row' eq_refl Hok eq_refl Hm) as Hc.
  rewrite Hupdate in Hc. specialize (Hc _ Hlookup).
  rewrite lookup_union_r in Hc by (rewrite updatedResource_lookup; reflexivity).
  vm_compute in Hc. discriminate Hc.
Qed.

(** C2, amended. A call of [Update] that returns nil, for an object
    with metadata that encodes, has overwritten, on every row identified
    by (cluster, group, version, resource, namespace, name), owner_uid,
    uid, resource_version, object and created_at with the values of the
    object; deleted_at is overwritten with the object's
    deletionTimestamp when it has one and keeps its stored value when it
    has none. Rows with another key are left as they were. *)
Theorem Update_overwrites_columns `{Env}
    (s : ResourceStorage) (ctx : Context) (now : Time) (cluster : string) (obj : RuntimeObject)
    (metaobj : ObjectMeta) (buffer : bytes) (i : nat) (row : gmap string SQLValue) :
  Accessor obj = Ok metaobj ->
  Encode (codec s) obj = Ok buffer ->
  (Update s ctx now cluster obj).2 = Ok tt ->
  tableRows (db s) !! i = Some row ->
  exists row',
    tableRows (db (Update s ctx now cluster obj).1) !! i = Some row'
    /\ (rowMatches (resourceKeyMap s cluster (metaNamespace metaobj) (metaName metaobj)) row
        = false -> row' = row)
    /\ (rowMatches (resourceKeyMap s cluster (metaNamespace metaobj) (metaName metaobj)) row
        = true ->
        row' !! "owner_uid" = Some (SQLString (ownerUIDOf metaobj))
        /\ row' !! "uid" = Some (SQLString (metaUID metaobj))
        /\ row' !! "resource_version" = Some (SQLString (metaResourceVersion metaobj))
        /\ row' !! "object"
           = Some (if bool_decide (buffer = "") then SQLNull else SQLJSON buffer)
        /\ row' !! "created_at" = Some (SQLTime (metaCreationTimestamp metaobj))
        /\ row' !! "deleted_at"
           = match metaDeletionTimestamp metaobj with
             | Some deletedAt => Some (SQLTime deletedAt)
             | None => row !! "deleted_at"
             end).
Proof.
  intros Hacc Henc Hok Hrow.
  rewrite (Update_ok s ctx now cluster obj metaobj buffer Hacc Henc Hok). simpl.
  eexists. split; [apply Updates_rows, Hrow |].
  split.
  - intros ->. reflexivity.
  - intros ->.
    repeat split.
    + apply lookup_union_Some_l. rewrite updatedResource_lookup. reflexivity.
    + apply lookup_union_Some_l. rewrite updatedResource_lookup. reflexivity.
    + apply lookup_union_Some_l. rewrite updatedResource_lookup. reflexivity.
    + apply lookup_union_Some_l. rewrite updatedResource_lookup, evalJSONExpr_JSON.
      reflexivity.
    + apply lookup_union_Some_l. rewrite updatedResource_lookup. reflexivity.
    + destruct (metaDeletionTimestamp metaobj) as [deletedAt |] eqn:Hdel.
      * apply lookup_union_Some_l. rewrite updatedResource_lookup, Hdel. reflexivity.
      * apply lookup_union_r. rewrite updatedResource_lookup, Hdel. reflexivity.
Qed.

(** web, observed again at version 41 without a deletionTimestamp. *)
Lemma Update_overwrites_columns_witness :
  (Update (storageOn "sqlite" [webRow]) Background 2000 "c1" (Typed web)).2 = Ok tt
  /\ exists row',
       tableRows (db (Update (storageOn "sqlite" [webRow]) Background 2000 "c1" (Typed web)).1)
       !! 0%nat = Some row'
       /\ row' !! "uid" = Some (SQLString "uid-web")
       /\ row' !! "resource_version" = Some (SQLString "41")
       /\ row' !! "object" = Some (SQLJSON webJSON)
       /\ row' !! "created_at" = Some (SQLTime 1000)
       /\ row' !! "deleted_at" = Some (SQLTime 940).
Proof.
  assert (Hok : (Update (storageOn "sqlite" [webRow]) Background 2000 "c1" (Typed web)).2
                = Ok tt)
    by (unfold Update, gormUpdates; reflexivity).
  split; [exact Hok |].
  destruct (Update_overwrites_columns (storageOn "sqlite" [webRow]) Background 2000 "c1"
              (Typed web) webMeta webJSON 0%nat webRow eq_refl eq_refl Hok eq_refl)
    as (row' & Hlookup & _ & Hcols).
  exists row'. split; [exact Hlookup |].
  destruct Hcols as (_ & Huid & Hrv & Hobj & Hcreated & Hdeleted);
    [vm_compute; reflexivity |].
  repeat split; assumption.
Defined.

Section CreatedRows.
Context `{Env}.

Lemma insertedRow_json_columns (d : DB) (now : Time) (r : Resource) :
  insertedRow d now r !! "events" = Some (evalJSONExpr (JSONMap_GormValue d (resEvents r)))
  /\ insertedRow d now r !! "event_resource_versions"
     = Some (evalJSONExpr (JSONMap_GormValue d (resEventResourceVersions r))).
Proof. split; reflexivity. Qed.

(** What a successful [Create] appends: one row whose two event
    columns come from nil maps. *)
Lemma Create_ok s ctx now cluster obj s' :
  Create s ctx now cluster obj = (s', Ok tt) ->
  exists r,
    resEvents r = None /\ resEventResourceVersions r = None
    /\ tableRows (db s') = tableRows (db s) ++ [insertedRow (db s) now r].
Proof.
  unfold Create.
  destruct (bool_decide (gvkKind (GetObjectKind obj) = "")); [discriminate |].
  destruct (Accessor obj) as [metaobj | e | m]; [| discriminate ..].
  destruct (Encode (codec s) obj) as [buffer | e | m]; [| discriminate ..].
  unfold gormCreate.
  destruct (engineError (Some ctx) _) as [e |]; simpl; [discriminate |].
  destruct (existsb _ (tableRows (db s))); simpl; [discriminate |].
  destruct (indexError (db s) _) as [e |]; simpl; [discriminate |].
  intros Hc. injection Hc as <-.
  eexists. split; [| split]; [| | reflexivity]; reflexivity.
Qed.

Lemma Update_event_columns s ctx now cluster obj (column : string) :
  column = "events" \/ column = "event_resource_versions" ->
  (fun row : gmap string SQLValue => row !! column)
    <$> tableRows (db (Update s ctx now cluster obj).1)
  = (fun row : gmap string SQLValue => row !! column) <$> tableRows (db s).
Proof.
  intros Hcol. unfold Update, gormUpdates.
  destruct (Accessor obj) as [metaobj | e | m]; [| reflexivity ..].
  destruct (Encode (codec s) obj) as [buffer | e | m]; [| reflexivity ..].
  destruct (engineError (Some ctx) _) as [e |]; [reflexivity |].
  simpl. rewrite <- list_fmap_compose. apply list_fmap_ext.
  intros i row _. simpl.
  destruct (rowMatches _ row); [| reflexivity].
  apply lookup_union_r. rewrite updatedResource_lookup.
  destruct Hcol as [-> | ->]; reflexivity.
Qed.

End CreatedRows.

(** C8. A nil events or event_resource_versions map is bound as the SQL
    literal NULL, and no map value at all, nil or not, is bound as the
    JSON text null. On the write paths: the row a successful [Create]
    inserts has NULL in both columns, and [Update] leaves both columns
    of every row as they were. *)
Theorem empty_JSONMap_stored_as_NULL `{Env} :
  (forall d : DB,
      JSONMap_GormValue d None = gorm_Expr "NULL" []
      /\ evalJSONExpr (JSONMap_GormValue d None) = SQLNull)
  /\ (forall (d : DB) (m : JSONMap),
         evalJSONExpr (JSONMap_GormValue d m) <> SQLJSON "null"
         /\ exprVars (JSONMap_GormValue d m) <> ["null"])
  /\ (forall s ctx now cluster obj s',
         Create s ctx now cluster obj = (s', Ok tt) ->
         exists row,
           tableRows (db s') = tableRows (db s) ++ [row]
           /\ row !! "events" = Some SQLNull
           /\ row !! "event_resource_versions" = Some SQLNull)
  /\ (forall s ctx now cluster obj (column : string),
         column = "events" \/ column = "event_resource_versions" ->
         (fun row : gmap string SQLValue => row !! column)
           <$> tableRows (db (Update s ctx now cluster obj).1)
         = (fun row : gmap string SQLValue => row !! column) <$> tableRows (db s)).
Proof.
  split; [| split; [| split]].
  - intros d. split; reflexivity.
  - intros d m. rewrite evalJSONExpr_JSONMap.
    destruct m as [kvs |].
    + split.
      * intros Heq. apply (MarshalJSON_not_null kvs). congruence.
      * unfold JSONMap_GormValue, datatypes_JSONMap_GormValue.
        destruct (bool_decide (dialectorName d = "mysql") && negb (serverIsMariaDB d));
          simpl; intros Heq; apply (MarshalJSON_not_null kvs); simpl; congruence.
    + split; discriminate.
  - intros s ctx now cluster obj s' Hc.
    destruct (Create_ok s ctx now cluster obj s' Hc) as (r & Hev & Herv & Hrows).
    exists (insertedRow (db s) now r). split; [exact Hrows |].
    destruct (insertedRow_json_columns (db s) now r) as [-> ->].
    rewrite Hev, Herv. split; reflexivity.
  - intros s ctx now cluster obj column Hcol.
    apply Update_event_columns, Hcol.
Qed.

(** The nil test is the whole of it: a map that was made and has no
    entries goes the way of every non-nil map and is bound as the JSON
    object without members. No write path of the storage builds one. *)
Remark made_JSONMap_stored_as_object `{Env} (d : DB) :
  evalJSONExpr (JSONMap_GormValue d (Some ∅)) = SQLJSON "{}".
Proof. rewrite evalJSONExpr_JSONMap. reflexivity. Qed.

(** Creating web in an empty table. *)
Lemma empty_JSONMap_stored_as_NULL_witness :
  exists row,
    tableRows (db (Create (storageOn "sqlite" []) Background 2000 "c1" (Typed web)).1)
    = [] ++ [row]
    /\ row !! "events" = Some SQLNull
    /\ row !! "event_resource_versions" = Some SQLNull.
Proof.
  apply (proj1 (proj2 (proj2 empty_JSONMap_stored_as_NULL))
           (storageOn "sqlite" []) Background 2000 "c1" (Typed web)).
  vm_compute. reflexivity.
Defined.

(** ** Events in list results *)

Section Events.
Context `{Env}.

(** No object produced by [ResourceMetadataWithEventsList] carries
    events: its elements are plain [ResourceMetadata] values. *)
Lemma ResourceMetadataWithEventsList_items_have_no_events (d : DB) (query : Query)
    (objects : list Object) :
  FromItems ResourceMetadataWithEventsList d query = Ok objects ->
  Forall (fun object => GetEvents object = Ok None) objects.
Proof.
  simpl. unfold res_map.
  destruct (ResourceMetadataWithEventsList_From d query) as [metadatas | e | m]; simpl;
    intros Hobjects; [| discriminate ..].
  injection Hobjects as <-.
  apply Forall_fmap, Forall_true. intros data. reflexivity.
Qed.

Lemma convertUnstructured_items (c : Codec) (listAPIVersion : string) (objects : list Object) :
  forall (acc items : list Unstructured) (r : Res unit),
    convertUnstructured c listAPIVersion objects acc = (items, r) ->
    exists new,
      items = acc ++ new
      /\ Forall2 (converted c) (take (List.length new) objects) new.
Proof.
  induction objects as [| object rest IH]; intros acc items r; simpl.
  - intros Hc. injection Hc as <- <-. exists []. rewrite app_nil_r. split; constructor.
  - destruct (ConvertTo object c (Unstr zeroUnstructured)) as [[t | uObj | g b] | e | m] eqn:Hconv;
      try (intros Hc; injection Hc as <- <-; exists []; rewrite app_nil_r; split; constructor).
    intros Hc. apply IH in Hc as (new & -> & Hnew).
    eexists (_ :: new). rewrite <- app_assoc. split; [reflexivity |].
    simpl. constructor; [| exact Hnew].
    exists uObj. split; [exact Hconv |].
    destruct (GroupVersionKind_Empty _); [| split; reflexivity].
    destruct (bool_decide (listAPIVersion <> "")),
             (negb (ResourceType_Empty (GetResourceType object))); split; reflexivity.
Qed.

Lemma convertUnstructured_withoutEvents (c : Codec) (listAPIVersion : string)
    (objects : list Object) :
  forall acc : list Unstructured,
    convertUnstructured c listAPIVersion (withoutEvents <$> objects) acc
    = convertUnstructured c listAPIVersion objects acc.
Proof.
  induction objects as [| object rest IH]; intros acc; [reflexivity |].
  rewrite fmap_cons. simpl.
  replace (ConvertTo (withoutEvents object) c (Unstr zeroUnstructured))
    with (ConvertTo object c (Unstr zeroUnstructured)) by (destruct object; reflexivity).
  replace (GetResourceType (withoutEvents object))
    with (GetResourceType object) by (destruct object; reflexivity).
  destruct (ConvertTo object c (Unstr zeroUnstructured)) as [[t | uObj | g b] | e | m];
    try reflexivity.
  apply IH.
Qed.

End Events.

(** C1, the code at the failing input. The row of web holds one event.
    A metadata-only [List] with InjectEvents into a typed list returns
    web with its metadata filled in and without any annotation: the
    events column is selected, but the objects of
    [ResourceMetadataWithEventsList] have no events to inject. *)
Theorem List_metadata_with_events_has_no_annotation :
  webRow !! "events" = Some (SQLJSON webEventsJSON)
  /\ EventsBytes_Decode webEventsJSON = Ok [scaled]
  /\ OnlyMetadata (listOptions true true) = true
  /\ InjectEvents (listOptions true true) = true
  /\ exists item,
       List (storageOn "sqlite" [webRow]) emptyTypedList (listOptions true true)
       = (TypedList (mkListMeta "" None) [item], Ok tt)
       /\ typedObjectMeta item = webMeta
       /\ metaAnnotations (typedObjectMeta item) = None.
Proof.
  split; [vm_compute; reflexivity |].
  split; [vm_compute; reflexivity |].
  split; [reflexivity |]. split; [reflexivity |].
  eexists. split; [vm_compute; reflexivity |]. split; reflexivity.
Qed.

(** The sibling projection does inject: the same call without
    OnlyMetadata returns web with the events annotation, a one-element
    array. *)
Lemma List_bytes_with_events_has_annotation :
  exists item,
    List (storageOn "sqlite" [webRow]) emptyTypedList (listOptions false true)
    = (TypedList (mkListMeta "" None) [item], Ok tt)
    /\ metaAnnotations (typedObjectMeta item)
       = Some {[ "shadow.clusterpedia.io/events" := "[" +:+ scaledJSON +:+ "]" ]}.
Proof.
  eexists. split; [vm_compute; reflexivity |]. vm_compute. reflexivity.
Qed.

Lemma setPaging_unstructured `{Env} opts offset amount n apiVersion lm items :
  exists lm',
    setPaging opts offset amount n (UnstructuredList apiVersion lm items)
    = UnstructuredList apiVersion lm' items.
Proof.
  unfold setPaging.
  destruct (bool_decide (WithContinue opts = Some true) && bool_decide (Z.of_nat n = Limit opts)),
           amount; simpl; eexists; reflexivity.
Qed.

(** C10. Into an [*unstructured.UnstructuredList], [List] puts the
    objects exactly as [ConvertTo] returned them (only apiVersion and
    kind may be filled in): their metadata, annotations included, is the
    decoded one, whatever InjectEvents says and whatever events the rows
    carry, and the call gives the same result when the events read with
    the objects are dropped. *)
Theorem List_unstructured_never_injects `{Env}
    (s : ResourceStorage) (apiVersion : string) (lm : ListMeta) (items : list Unstructured)
    (opts : ListOptions) (offset : Z) (amount : option Z) (query : Query)
    (kind : ObjectListKind) (objects : list Object) :
  genListObjectsQuery s opts = Ok (offset, amount, query, kind) ->
  FromItems kind (db s) query = Ok objects ->
  exists lm' items' r,
    List s (UnstructuredList apiVersion lm items) opts
    = (UnstructuredList apiVersion lm' items', r)
    /\ (objects = [] -> items' = items)
    /\ (objects <> [] ->
        Forall2 (converted (codec s)) (take (List.length items') objects) items')
    /\ materialize s opts offset amount (withoutEvents <$> objects)
         (UnstructuredList apiVersion lm items)
       = List s (UnstructuredList apiVersion lm items) opts.
Proof.
  intros Hq Hfrom. unfold List. rewrite Hq, Hfrom. unfold materialize. simpl.
  rewrite length_fmap.
  destruct (setPaging_unstructured opts offset amount (List.length objects) apiVersion lm items)
    as [lm' ->].
  rewrite convertUnstructured_withoutEvents.
  destruct objects as [| object rest].
  - exists lm', items, (Ok tt). simpl. repeat split; congruence.
  - rewrite bool_decide_eq_false_2 by (simpl; lia).
    destruct (convertUnstructured (codec s) apiVersion (object :: rest) []) as [items' r] eqn:Hc.
    exists lm', items', r.
    apply convertUnstructured_items in Hc as (new & -> & Hnew).
    repeat split; [congruence | intros _; exact Hnew].
Qed.

(** Listing web, events included, into an unstructured list. *)
Lemma List_unstructured_never_injects_witness :
  exists lm' items' r,
    List (storageOn "postgres" [webRow]) emptyUnstructuredList (listOptions false true)
    = (UnstructuredList "apps/v1" lm' items', r)
    /\ Forall2 (converted exampleCodec)
         (take (List.length items') [ObjBytesWithEvents (mkBytesWithEvents webJSON webEventsJSON)])
         items'.
Proof.
  edestruct (List_unstructured_never_injects
               (storageOn "postgres" [webRow]) "apps/v1" (mkListMeta "" None) []
               (listOptions false true))
    as (lm' & items' & r & Hlist & _ & Hitems & _);
    [vm_compute; reflexivity | vm_compute; reflexivity |].
  exists lm', items', r. split; [exact Hlist |].
  apply Hitems. discriminate.
Defined.

(** The item that call returns has the decoded metadata and no
    annotation. *)
Lemma List_unstructured_example :
  List (storageOn "postgres" [webRow]) emptyUnstructuredList (listOptions false true)
  = (UnstructuredList "apps/v1" (mkListMeta "" None)
       [mkUnstructured "apps/v1" "Deployment" (Some webMeta) ""], Ok tt)
  /\ metaAnnotations webMeta = None.
Proof. split; [vm_compute; reflexivity | reflexivity]. Qed.

End InternalStorageSpec.

(** * Properties of the watch handler *)
Module InformerWatchSpec.
Import Informer InformerWatch InformerExamples InformerWatchExamples.

Lemma setLastSyncResourceVersion_twice (v w : string) (r : Reflector) :
  setLastSyncResourceVersion w (setLastSyncResourceVersion v r)
  = setLastSyncResourceVersion w r.
Proof. reflexivity. Qed.

Lemma afterVersions_cons (v : string) (versions : list string) (r : Reflector) :
  afterVersions versions (setLastSyncResourceVersion v r) = afterVersions (v :: versions) r.
Proof.
  unfold afterVersions. destruct versions as [| w versions]; [reflexivity |].
  rewrite last_cons_cons. destruct (last (w :: versions)) eqn:Hlast; [reflexivity |].
  apply last_None in Hlast. discriminate Hlast.
Qed.

Section Loop.
Context {S : Type} `{WatchStore S}.
Variable expectedType : option string.
Variable expectedGVK : option (string * string * string).

(** What the loop computes, apart from the store. *)
Lemma watchLoop_spec (received : list Received) :
  forall (st : S) (r : Reflector) (n : nat),
    let out := watchLoop expectedType expectedGVK received st r n in
    out.1.1.2 = afterVersions (handledVersions expectedType expectedGVK (beforeReturn received)) r
    /\ out.1.2
       = (n + List.length (handledVersions expectedType expectedGVK (beforeReturn received)))%nat
    /\ out.2 = from_option Returned ChannelClosed (firstReturn received).
Proof.
  induction received as [| x rest IH]; intros st r n; simpl.
  - repeat split. lia.
  - destruct x as [| err | event]; simpl; try (repeat split; lia).
    destruct (bool_decide (eventType event = Error)); simpl; [repeat split; lia |].
    unfold handledVersions. simpl.
    destruct (handledResourceVersion expectedType expectedGVK event) as [v |]; simpl.
    + destruct (IH (notifyResourceVersion (applyEvent st event) v)
                   (setLastSyncResourceVersion v r) (Datatypes.S n)) as (Hr & Hn & He).
      rewrite Hr, Hn, He. rewrite afterVersions_cons. repeat split. unfold handledVersions. lia.
    + apply IH.
Qed.

(** The loop never gets past the first stop signal, resync error or
    Error event. *)
Lemma watchLoop_beforeReturn (received : list Received) :
  forall (st : S) (r : Reflector) (n : nat),
    (watchLoop expectedType expectedGVK received st r n).1
    = (watchLoop expectedType expectedGVK (beforeReturn received) st r n).1.
Proof.
  induction received as [| x rest IH]; intros st r n; simpl; [reflexivity |].
  destruct x as [| err | event]; simpl; try reflexivity.
  destruct (bool_decide (eventType event = Error)) eqn:Herr; simpl; [reflexivity |].
  rewrite Herr.
  destruct (handledResourceVersion expectedType expectedGVK event) as [v |]; apply IH.
Qed.

End Loop.

(** X1. When [watchHandler] is left, the reflector's last resource
    version is that of the last event handled before the handler
    returned (events skipped for their type, GroupVersionKind or missing
    metadata do not count), and it is untouched when no event was
    handled; nothing else of the reflector changes. *)
Theorem watchHandler_last_resource_version {S : Type} `{WatchStore S}
    (expectedType : option string) (expectedGVK : option (string * string * string))
    (watchDuration : Z) (received : list Received) (st : S) (r : Reflector) :
  (watchHandler expectedType expectedGVK watchDuration received st r).1.2
  = match last (handledVersions expectedType expectedGVK (beforeReturn received)) with
    | Some v => setLastSyncResourceVersion v r
    | None => r
    end.
Proof.
  unfold watchHandler.
  pose proof (watchLoop_spec expectedType expectedGVK received st r 0) as (Hr & _ & _).
  destruct (watchLoop expectedType expectedGVK received st r 0) as [[[st' r'] n] e].
  simpl in Hr. destruct e; [| simpl; exact Hr].
  destruct (bool_decide (watchDuration < 1 * Second) && bool_decide (n = 0%nat)); exact Hr.
Qed.

(** X2. A stop signal, a resync error or an Error event ends the
    handler with the stop-requested sentinel, that resync error, or the
    error made from the event's object; whatever was received after it
    has no effect on the store or the reflector. *)
Theorem watchHandler_returns_at_first {S : Type} `{WatchStore S}
    (expectedType : option string) (expectedGVK : option (string * string * string))
    (watchDuration : Z) (received : list Received) (st : S) (r : Reflector) (err : error) :
  firstReturn received = Some err ->
  (watchHandler expectedType expectedGVK watchDuration received st r).2 = Some err
  /\ (watchHandler expectedType expectedGVK watchDuration received st r).1
     = (watchLoop expectedType expectedGVK (beforeReturn received) st r 0).1.1.
Proof.
  intros Hret. unfold watchHandler.
  pose proof (watchLoop_spec expectedType expectedGVK received st r 0) as (_ & _ & He).
  pose proof (watchLoop_beforeReturn expectedType expectedGVK received st r 0) as Hb.
  destruct (watchLoop expectedType expectedGVK received st r 0) as [[[st' r'] n] e].
  simpl in *. rewrite Hret in He. simpl in He. subst e.
  rewrite <- Hb. split; reflexivity.
Qed.

Lemma watchHandler_returns_at_first_witness :
  (watchHandler (Some "*v1.Pod") None 5
     [ReceivedEvent (podEvent Added "a" "11"); ReceivedEvent goneEvent;
      ReceivedEvent (podEvent Added "b" "12")] [] syncedReflector).2
  = Some (APIStatusError (mkStatus StatusReasonGone None))
  /\ (watchHandler (Some "*v1.Pod") None 5
        [ReceivedEvent (podEvent Added "a" "11"); ReceivedEvent goneEvent;
         ReceivedEvent (podEvent Added "b" "12")] [] syncedReflector).1
     = (watchLoop (Some "*v1.Pod") None [ReceivedEvent (podEvent Added "a" "11")]
          [] syncedReflector 0).1.1.
Proof.
  apply (watchHandler_returns_at_first (Some "*v1.Pod") None 5
           [ReceivedEvent (podEvent Added "a" "11"); ReceivedEvent goneEvent;
            ReceivedEvent (podEvent Added "b" "12")] [] syncedReflector).
  reflexivity.
Defined.

(** X3. A watch whose channel closes without a stop signal, resync
    error or Error event returns an error exactly when it lasted less
    than a second and no event was handled: events that were only
    skipped do not keep a short watch from being reported. *)
Theorem watchHandler_very_short_watch {S : Type} `{WatchStore S}
    (expectedType : option string) (expectedGVK : option (string * string * string))
    (watchDuration : Z) (received : list Received) (st : S) (r : Reflector) :
  firstReturn received = None ->
  ((watchHandler expectedType expectedGVK watchDuration received st r).2 <> None
   <-> watchDuration < Second /\ handledVersions expectedType expectedGVK received = []).
Proof.
  intros Hret. unfold watchHandler.
  pose proof (watchLoop_spec expectedType expectedGVK received st r 0) as (_ & Hn & He).
  assert (Hall : beforeReturn received = received).
  { clear Hn He. induction received as [| x rest IH]; [reflexivity |].
    simpl in *. destruct x as [| e | event]; try discriminate; simpl.
    destruct (bool_decide (eventType event = Error)); [discriminate |].
    rewrite (IH Hret). reflexivity. }
  rewrite Hall in Hn.
  destruct (watchLoop expectedType expectedGVK received st r 0) as [[[st' r'] n] e].
  simpl in *. rewrite Hret in He. simpl in He. subst e n.
  change (1 * Second) with Second.
  destruct (handledVersions expectedType expectedGVK received) as [| v versions]; simpl.
  - destruct (bool_decide (watchDuration < Second)) eqn:Hd; simpl.
    + apply bool_decide_eq_true_1 in Hd. split; [auto | discriminate].
    + apply bool_decide_eq_false_1 in Hd. split; [congruence | tauto].
  - rewrite andb_false_r. simpl. split; [congruence | intros [_ Hnil]; discriminate].
Qed.

(** Half a second of secrets on a watch for pods. *)
Lemma watchHandler_very_short_watch_witness :
  (watchHandler (Some "*v1.Pod") None 500000000
     [ReceivedEvent (secretEvent Added "s" "11"); ReceivedEvent (secretEvent Modified "s" "12")]
     [] syncedReflector).2 <> None
  <-> 500000000 < Second
      /\ handledVersions (Some "*v1.Pod") None
           [ReceivedEvent (secretEvent Added "s" "11");
            ReceivedEvent (secretEvent Modified "s" "12")] = [].
Proof.
  apply (watchHandler_very_short_watch (Some "*v1.Pod") None 500000000
           [ReceivedEvent (secretEvent Added "s" "11");
            ReceivedEvent (secretEvent Modified "s" "12")] [] syncedReflector).
  reflexivity.
Defined.

(** X4. The reflector the handler leaves and the error it returns do
    not depend on the store: whatever Add, Update and Delete do or
    return, the same events are handled and the same resource version is
    recorded. *)
Theorem watchHandler_ignores_store_errors {S1 S2 : Type} `{WatchStore S1} `{WatchStore S2}
    (expectedType : option string) (expectedGVK : option (string * string * string))
    (watchDuration : Z) (received : list Received) (st1 : S1) (st2 : S2) (r : Reflector) :
  (watchHandler expectedType expectedGVK watchDuration received st1 r).1.2
  = (watchHandler expectedType expectedGVK watchDuration received st2 r).1.2
  /\ (watchHandler expectedType expectedGVK watchDuration received st1 r).2
     = (watchHandler expectedType expectedGVK watchDuration received st2 r).2.
Proof.
  unfold watchHandler.
  pose proof (watchLoop_spec expectedType expectedGVK received st1 r 0) as (Hr1 & Hn1 & He1).
  pose proof (watchLoop_spec expectedType expectedGVK received st2 r 0) as (Hr2 & Hn2 & He2).
  destruct (watchLoop expectedType expectedGVK received st1 r 0) as [[[st1' r1] n1] e1].
  destruct (watchLoop expectedType expectedGVK received st2 r 0) as [[[st2' r2] n2] e2].
  simpl in *. subst r1 r2 n1 n2 e1 e2.
  destruct (firstReturn received); simpl; [split; reflexivity |].
  destruct (bool_decide (watchDuration < 1 * Second) && bool_decide _); split; reflexivity.
Qed.

(** X5. The store sees every handled event once and in order, as an
    Add, Update or Delete according to its type followed by the
    resource version; bookmarks and events of unknown type bring the
    resource version only, skipped events nothing. Shown on the store
    that logs its calls and fails each of them. *)
Theorem watchHandler_store_calls
    (expectedType : option string) (expectedGVK : option (string * string * string))
    (watchDuration : Z) (received : list Received) (log : list StoreCall) (r : Reflector) :
  (watchHandler expectedType expectedGVK watchDuration received log r).1.1
  = log ++ concat (callsOfReceived expectedType expectedGVK <$> beforeReturn received).
Proof.
  assert (Hloop : forall n,
             (watchLoop expectedType expectedGVK received log r n).1.1.1
             = log ++ concat (callsOfReceived expectedType expectedGVK <$> beforeReturn received)).
  { revert log r. induction received as [| x rest IH]; intros log r n; simpl.
    - rewrite app_nil_r. reflexivity.
    - destruct x as [| err | event]; simpl; try (rewrite app_nil_r; reflexivity).
      destruct (bool_decide (eventType event = Error)) eqn:Herr; simpl;
        [rewrite app_nil_r; reflexivity |].
      destruct (handledResourceVersion expectedType expectedGVK event) as [v |] eqn:Hv; simpl.
      + rewrite IH. rewrite app_assoc. f_equal.
        unfold notifyResourceVersion, applyEvent, callsOf. simpl.
        apply bool_decide_eq_false_1 in Herr.
        destruct (eventType event); simpl; try rewrite <- app_assoc; try reflexivity;
          contradiction.
      + apply IH. }
  unfold watchHandler. specialize (Hloop 0%nat).
  destruct (watchLoop expectedType expectedGVK received log r 0) as [[[st' r'] n] e].
  simpl in Hloop. destruct e; [| exact Hloop].
  destruct (bool_decide (watchDuration < 1 * Second) && bool_decide (n = 0%nat)); exact Hloop.
Qed.

End InformerWatchSpec.

(** * Further properties of the list phase *)
Module InformerListSpec.
Import Informer InformerExamples InformerListExamples.

Section Stream.
Context {S : Type} `{Store S}.

Lemma sinkStream_keys (objs : list Obj) :
  forall (st : S) (acc : list StoreItem),
    exists n : nat,
      (sinkStream st objs acc).1.2
      = acc ++ ((fun o => ItemExplicitKey (MetaNamespaceKeyFunc o).1) <$> take n objs)
      /\ ((sinkStream st objs acc).2 = None -> n = List.length objs).
Proof.
  induction objs as [| obj rest IH]; intros st acc; simpl.
  - exists 0%nat. rewrite app_nil_r. split; reflexivity.
  - destruct (MetaNamespaceKeyFunc obj) as [key [err |]] eqn:Hkey; simpl.
    + exists 0%nat. rewrite app_nil_r. split; [reflexivity | discriminate].
    + destruct (storeAdd st obj) as [st' [err |]]; simpl.
      * exists 0%nat. rewrite app_nil_r. split; [reflexivity | discriminate].
      * destruct (IH st' (acc ++ [ItemExplicitKey key])) as (n & Hkeys & Hlen).
        exists (Datatypes.S n). rewrite Hkeys. simpl. rewrite Hkey. simpl.
        rewrite <- app_assoc. split; [reflexivity |].
        intros Hok. rewrite (Hlen Hok). reflexivity.
Qed.

Lemma runPager_no_stream (lw : ListerWatcher) (r : Reflector) (st : S) (n : nat)
    (call : PagerCall) :
  StreamHandleForPaginatedList r = false ->
  (runPager lw r st n call).1 = st /\ laItemKeys (runPager lw r st n call).2 = [].
Proof. intros Hs. unfold runPager. rewrite Hs. split; reflexivity. Qed.

Lemma listAttempts_no_stream (lw : ListerWatcher) (r : Reflector) (st : S) :
  StreamHandleForPaginatedList r = false ->
  (listAttempts lw r st).1.1.2 = st /\ laItemKeys (lastAttempt lw r st) = [].
Proof.
  intros Hs. unfold lastAttempt, listAttempts.
  pose proof (runPager_no_stream lw r st 0 (firstCall r) Hs) as [Hst Hk].
  destruct (runPager lw r st 0 (firstCall r)) as [st1 a1]. simpl in *. subst st1.
  destruct (isExpiredError (laErr a1) || isTooLargeResourceVersionError (laErr a1)).
  - pose proof (runPager_no_stream lw (setIsLastSyncResourceVersionUnavailable true r) st 1
                  (mkPagerCall (relistResourceVersion (setIsLastSyncResourceVersionUnavailable true r))
                     (callPageSize (firstCall r))
                     (StreamHandleForPaginatedList (setIsLastSyncResourceVersionUnavailable true r)))
                  Hs) as [Hst2 Hk2].
    destruct (runPager lw _ st 1 _) as [st2 a2]. simpl in *. auto.
  - simpl. auto.
Qed.

End Stream.

(** X6. Without result streaming, a list whose last pager call
    succeeded with a list object replaces the store exactly once, with
    all items of that list and its resource version, the store being
    untouched until then; the call succeeds exactly when the Replace
    does, and then the last resource version is the list's, otherwise it
    stays. *)
Theorem list_replaces_store_once {S : Type} `{Store S}
    (lw : ListerWatcher) (r : Reflector) (st : S) (l : ListObj) :
  StreamHandleForPaginatedList r = false ->
  laErr (lastAttempt lw r st) = None ->
  laList (lastAttempt lw r st) = Some l ->
  let run := Reflector_list lw r st in
  let replaced := storeReplace st (ItemObject <$> listItems l) (listResourceVersion l) in
  runStore run = replaced.1
  /\ (runErr run = None <-> replaced.2 = None)
  /\ LastSyncResourceVersion (runReflector run)
     = match replaced.2 with
       | None => listResourceVersion l
       | Some _ => lastSyncResourceVersion r
       end.
Proof.
  intros Hs Herr Hlist run replaced. subst run replaced.
  pose proof (listAttempts_no_stream lw r st Hs) as [Hst Hkeys].
  pose proof (InformerSpec.listAttempts_unavailable lw r st) as (_ & Hlast & _).
  unfold lastAttempt in *. unfold Reflector_list.
  destruct (listAttempts lw r st) as [[[r1 st1] a] calls]. simpl in *. subst st1.
  rewrite Herr, Hlist, Hkeys. simpl. unfold syncWith.
  destruct (storeReplace st (ItemObject <$> listItems l) (listResourceVersion l))
    as [st2 [e |]]; simpl.
  - split; [reflexivity |]. split; [split; discriminate |].
    destruct (bool_decide (relistResourceVersion r = "0") && laPaginated a); exact Hlast.
  - split; [reflexivity |]. split; [split; reflexivity | reflexivity].
Qed.

Lemma list_replaces_store_once_witness :
  runStore (Reflector_list twoPods freshReflector emptyStore)
  = ([ItemObject (pod "a"); ItemObject (pod "b")], "9")
  /\ LastSyncResourceVersion (runReflector (Reflector_list twoPods freshReflector emptyStore))
     = "9".
Proof.
  destruct (list_replaces_store_once twoPods freshReflector emptyStore
              (mkListObj "9" [pod "a"; pod "b"]) eq_refl eq_refl eq_refl)
    as (Hstore & _ & Hversion).
  split; [exact Hstore | exact Hversion].
Defined.

(** X7. With result streaming, the keys handed on by
    [listWithResultStream] and the store it leaves are the work of the
    loop alone: they are the same for any two pager results that
    streamed the same objects, whatever else the pager returned and
    whatever the caller got to see of it. The keys are the explicit keys
    of the streamed objects the loop handled, in order, and cover every
    streamed object when the loop met no failure. The error is the
    pager's only if that assignment was seen: after a loop without
    failure an error of the pager that was not seen is lost, and nil is
    returned. *)
Theorem listWithResultStream_keys {S : Type} `{Store S} (st : S) (res : PagerResult) :
  let attempt := (listWithResultStream st res).2 in
  (exists n : nat,
      laItemKeys attempt
      = (fun o => ItemExplicitKey (MetaNamespaceKeyFunc o).1) <$> take n (prStreamed res))
  /\ ((sinkStream st (prStreamed res) []).2 = None ->
      laItemKeys attempt
      = (fun o => ItemExplicitKey (MetaNamespaceKeyFunc o).1) <$> prStreamed res)
  /\ (forall res' : PagerResult,
      prStreamed res' = prStreamed res ->
      (listWithResultStream st res').1 = (listWithResultStream st res).1
      /\ laItemKeys (listWithResultStream st res').2 = laItemKeys attempt)
  /\ ((sinkStream st (prStreamed res) []).2 = None ->
      seenErr (prSeen res) = false ->
      laErr attempt = None).
Proof.
  intros attempt. subst attempt. unfold listWithResultStream.
  destruct (sinkStream_keys (prStreamed res) st []) as (n & Hkeys & Hlen).
  split; [| split; [| split]].
  - exists n. destruct (sinkStream st (prStreamed res) []) as [[st' keys] loopErr].
    exact Hkeys.
  - intros Hclean. specialize (Hlen Hclean).
    destruct (sinkStream st (prStreamed res) []) as [[st' keys] loopErr]. simpl in *.
    rewrite Hkeys, Hlen, firstn_all. reflexivity.
  - intros res' Hsame. rewrite Hsame.
    destruct (sinkStream st (prStreamed res) []) as [[st' keys] loopErr]. split; reflexivity.
  - intros Hclean Hunseen.
    destruct (sinkStream st (prStreamed res) []) as [[st' keys] loopErr]. simpl in *.
    rewrite Hunseen. exact Hclean.
Qed.

Lemma listWithResultStream_keys_witness :
  laItemKeys (listWithResultStream emptyStore lostError).2
  = [ItemExplicitKey "default/a"; ItemExplicitKey "node-1"]
  /\ laErr (listWithResultStream emptyStore lostError).2 = None.
Proof.
  destruct (listWithResultStream_keys emptyStore lostError) as (_ & Hkeys & _ & Herr).
  split; [exact (Hkeys eq_refl) | exact (Herr eq_refl eq_refl)].
Defined.

(** X8. The retry after an expired list keeps the page size chosen
    for the first call. A reflector with no explicit page size and no
    paginated initial list, synced to a version other than 0, lists
    unpaginated (page size 0) from that version and, when that version
    has expired, retries from the empty version unpaginated as well;
    a list phase started in the state the retry was made in would use
    the default page size. *)
Theorem list_retry_keeps_page_size {S : Type} `{Store S}
    (lw : ListerWatcher) (r : Reflector) (st : S) :
  WatchListPageSize r = 0 ->
  paginatedResult r = false ->
  isLastSyncResourceVersionUnavailable r = false ->
  lastSyncResourceVersion r <> "" ->
  lastSyncResourceVersion r <> "0" ->
  isExpiredError (laErr (runPager lw r st 0 (firstCall r)).2)
  || isTooLargeResourceVersionError (laErr (runPager lw r st 0 (firstCall r)).2) = true ->
  runCalls (Reflector_list lw r st)
  = [(r, mkPagerCall (lastSyncResourceVersion r) 0 (StreamHandleForPaginatedList r));
     (setIsLastSyncResourceVersionUnavailable true r,
      mkPagerCall "" 0 (StreamHandleForPaginatedList r))]
  /\ firstCall (setIsLastSyncResourceVersionUnavailable true r)
     = mkPagerCall "" defaultPageSize (StreamHandleForPaginatedList r).
Proof.
  intros Hsize Hpag Hflag Hne Hn0 Hexp.
  assert (Hrelist : relistResourceVersion r = lastSyncResourceVersion r).
  { unfold relistResourceVersion. rewrite Hflag, bool_decide_eq_false_2 by exact Hne.
    reflexivity. }
  assert (Hfirst : firstCall r
                   = mkPagerCall (lastSyncResourceVersion r) 0 (StreamHandleForPaginatedList r)).
  { unfold firstCall, pagerPageSize. rewrite Hrelist, Hsize, Hpag. simpl.
    rewrite !bool_decide_eq_true_2 by assumption. reflexivity. }
  split.
  - rewrite InformerSpec.list_calls. unfold listAttempts.
    rewrite Hfirst in *.
    destruct (runPager lw r st 0 _) as [st1 a1]. simpl in Hexp. rewrite Hexp.
    destruct (runPager lw _ st1 1 _) as [st2 a2]. reflexivity.
  - unfold firstCall, pagerPageSize. simpl. rewrite Hsize, Hpag. reflexivity.
Qed.

Lemma list_retry_keeps_page_size_witness :
  runCalls (Reflector_list expiredAt5 syncedReflector emptyStore)
  = [(syncedReflector, mkPagerCall "5" 0 false);
     (setIsLastSyncResourceVersionUnavailable true syncedReflector, mkPagerCall "" 0 false)]
  /\ firstCall (setIsLastSyncResourceVersionUnavailable true syncedReflector)
     = mkPagerCall "" 500 false.
Proof.
  apply (list_retry_keeps_page_size expiredAt5 syncedReflector emptyStore);
    try reflexivity; discriminate.
Defined.

(** X9. A list whose last pager call failed returns that error wrapped
    and changes neither the last resource version nor the pagination
    flag; without result streaming it leaves the store as it was. *)
Theorem list_failure_changes_nothing {S : Type} `{Store S}
    (lw : ListerWatcher) (r : Reflector) (st : S) (err : error) :
  laErr (lastAttempt lw r st) = Some err ->
  let run := Reflector_list lw r st in
  runErr run = Some (WrappedError "failed to list" err)
  /\ lastSyncResourceVersion (runReflector run) = lastSyncResourceVersion r
  /\ paginatedResult (runReflector run) = paginatedResult r
  /\ (StreamHandleForPaginatedList r = false -> runStore run = st).
Proof.
  intros Herr run. subst run.
  pose proof (InformerSpec.listAttempts_unavailable lw r st) as (_ & Hlast & Hpag).
  assert (Hstore : StreamHandleForPaginatedList r = false -> (listAttempts lw r st).1.1.2 = st)
    by (intros Hs; apply (listAttempts_no_stream lw r st Hs)).
  unfold lastAttempt in Herr. unfold Reflector_list.
  destruct (listAttempts lw r st) as [[[r1 st1] a] calls]. simpl in *.
  rewrite Herr. simpl. auto.
Qed.

Lemma list_failure_changes_nothing_witness :
  runErr (Reflector_list expiredThenDown syncedReflector emptyStore)
  = Some (WrappedError "failed to list" (PlainError "connection reset by peer"))
  /\ lastSyncResourceVersion (runReflector (Reflector_list expiredThenDown syncedReflector
                                              emptyStore)) = "5"
  /\ runStore (Reflector_list expiredThenDown syncedReflector emptyStore) = emptyStore.
Proof.
  destruct (list_failure_changes_nothing expiredThenDown syncedReflector emptyStore
              (PlainError "connection reset by peer") eq_refl)
    as (Herr & Hlast & _ & Hstore).
  split; [exact Herr |]. split; [exact Hlast | exact (Hstore eq_refl)].
Defined.

End InformerListSpec.

(** * Properties of the write operations of the storage *)
Module InternalStorageOpsSpec.
Import InternalStorage StorageExamples InternalStorageOps StorageOpsExamples.

Section Keys.
Context `{Env}.

(** A row satisfies the key map of a storage exactly when its six key
    columns hold the six strings. *)
Lemma rowMatches_resourceKeyMap (s : ResourceStorage) (cluster namespace name : string)
    (row : gmap string SQLValue) :
  rowMatches (resourceKeyMap s cluster namespace name) row = true
  <-> keyColumns row
      = [Some (SQLString cluster); Some (SQLString (gvrGroup (storageResource s)));
         Some (SQLString (gvrVersion (storageResource s)));
         Some (SQLString (gvrResource (storageResource s)));
         Some (SQLString namespace); Some (SQLString name)].
Proof.
  unfold rowMatches, resourceKeyMap, keyColumns.
  rewrite bool_decide_eq_true.
  rewrite !map_Forall_insert by (simplify_map_eq; reflexivity).
  rewrite map_Forall_singleton.
  split.
  - intros (-> & -> & -> & -> & -> & ->). reflexivity.
  - intros [= -> -> -> -> -> ->]. repeat split.
Qed.

Lemma rowMatches_keyColumns (s : ResourceStorage) (cluster namespace name : string)
    (a b : gmap string SQLValue) :
  keyColumns a = keyColumns b ->
  rowMatches (resourceKeyMap s cluster namespace name) a
  = rowMatches (resourceKeyMap s cluster namespace name) b.
Proof.
  intros Hk.
  destruct (rowMatches (resourceKeyMap s cluster namespace name) b) eqn:Hb.
  - apply rowMatches_resourceKeyMap. rewrite Hk. apply rowMatches_resourceKeyMap, Hb.
  - destruct (rowMatches (resourceKeyMap s cluster namespace name) a) eqn:Ha; [| reflexivity].
    apply rowMatches_resourceKeyMap in Ha. rewrite Hk in Ha.
    apply rowMatches_resourceKeyMap in Ha. congruence.
Qed.

(** The assignments of [Update] leave the key columns alone. *)
Lemma updated_keyColumns (d : DB) (now : Time) (metaobj : ObjectMeta) (buffer : bytes)
    (row : gmap string SQLValue) :
  keyColumns (<["synced_at" := SQLTime now]> (toSQLValue d <$> updatedResource metaobj buffer)
              ∪ row)
  = keyColumns row.
Proof.
  unfold keyColumns.
  rewrite !lookup_union_r
    by (rewrite InternalStorageSpec.updatedResource_lookup; reflexivity).
  reflexivity.
Qed.

Lemma insertedRow_keyColumns (d : DB) (now : Time) (r : Resource) :
  keyColumns (insertedRow d now r)
  = [Some (SQLString (resCluster r)); Some (SQLString (resGroup r));
     Some (SQLString (resVersion r)); Some (SQLString (resResource r));
     Some (SQLString (resNamespace r)); Some (SQLString (resName r))].
Proof. reflexivity. Qed.

(** What [Create] does once the object has a kind, metadata and an
    encoding: it inserts a resource with the key of the object. *)
Lemma Create_unfold (s : ResourceStorage) (ctx : Context) (now : Time) (cluster : string)
    (obj : RuntimeObject) (metaobj : ObjectMeta) (buffer : bytes) :
  gvkKind (GetObjectKind obj) <> "" ->
  Accessor obj = Ok metaobj ->
  Encode (codec s) obj = Ok buffer ->
  exists r : Resource,
    keyColumns (insertedRow (db s) now r)
    = [Some (SQLString cluster); Some (SQLString (gvrGroup (storageResource s)));
       Some (SQLString (gvrVersion (storageResource s)));
       Some (SQLString (gvrResource (storageResource s)));
       Some (SQLString (metaNamespace metaobj)); Some (SQLString (metaName metaobj))]
    /\ naturalKeyOf r = resourceKeyMap s cluster (metaNamespace metaobj) (metaName metaobj)
    /\ Create s ctx now cluster obj
       = ((withDB (gormCreate (Some ctx) (db s) now r).1 s),
          resultOf (InterpretResourceDBError cluster (metaName metaobj)
                      (gormCreate (Some ctx) (db s) now r).2)).
Proof.
  intros Hkind Hacc Henc. unfold Create.
  rewrite bool_decide_eq_false_2 by exact Hkind. rewrite Hacc, Henc.
  match goal with
  | |- context [gormCreate (Some ctx) (db s) now ?resource] => exists resource
  end.
  split; [reflexivity | split; [reflexivity |]].
  destruct (gormCreate _ _ _ _) as [d err]. reflexivity.
Qed.

(** An insert that is refused leaves the rows alone, and a row whose
    key is taken is refused. *)
Lemma gormCreate_rows (ctx : option Context) (d : DB) (now : Time) (r : Resource) :
  match (gormCreate ctx d now r).2 with
  | Some _ => tableRows (gormCreate ctx d now r).1 = tableRows d
  | None =>
      tableRows (gormCreate ctx d now r).1 = tableRows d ++ [insertedRow d now r]
      /\ existsb (rowMatches (naturalKeyOf r)) (tableRows d) = false
  end.
Proof.
  unfold gormCreate.
  destruct (engineError ctx (CreateStatement r)) as [e |]; [reflexivity |].
  destruct (existsb (rowMatches (naturalKeyOf r)) (tableRows d)); [reflexivity |].
  destruct (indexError d r) as [e |]; [reflexivity |].
  split; reflexivity.
Qed.

Lemma gormCreate_taken (ctx : option Context) (d : DB) (now : Time) (r : Resource) :
  existsb (rowMatches (naturalKeyOf r)) (tableRows d) = true ->
  is_Some (gormCreate ctx d now r).2.
Proof.
  intros Hex. unfold gormCreate.
  destruct (engineError ctx (CreateStatement r)) as [e |]; [eexists; reflexivity |].
  rewrite Hex. eexists. reflexivity.
Qed.

Lemma existsb_rowMatches_false (key : gmap string string) (rows : list (gmap string SQLValue)) :
  existsb (rowMatches key) rows = false ->
  filter (fun row => rowMatches key row = true) rows = []
  /\ filter (fun row => rowMatches key row = false) rows = rows.
Proof.
  induction rows as [| row rows IH]; simpl; [split; reflexivity |].
  intros Hex. apply orb_false_iff in Hex as [Hrow Hrest].
  destruct (IH Hrest) as [IH1 IH2]. split.
  - rewrite filter_cons_False by congruence. exact IH1.
  - rewrite filter_cons_True by exact Hrow. rewrite IH2. reflexivity.
Qed.

Lemma filter_not_matching_existsb (key : gmap string string) (rows : list (gmap string SQLValue)) :
  existsb (rowMatches key) (filter (fun row => rowMatches key row = false) rows) = false.
Proof.
  induction rows as [| row rows IH]; [reflexivity |].
  destruct (rowMatches key row) eqn:Hrow.
  - rewrite filter_cons_False by congruence. exact IH.
  - rewrite filter_cons_True by exact Hrow. simpl. rewrite Hrow. exact IH.
Qed.

End Keys.


(** X10. [Create] on a key that is taken fails: for an object that
    has a kind and metadata and encodes, when a row of the table has
    its cluster, group, version, resource, namespace and name, the call
    returns the interpreted error of the engine, whatever the context
    and the engine, and the rows of the table are as they were. *)
Theorem Create_existing_key_fails `{Env}
    (s : ResourceStorage) (ctx : Context) (now : Time) (cluster : string) (obj : RuntimeObject)
    (metaobj : ObjectMeta) (buffer : bytes) (row : gmap string SQLValue) :
  gvkKind (GetObjectKind obj) <> "" ->
  Accessor obj = Ok metaobj ->
  Encode (codec s) obj = Ok buffer ->
  row ∈ tableRows (db s) ->
  rowMatches (resourceKeyMap s cluster (metaNamespace metaobj) (metaName metaobj)) row = true ->
  (exists e : error,
      (Create s ctx now cluster obj).2
      = Err (interpretResourceDBError cluster (metaName metaobj) e))
  /\ tableRows (db (Create s ctx now cluster obj).1) = tableRows (db s).
Proof.
  intros Hkind Hacc Henc Hin Hrow.
  destruct (Create_unfold s ctx now cluster obj metaobj buffer Hkind Hacc Henc)
    as (r & _ & Hkey & ->).
  assert (Hex : existsb (rowMatches (naturalKeyOf r)) (tableRows (db s)) = true).
  { rewrite Hkey. apply existsb_exists. exists row.
    split; [apply list_elem_of_In, Hin | exact Hrow]. }
  pose proof (gormCreate_rows (Some ctx) (db s) now r) as Hrows.
  destruct (gormCreate_taken (Some ctx) (db s) now r Hex) as (e & He).
  rewrite He in Hrows. cbn [fst snd]. rewrite He. split; [| exact Hrows].
  exists e. reflexivity.
Qed.

Lemma Create_existing_key_fails_witness :
  (exists e : error,
      (Create (storageOn "sqlite" [webRow]) Background 2000 "c1" webObject).2 = Err e)
  /\ tableRows (db (Create (storageOn "sqlite" [webRow]) Background 2000 "c1" webObject).1)
     = [webRow].
Proof.
  refine (Create_existing_key_fails (storageOn "sqlite" [webRow]) Background 2000 "c1" webObject
            webMeta webJSON webRow _ _ _ _ _).
  - simpl. discriminate.
  - reflexivity.
  - reflexivity.
  - apply list_elem_of_here.
  - vm_compute. reflexivity.
Defined.

Section Invariant.
Context `{Env}.

Lemma uniqueKeys_fmap (f : gmap string SQLValue -> gmap string SQLValue)
    (rows : list (gmap string SQLValue)) :
  (forall row, keyColumns (f row) = keyColumns row) ->
  uniqueKeys rows -> uniqueKeys (f <$> rows).
Proof.
  intros Hf Hu. unfold uniqueKeys in *.
  rewrite <- list_fmap_compose.
  rewrite (list_fmap_ext (keyColumns ∘ f) keyColumns rows); [exact Hu |].
  intros i row _. apply Hf.
Qed.

Lemma uniqueKeys_filter (P : gmap string SQLValue -> Prop) `{forall row, Decision (P row)}
    (rows : list (gmap string SQLValue)) :
  uniqueKeys rows -> uniqueKeys (filter P rows).
Proof.
  unfold uniqueKeys. intros Hu.
  eapply sublist_NoDup; [exact Hu |]. apply fmap_sublist, sublist_filter.
Qed.

Lemma Update_uniqueKeys s ctx now cluster obj :
  uniqueKeys (tableRows (db s)) -> uniqueKeys (tableRows (db (Update s ctx now cluster obj).1)).
Proof.
  intros Hu. unfold Update, gormUpdates.
  destruct (Accessor obj) as [metaobj | e | m]; [| exact Hu ..].
  destruct (Encode (codec s) obj) as [buffer | e | m]; [| exact Hu ..].
  destruct (engineError (Some ctx) _) as [e |]; [exact Hu |].
  simpl. apply uniqueKeys_fmap; [| exact Hu].
  intros row. destruct (rowMatches _ row); [apply updated_keyColumns | reflexivity].
Qed.

Lemma Delete_uniqueKeys s ctx cluster obj :
  uniqueKeys (tableRows (db s)) -> uniqueKeys (tableRows (db (Delete s ctx cluster obj).1)).
Proof.
  intros Hu. unfold Delete, deleteObject, gormDelete.
  destruct (Accessor obj) as [metaobj | e | m]; [| exact Hu ..].
  destruct (engineError None _) as [e |]; [exact Hu |].
  simpl. apply uniqueKeys_filter, Hu.
Qed.

Lemma Create_uniqueKeys s ctx now cluster obj :
  uniqueKeys (tableRows (db s)) -> uniqueKeys (tableRows (db (Create s ctx now cluster obj).1)).
Proof.
  intros Hu.
  destruct (bool_decide (gvkKind (GetObjectKind obj) = "")) eqn:Hkind.
  { unfold Create. rewrite Hkind. exact Hu. }
  apply bool_decide_eq_false_1 in Hkind.
  destruct (Accessor obj) as [metaobj | e | m] eqn:Hacc;
    [| unfold Create; rewrite bool_decide_eq_false_2, Hacc by exact Hkind; exact Hu ..].
  destruct (Encode (codec s) obj) as [buffer | e | m] eqn:Henc;
    [| unfold Create; rewrite bool_decide_eq_false_2, Hacc, Henc by exact Hkind; exact Hu ..].
  destruct (Create_unfold s ctx now cluster obj metaobj buffer Hkind Hacc Henc)
    as (r & Hkey & Hnat & ->).
  pose proof (gormCreate_rows (Some ctx) (db s) now r) as Hrows.
  cbn [fst snd]. change (tableRows (db (withDB ?d s))) with (tableRows d).
  destruct ((gormCreate (Some ctx) (db s) now r).2) as [e |]; [rewrite Hrows; exact Hu |].
  destruct Hrows as [-> Hex]. rewrite Hnat in Hex.
  unfold uniqueKeys in *. rewrite fmap_app. simpl.
  apply NoDup_app. split; [exact Hu |]. split; [| apply NoDup_singleton].
  intros k Hk Hnew. apply list_elem_of_singleton in Hnew. subst k.
  apply list_elem_of_fmap in Hk as (row & Hrow & Hin).
  rewrite Hkey in Hrow. symmetry in Hrow.
  apply (rowMatches_resourceKeyMap s) in Hrow.
  assert (Hfalse : existsb (rowMatches (resourceKeyMap s cluster (metaNamespace metaobj)
                                          (metaName metaobj))) (tableRows (db s)) = true).
  { apply existsb_exists. exists row. split; [apply list_elem_of_In, Hin | exact Hrow]. }
  congruence.
Qed.

End Invariant.

(** X12. The natural key stays unique: when no two rows of the table
    share (cluster, group, version, resource, namespace, name), no run
    of Create, Update and Delete calls, failed ones included, under any
    contexts and on any engine, makes two rows share it. *)
Theorem writes_keep_keys_unique `{Env} (s : ResourceStorage) (ws : list Write) :
  uniqueKeys (tableRows (db s)) ->
  uniqueKeys (tableRows (db (applyWrites s ws))).
Proof.
  revert s. induction ws as [| w ws IH]; intros s Hu; [exact Hu |].
  simpl. apply IH.
  destruct w as [ctx now cluster obj | ctx now cluster obj | ctx cluster obj]; simpl.
  - apply Create_uniqueKeys, Hu.
  - apply Update_uniqueKeys, Hu.
  - apply Delete_uniqueKeys, Hu.
Qed.

Lemma writes_keep_keys_unique_witness :
  uniqueKeys (tableRows (db (applyWrites (storageOn "sqlite" [])
                               [WriteCreate Background 1 "c1" webObject;
                                WriteCreate Background 2 "c1" webObject;
                                WriteCreate cancelled 3 "c2" webObject;
                                WriteUpdate Background 4 "c1" webObject;
                                WriteDelete cancelled "c2" webObject]))).
Proof.
  apply (writes_keep_keys_unique (storageOn "sqlite" [])).
  apply NoDup_nil_2.
Defined.

Section Idempotence.
Context `{Env}.

Lemma toSQLValue_withRows (d : DB) (rows : list (gmap string SQLValue)) (v : GoValue) :
  toSQLValue (withRows rows d) v = toSQLValue d v.
Proof. destruct v; reflexivity. Qed.

Lemma Updates_twice (d : DB) (now : Time) (s : ResourceStorage) (cluster : string)
    (metaobj : ObjectMeta) (buffer : bytes) :
  let key := resourceKeyMap s cluster (metaNamespace metaobj) (metaName metaobj) in
  Updates (Updates d now key (updatedResource metaobj buffer)) now key
          (updatedResource metaobj buffer)
  = Updates d now key (updatedResource metaobj buffer).
Proof.
  intros key. unfold Updates. simpl. unfold withRows. simpl. f_equal.
  unfold key. clear key.
  set (key := resourceKeyMap s cluster (metaNamespace metaobj) (metaName metaobj)).
  rewrite <- list_fmap_compose. apply list_fmap_ext. intros i row _. simpl.
  assert (Hvalues : toSQLValue
                      (mkDB (dialectorName d) (serverIsMariaDB d)
                         ((fun row0 : gmap string SQLValue =>
                             if rowMatches key row0
                             then <["synced_at" := SQLTime now]>
                                    (toSQLValue d <$> updatedResource metaobj buffer) ∪ row0
                             else row0) <$> tableRows d) (nextID d))
                    <$> updatedResource metaobj buffer
                    = toSQLValue d <$> updatedResource metaobj buffer).
  { apply map_fmap_ext. intros k v _. destruct v; reflexivity. }
  rewrite Hvalues.
  destruct (rowMatches key row) eqn:Hm.
  - unfold key in *.
    rewrite (rowMatches_keyColumns s cluster (metaNamespace metaobj) (metaName metaobj)
               _ row (updated_keyColumns d now metaobj buffer row)).
    rewrite Hm.
    rewrite (assoc (∪)), (idemp (∪)). reflexivity.
  - rewrite Hm. reflexivity.
Qed.

End Idempotence.

(** X14. [Update] is idempotent: repeating the call with the same
    object under the same context at the same time leaves the storage
    as the first call left it and returns the same result. *)
Theorem Update_idempotent `{Env}
    (s : ResourceStorage) (ctx : Context) (now : Time) (cluster : string) (obj : RuntimeObject) :
  Update (Update s ctx now cluster obj).1 ctx now cluster obj = Update s ctx now cluster obj.
Proof.
  unfold Update, gormUpdates.
  destruct (Accessor obj) as [metaobj | e | m] eqn:Hacc; [| reflexivity ..].
  destruct (Encode (codec s) obj) as [buffer | e | m] eqn:Henc;
    [| cbn [fst snd]; rewrite Henc; reflexivity ..].
  destruct (engineError (Some ctx) _) as [e |] eqn:Hengine; cbn [fst snd];
    change (codec (withDB ?d s)) with (codec s); rewrite Henc;
    change (resourceKeyMap (withDB ?d s) cluster ?a ?b) with (resourceKeyMap s cluster a b);
    rewrite Hengine; [reflexivity |].
  change (db (withDB ?d s)) with d.
  rewrite (Updates_twice (db s) now s cluster metaobj buffer). reflexivity.
Qed.

Section Slashes.

Lemma append_empty (acc : string) : acc +:+ "" = acc.
Proof.
  induction acc as [| a acc IH]; [reflexivity |].
  change (String a (acc +:+ "") = String a acc). rewrite IH. reflexivity.
Qed.
Lemma append_String (acc : string) (c : ascii) (rest : string) :
  (acc +:+ String c "") +:+ rest = acc +:+ String c rest.
Proof.
  induction acc as [| a acc IH]; [reflexivity |].
  change (String a ((acc +:+ String c "") +:+ rest) = String a (acc +:+ String c rest)).
  rewrite IH. reflexivity.
Qed.
Lemma splitSlash_app (s rest : string) :
  forall acc, noSlash s = true ->
    splitSlash (s +:+ "/" +:+ rest) acc = (acc +:+ s) :: splitSlash rest "".
Proof.
  induction s as [| c s IH]; intros acc Hno.
  - change (("" +:+ "/" +:+ rest)) with (String "/" rest). cbn [splitSlash].
    rewrite bool_decide_eq_true_2 by reflexivity. rewrite append_empty. reflexivity.
  - cbn [noSlash] in Hno. apply andb_true_iff in Hno as [Hc Hs]. apply negb_true_iff in Hc.
    change (String c s +:+ "/" +:+ rest) with (String c (s +:+ "/" +:+ rest)).
    cbn [splitSlash]. rewrite Hc, (IH _ Hs), append_String. reflexivity.
Qed.
Lemma splitSlash_noSlash (s : string) :
  forall acc, noSlash s = true -> splitSlash s acc = [acc +:+ s].
Proof.
  induction s as [| c s IH]; intros acc Hno.
  - cbn [splitSlash]. rewrite append_empty. reflexivity.
  - cbn [noSlash] in Hno. apply andb_true_iff in Hno as [Hc Hs]. apply negb_true_iff in Hc.
    cbn [splitSlash]. rewrite Hc, (IH _ Hs), append_String. reflexivity.
Qed.

End Slashes.

(** X18. Deleting through [ConvertDeletedObject] deletes the same
    rows: for an object whose namespace and name hold no slash, the
    conversion succeeds with an object that carries that namespace and
    name and nothing else, and [Delete] of the converted object
    is [Delete] of the object itself. *)
Theorem ConvertDeletedObject_then_Delete `{Env}
    (s : ResourceStorage) (ctx : Context) (cluster : string) (obj : RuntimeObject)
    (metaobj : ObjectMeta) :
  Accessor obj = Ok metaobj ->
  noSlash (metaNamespace metaobj) = true ->
  noSlash (metaName metaobj) = true ->
  ConvertDeletedObject (LiveObject obj)
  = Ok (partialObjectMetadata (metaNamespace metaobj) (metaName metaobj))
  /\ Delete s ctx cluster (partialObjectMetadata (metaNamespace metaobj) (metaName metaobj))
     = Delete s ctx cluster obj.
Proof.
  intros Hacc Hns Hname. split.
  - unfold ConvertDeletedObject, DeletionHandlingMetaNamespaceKeyFunc, MetaNamespaceKeyFunc.
    rewrite Hacc. cbn [res_bind].
    destruct (bool_decide (metaNamespace metaobj <> "")) eqn:Hempty; cbn [res_bind].
    + unfold SplitMetaNamespaceKey.
      rewrite (splitSlash_app _ _ "" Hns), (splitSlash_noSlash _ "" Hname). reflexivity.
    + apply bool_decide_eq_false_1 in Hempty.
      assert (Hnil : metaNamespace metaobj = "")
        by (destruct (decide (metaNamespace metaobj = "")); [assumption | contradiction]).
      unfold SplitMetaNamespaceKey.
      rewrite (splitSlash_noSlash _ "" Hname), Hnil. reflexivity.
  - unfold Delete. rewrite Hacc. reflexivity.
Qed.

Lemma ConvertDeletedObject_then_Delete_witness :
  ConvertDeletedObject (LiveObject webObject) = Ok (partialObjectMetadata "default" "web")
  /\ Delete (storageOn "sqlite" [webRow]) Background "c1"
            (partialObjectMetadata "default" "web")
     = Delete (storageOn "sqlite" [webRow]) Background "c1" webObject.
Proof.
  exact (ConvertDeletedObject_then_Delete (storageOn "sqlite" [webRow]) Background "c1"
           webObject webMeta eq_refl eq_refl eq_refl).
Defined.

(** X19. For a tombstone, [ConvertDeletedObject] goes by the key
    alone: a key without a slash gives a cluster-scoped object of that
    name, a key namespace/name gives that namespace and name, and a key
    with a further slash is refused. *)
Theorem ConvertDeletedObject_tombstone
    (namespace name extra : string) (obj : option RuntimeObject) :
  noSlash namespace = true ->
  noSlash name = true ->
  noSlash extra = true ->
  ConvertDeletedObject (DeletedFinalStateUnknown name obj) = Ok (partialObjectMetadata "" name)
  /\ ConvertDeletedObject (DeletedFinalStateUnknown (namespace +:+ "/" +:+ name) obj)
     = Ok (partialObjectMetadata namespace name)
  /\ exists e,
       ConvertDeletedObject
         (DeletedFinalStateUnknown (namespace +:+ "/" +:+ name +:+ "/" +:+ extra) obj)
       = Err e.
Proof.
  intros Hns Hname Hextra.
  unfold ConvertDeletedObject, DeletionHandlingMetaNamespaceKeyFunc, SplitMetaNamespaceKey.
  cbn [res_bind]. split; [| split].
  - rewrite (splitSlash_noSlash _ "" Hname). reflexivity.
  - rewrite (splitSlash_app _ _ "" Hns), (splitSlash_noSlash _ "" Hname). reflexivity.
  - rewrite (splitSlash_app _ _ "" Hns), (splitSlash_app _ _ "" Hname),
      (splitSlash_noSlash _ "" Hextra).
    eexists. reflexivity.
Qed.

Lemma ConvertDeletedObject_tombstone_witness :
  ConvertDeletedObject (DeletedFinalStateUnknown "node-1" None)
  = Ok (partialObjectMetadata "" "node-1")
  /\ ConvertDeletedObject (DeletedFinalStateUnknown "default/web" None)
     = Ok (partialObjectMetadata "default" "web")
  /\ exists e, ConvertDeletedObject (DeletedFinalStateUnknown "default/web/status" None) = Err e.
Proof.
  destruct (ConvertDeletedObject_tombstone "default" "web" "status" None eq_refl eq_refl eq_refl)
    as (_ & Hkey & Hrefused).
  split; [| split; [exact Hkey | exact Hrefused]].
  exact (proj1 (ConvertDeletedObject_tombstone "default" "node-1" "x" None
                  eq_refl eq_refl eq_refl)).
Defined.

(** X29. [Delete] is not bound to the context it is given: its
    statement runs on the handle of the storage as it is, and the
    outcome is the same under every context. A context under which the
    engine refuses every statement stops [Create] and [Update], which
    return the interpreted error of the engine and leave the rows as
    they were, but not [Delete]. *)
Theorem Delete_ignores_context `{Env}
    (s : ResourceStorage) (ctx other : Context) (now : Time) (cluster : string)
    (obj : RuntimeObject) (metaobj : ObjectMeta) (buffer : bytes) (e : error) :
  (forall statement : Statement, engineError (Some ctx) statement = Some e) ->
  gvkKind (GetObjectKind obj) <> "" ->
  Accessor obj = Ok metaobj ->
  Encode (codec s) obj = Ok buffer ->
  ((Create s ctx now cluster obj).2 = Err (interpretResourceDBError cluster (metaName metaobj) e)
   /\ tableRows (db (Create s ctx now cluster obj).1) = tableRows (db s))
  /\ ((Update s ctx now cluster obj).2
      = Err (interpretResourceDBError cluster (metaName metaobj) e)
      /\ tableRows (db (Update s ctx now cluster obj).1) = tableRows (db s))
  /\ Delete s ctx cluster obj = Delete s other cluster obj.
Proof.
  intros Hdone Hkind Hacc Henc. split; [| split].
  - destruct (Create_unfold s ctx now cluster obj metaobj buffer Hkind Hacc Henc)
      as (r & _ & _ & ->).
    unfold gormCreate. rewrite Hdone. split; reflexivity.
  - unfold Update, gormUpdates. rewrite Hacc, Henc, Hdone. split; reflexivity.
  - reflexivity.
Qed.

Lemma Delete_ignores_context_witness :
  tableRows (db (Update (storageOn "sqlite" [webRow]) cancelled 2000 "c1" webObject).1)
  = [webRow]
  /\ Delete (storageOn "sqlite" [webRow]) cancelled "c1" webObject
     = Delete (storageOn "sqlite" [webRow]) Background "c1" webObject.
Proof.
  destruct (Delete_ignores_context (storageOn "sqlite" [webRow]) cancelled Background 2000 "c1"
              webObject webMeta webJSON (PlainError "context canceled"))
    as (_ & (_ & Hupdate) & Hdelete).
  - intros statement. reflexivity.
  - simpl. discriminate.
  - reflexivity.
  - reflexivity.
  - split; [exact Hupdate | exact Hdelete].
Defined.

End InternalStorageOpsSpec.

(** * Properties of the outcomes of List *)
Module InternalStorageListSpec.
Import InternalStorage StorageExamples InternalStorageList.

Section Outcomes.
Context `{Env}.

Lemma setPaging_items opts offset amount n l :
  itemsOf (setPaging opts offset amount n l) = itemsOf l.
Proof.
  unfold setPaging.
  destruct (bool_decide (WithContinue opts = Some true) && bool_decide (Z.of_nat n = Limit opts)),
           amount, l; reflexivity.
Qed.

Lemma setPaging_typed opts offset amount n lm items :
  exists lm', setPaging opts offset amount n (TypedList lm items) = TypedList lm' items.
Proof.
  unfold setPaging.
  destruct (bool_decide (WithContinue opts = Some true) && bool_decide (Z.of_nat n = Limit opts)),
           amount; simpl; eexists; reflexivity.
Qed.

Lemma setPaging_untyped opts offset amount n apiVersion lm items :
  exists lm',
    setPaging opts offset amount n (UnstructuredList apiVersion lm items)
    = UnstructuredList apiVersion lm' items.
Proof.
  unfold setPaging.
  destruct (bool_decide (WithContinue opts = Some true) && bool_decide (Z.of_nat n = Limit opts)),
           amount; simpl; eexists; reflexivity.
Qed.

(** The unstructured loop stops at the first object that does not
    convert, with the objects before it converted and appended. *)
Lemma convertUnstructured_stops (c : Codec) (listAPIVersion : string)
    (done : list Object) (bad : Object) (rest : list Object) (e : error) :
  Forall (convertsToUnstructured c) done ->
  ConvertTo bad c (Unstr zeroUnstructured) = Err e ->
  forall acc,
    exists new,
      convertUnstructured c listAPIVersion (done ++ bad :: rest) acc = (acc ++ new, Err e)
      /\ Forall2 (converted c) done new.
Proof.
  intros Hdone Hbad. induction Hdone as [| object done Hobject _ IH]; intros acc.
  - exists []. simpl. rewrite Hbad, app_nil_r. split; [reflexivity | constructor].
  - destruct Hobject as (uObj & Hconv). simpl. rewrite Hconv.
    match goal with
    | |- context [convertUnstructured _ _ _ (acc ++ [?item])] =>
        destruct (IH (acc ++ [item])) as (new & Hnew & Hall); exists (item :: new)
    end.
    rewrite Hnew, <- app_assoc. split; [reflexivity |].
    constructor; [| exact Hall].
    exists uObj. split; [exact Hconv |].
    destruct (GroupVersionKind_Empty _); [| split; reflexivity].
    destruct (bool_decide (listAPIVersion <> "")),
             (negb (ResourceType_Empty (GetResourceType object))); split; reflexivity.
Qed.

End Outcomes.

(** X21. When the query selects no row, [List] succeeds and leaves the
    Items of the list object as it found them: they are not emptied. *)
Theorem List_empty_page_keeps_items `{Env}
    (s : ResourceStorage) (listObject : ListObject) (opts : ListOptions)
    (offset : Z) (amount : option Z) (query : Query) (kind : ObjectListKind) (lm : ListMeta) :
  genListObjectsQuery s opts = Ok (offset, amount, query, kind) ->
  FromItems kind (db s) query = Ok [] ->
  ListAccessor listObject = Ok lm ->
  (List s listObject opts).2 = Ok tt
  /\ itemsOf (List s listObject opts).1 = itemsOf listObject.
Proof.
  intros Hq Hfrom Hl. unfold List, materialize. rewrite Hq, Hfrom, Hl. simpl.
  split; [reflexivity | apply setPaging_items].
Qed.

Lemma List_empty_page_keeps_items_witness :
  (List (storageOn "sqlite" []) (TypedList (mkListMeta "" None) [web])
        (listOptions false false)).2 = Ok tt
  /\ itemsOf (List (storageOn "sqlite" []) (TypedList (mkListMeta "" None) [web])
                   (listOptions false false)).1
     = TypedItems [web].
Proof.
  refine (List_empty_page_keeps_items (storageOn "sqlite" []) (TypedList (mkListMeta "" None) [web])
            (listOptions false false) 0 None _ BytesList (mkListMeta "" None) _ _ _);
    vm_compute; reflexivity.
Defined.

(** X22. A typed list is filled all at once: whenever [List] does not
    succeed on it, its Items are the ones it came with, whatever number
    of objects had been converted by then. *)
Theorem List_typed_all_or_nothing `{Env}
    (s : ResourceStorage) (lm : ListMeta) (items : list TypedObject) (opts : ListOptions) :
  (List s (TypedList lm items) opts).2 <> Ok tt ->
  itemsOf (List s (TypedList lm items) opts).1 = TypedItems items.
Proof.
  unfold List, materialize.
  destruct (genListObjectsQuery s opts) as [[[[offset amount] query] kind] | e | m];
    [| reflexivity ..].
  destruct (FromItems kind (db s) query) as [objects | e | m]; [| reflexivity ..].
  cbn [ListAccessor].
  destruct (setPaging_typed opts offset amount (List.length objects) lm items) as (lm' & ->).
  destruct (bool_decide (List.length objects = 0%nat)); [reflexivity |].
  destruct (convertTyped (codec s) objects) as [slice | e | m]; [| reflexivity ..].
  intros Hfail. contradiction Hfail. reflexivity.
Qed.

Lemma List_typed_all_or_nothing_witness :
  itemsOf (List (storageOn "sqlite" [webRow; brokenRow]) (TypedList (mkListMeta "" None) [])
                (listOptions false false)).1
  = TypedItems [].
Proof.
  apply (List_typed_all_or_nothing (storageOn "sqlite" [webRow; brokenRow])
           (mkListMeta "" None) [] (listOptions false false)).
  vm_compute. discriminate.
Defined.

(** X23. An unstructured list is filled object by object: when the
    conversion of one object read fails, [List] returns that error and
    leaves in the list the converted objects that came before it, in
    place of the Items the list came with. *)
Theorem List_unstructured_keeps_converted_prefix `{Env}
    (s : ResourceStorage) (apiVersion : string) (lm : ListMeta) (old : list Unstructured)
    (opts : ListOptions) (offset : Z) (amount : option Z) (query : Query)
    (kind : ObjectListKind) (done : list Object) (bad : Object) (rest : list Object)
    (e : error) :
  genListObjectsQuery s opts = Ok (offset, amount, query, kind) ->
  FromItems kind (db s) query = Ok (done ++ bad :: rest) ->
  Forall (convertsToUnstructured (codec s)) done ->
  ConvertTo bad (codec s) (Unstr zeroUnstructured) = Err e ->
  exists lm' items,
    List s (UnstructuredList apiVersion lm old) opts
    = (UnstructuredList apiVersion lm' items, Err e)
    /\ Forall2 (converted (codec s)) done items.
Proof.
  intros Hq Hfrom Hdone Hbad. unfold List, materialize. rewrite Hq, Hfrom. cbn [ListAccessor].
  destruct (setPaging_untyped opts offset amount (List.length (done ++ bad :: rest))
              apiVersion lm old) as (lm' & ->).
  rewrite bool_decide_eq_false_2
    by (rewrite length_app; simpl; lia).
  destruct (convertUnstructured_stops (codec s) apiVersion done bad rest e Hdone Hbad [])
    as (new & -> & Hnew).
  exists lm', new. split; [reflexivity | exact Hnew].
Qed.

Lemma List_unstructured_keeps_converted_prefix_witness :
  exists lm' items,
    List (storageOn "sqlite" [webRow; brokenRow]) emptyUnstructuredList (listOptions false false)
    = (UnstructuredList "apps/v1" lm' items,
       Err (PlainError "couldn't get version/kind; json parse error"))
    /\ Forall2 (converted exampleCodec) [ObjBytes webJSON] items.
Proof.
  refine (List_unstructured_keeps_converted_prefix (storageOn "sqlite" [webRow; brokenRow])
            "apps/v1" (mkListMeta "" None) [] (listOptions false false) 0 None _ BytesList
            [ObjBytes webJSON] (ObjBytes "{") [] _ _ _ _ _).
  - vm_compute. reflexivity.
  - vm_compute. reflexivity.
  - constructor; [| constructor]. eexists. vm_compute. reflexivity.
  - vm_compute. reflexivity.
Defined.

(** X24. In the typed loop an events column that does not decode is
    no error: the object is delivered exactly as a row read without its
    events would be, with no events annotation. *)
Theorem convertTyped_undecodable_events `{Env}
    (c : Codec) (data : BytesWithEvents) (rest : list Object) (e : error) :
  EventsBytes_Decode (bweEvents data) = Err e ->
  convertTyped c (ObjBytesWithEvents data :: rest)
  = convertTyped c (ObjBytes (bweObject data) :: rest).
Proof.
  intros Hdecode. simpl. rewrite Hdecode. reflexivity.
Qed.

Lemma convertTyped_undecodable_events_witness :
  convertTyped exampleCodec [ObjBytesWithEvents (scanBytesWithEvents brokenEventsRow)]
  = convertTyped exampleCodec [ObjBytes webJSON].
Proof.
  exact (convertTyped_undecodable_events exampleCodec (scanBytesWithEvents brokenEventsRow) []
           (PlainError "unexpected end of JSON input") eq_refl).
Defined.

(** X25. With exactly one cluster and an owner UID,
    [applyOwnerToResourceQuery] succeeds, and the owner name, its group
    resource and the namespaces play no part: the one condition added
    after those of the query is the one built from the UID. *)
Theorem applyOwnerToResourceQuery_uid_first `{Env}
    (d : DB) (query : Query) (opts : ListOptions) (cluster : string) :
  ClusterNames opts = [cluster] ->
  OwnerUID opts <> "" ->
  exists clause,
    applyOwnerToResourceQuery d query opts = Ok (Where clause query)
    /\ (clause = WhereSQL "owner_uid = ?"
                   (buildOwnerQueryByUID d cluster (OwnerUID opts) (OwnerSeniority opts))
        \/ clause = WhereSQL "owner_uid IN (?)"
                      (buildOwnerQueryByUID d cluster (OwnerUID opts) (OwnerSeniority opts))).
Proof.
  intros Hcluster Huid. unfold applyOwnerToResourceQuery. rewrite Hcluster. simpl.
  rewrite bool_decide_eq_true_2 by exact Huid.
  unfold applyOwnerQuery.
  destruct (buildOwnerQueryByUID d cluster (OwnerUID opts) (OwnerSeniority opts));
    eexists; (split; [reflexivity |]); [left | right]; reflexivity.
Qed.

Lemma applyOwnerToResourceQuery_uid_first_witness :
  exists clause,
    applyOwnerToResourceQuery (db (storageOn "sqlite" [webRow])) emptyQuery
      (oneClusterOwnerOptions "web" ["default"])
    = Ok (Where clause emptyQuery)
    /\ (clause = WhereSQL "owner_uid = ?" (OwnerQueryString "uid-web")
        \/ clause = WhereSQL "owner_uid IN (?)" (OwnerQueryString "uid-web")).
Proof.
  exact (applyOwnerToResourceQuery_uid_first (db (storageOn "sqlite" [webRow])) emptyQuery
           (oneClusterOwnerOptions "web" ["default"]) "c1" eq_refl
           ltac:(discriminate)).
Defined.

End InternalStorageListSpec.

(** * Properties of the metrics plugin *)
Module GormMetricsSpec.
Import GormMetrics.

Lemma NewGormMetrics_interval (h : Maps) (config : MetricsConfig) :
  refreshInterval (NewGormMetrics h config).2
  = if bool_decide (cfgRefreshInterval config = 0) then 15 else cfgRefreshInterval config.
Proof.
  unfold NewGormMetrics, make. reflexivity.
Qed.

(** X26. The plugin never ticks with a period of zero: for any
    refresh interval a uint32 can hold, the interval kept is 15 when
    none was given and the given one otherwise, and the period handed
    to the ticker, an int64 count of nanoseconds, is that many seconds
    exactly, without wrap-around, and positive. *)
Theorem NewGormMetrics_tick_period (h : Maps) (config : MetricsConfig) :
  in_uint32 (cfgRefreshInterval config) ->
  (cfgRefreshInterval config = 0 -> refreshInterval (NewGormMetrics h config).2 = 15)
  /\ (cfgRefreshInterval config <> 0 ->
      refreshInterval (NewGormMetrics h config).2 = cfgRefreshInterval config)
  /\ tickPeriod (NewGormMetrics h config).2
     = refreshInterval (NewGormMetrics h config).2 * 1000000000
  /\ 0 < tickPeriod (NewGormMetrics h config).2.
Proof.
  intros [Hlo Hhi]. unfold tickPeriod. rewrite NewGormMetrics_interval.
  destruct (bool_decide (cfgRefreshInterval config = 0)) eqn:Hzero.
  - apply bool_decide_eq_true_1 in Hzero.
    split; [reflexivity |]. split; [intros Hne; contradiction |].
    split; vm_compute; reflexivity.
  - apply bool_decide_eq_false_1 in Hzero.
    split; [intros Heq; contradiction |]. split; [reflexivity |].
    assert (Hwrap : wrap64 (cfgRefreshInterval config * Second)
                    = cfgRefreshInterval config * 1000000000).
    { unfold wrap64, Second.
      rewrite Z.mod_small; [lia |].
      change (2 ^ 32) with 4294967296 in Hhi.
      change (2 ^ 63) with 9223372036854775808.
      change (2 ^ 64) with 18446744073709551616. lia. }
    rewrite Hwrap. split; [reflexivity | lia].
Qed.

Lemma NewGormMetrics_tick_period_witness :
  refreshInterval (NewGormMetrics [] (mkMetricsConfig "clusterpedia" 4294967295 None)).2
  = 4294967295
  /\ tickPeriod (NewGormMetrics [] (mkMetricsConfig "clusterpedia" 4294967295 None)).2
     = 4294967295000000000.
Proof.
  destruct (NewGormMetrics_tick_period [] (mkMetricsConfig "clusterpedia" 4294967295 None))
    as (_ & Hgiven & Hperiod & _).
  - unfold in_uint32. simpl. lia.
  - split.
    + apply Hgiven. discriminate.
    + rewrite Hperiod, Hgiven by discriminate. reflexivity.
Defined.

(** X27. Labels given in the configuration are not copied: the
    plugin keeps the very map of the caller, and a database name is
    written into that map under db_name, replacing what it held there,
    while every other map is left alone. *)
Theorem NewGormMetrics_writes_into_given_labels
    (h : Maps) (config : MetricsConfig) (given : Address) (labels : gmap string string) :
  cfgLabels config = Some given ->
  h !! given = Some labels ->
  cfgDBName config <> "" ->
  Labels (NewGormMetrics h config).2 = given
  /\ (NewGormMetrics h config).1 !! given = Some (<["db_name" := cfgDBName config]> labels)
  /\ (forall other, other <> given -> (other < List.length h)%nat ->
      (NewGormMetrics h config).1 !! other = h !! other).
Proof.
  intros Hgiven Hlabels Hname. unfold NewGormMetrics, make, mapassign. rewrite Hgiven.
  rewrite bool_decide_eq_true_2 by exact Hname. cbn [fst snd Labels].
  split; [reflexivity |]. split.
  - rewrite list_lookup_alter_eq, lookup_app_l by (eapply lookup_lt_Some; exact Hlabels).
    rewrite Hlabels. reflexivity.
  - intros other Hother Hlt.
    rewrite list_lookup_alter_ne by (intros Heq; apply Hother; symmetry; exact Heq).
    apply lookup_app_l. exact Hlt.
Qed.

Lemma NewGormMetrics_writes_into_given_labels_witness :
  (NewGormMetrics [ {[ "db_name" := "old"; "zone" := "a" ]} ]
     (mkMetricsConfig "clusterpedia" 0 (Some 0%nat))).1 !! 0%nat
  = Some (<["db_name" := "clusterpedia"]> {[ "db_name" := "old"; "zone" := "a" ]}).
Proof.
  apply (NewGormMetrics_writes_into_given_labels
           [ {[ "db_name" := "old"; "zone" := "a" ]} ]
           (mkMetricsConfig "clusterpedia" 0 (Some 0%nat)) 0%nat
           {[ "db_name" := "old"; "zone" := "a" ]}).
  - reflexivity.
  - reflexivity.
  - discriminate.
Defined.

(** X28. Without labels in the configuration the plugin gets a map of
    its own, one that did not exist before: it holds the database name
    under db_name when one is given and nothing otherwise, and no map
    that existed is changed. *)
Theorem NewGormMetrics_nil_labels_are_fresh (h : Maps) (config : MetricsConfig) :
  cfgLabels config = None ->
  h !! Labels (NewGormMetrics h config).2 = None
  /\ (NewGormMetrics h config).1 !! Labels (NewGormMetrics h config).2
     = Some (if bool_decide (cfgDBName config <> "")
             then {[ "db_name" := cfgDBName config ]} else ∅)
  /\ (forall other, (other < List.length h)%nat ->
      (NewGormMetrics h config).1 !! other = h !! other).
Proof.
  intros Hnil. unfold NewGormMetrics, make, mapassign. rewrite Hnil.
  destruct (bool_decide (cfgDBName config <> "")); cbn [fst snd Labels].
  - split; [apply lookup_ge_None_2; lia |]. split.
    + rewrite list_lookup_alter_eq, lookup_app_r by lia.
      rewrite Nat.sub_diag. simpl. rewrite insert_empty. reflexivity.
    + intros other Hlt. rewrite list_lookup_alter_ne by lia. apply lookup_app_l. exact Hlt.
  - split; [apply lookup_ge_None_2; lia |]. split.
    + rewrite lookup_app_r by lia. rewrite Nat.sub_diag. reflexivity.
    + intros other Hlt. apply lookup_app_l. exact Hlt.
Qed.

Lemma NewGormMetrics_nil_labels_are_fresh_witness :
  (NewGormMetrics [ {[ "zone" := "a" ]} ] (mkMetricsConfig "clusterpedia" 0 None)).1 !! 1%nat
  = Some {[ "db_name" := "clusterpedia" ]}.
Proof.
  exact (proj1 (proj2 (NewGormMetrics_nil_labels_are_fresh [ {[ "zone" := "a" ]} ]
                         (mkMetricsConfig "clusterpedia" 0 None) eq_refl))).
Defined.

End GormMetricsSpec.
